(** * Repeat-masking utilities

    A shallow embedding of [repeatmasking_utils.py]: the three per-slice
    workers (RepeatMasker, Dust, TRF), their raw-output parsers and the three
    entry points that dispatch them, followed by the properties checked
    against the code.

    Conventions of the embedding.
    - Text is a Rocq [string]; a character is a code point below 256.  Files
      are read in text mode, so their contents are the decoded text with
      newlines already translated to a line feed.
    - Python integers are [Z]; [int(s)] and [str(n)] refuse more than 4300
      digits with a [ValueError], as CPython does by default.  A Python
      float is a [pyfloat] (an exact rational, an infinity or a NaN),
      compared by value as Python compares a float with an integer literal.
      [float(s)] and [str(x)] for a float are runtime parameters of the
      development.
    - The file system is a finite map from an absolute path to a node.  A
      path the program uses is taken from the working directory unless it
      starts with a slash ([resolve]); [.], [..] and doubled slashes are
      not normalised, and the existence of parent directories is not
      tracked.
    - A tool run by [subprocess.run] is a function of its arguments, the
      working directory and the file system.  That the executable is found
      is what each entry point calls [check_exe] for before it dispatches
      a worker, and is presupposed of the workers.
    - Code with effects runs in a state-and-exception monad over a [world]
      (file system, working directory, heap of list objects, event trace).
    - A [while] loop is run with fuel; running out of fuel is the outcome
      [OutOfFuel], distinct from returning and from raising. *)

From Stdlib Require Import ZArith QArith String Ascii List Lia.
From stdpp Require Import base option list strings gmap pretty.

Local Open Scope Z_scope.
Local Open Scope string_scope.

(** ** The Python runtime pieces the program uses *)

Module Py.

(** Characters that cannot be typed inside a string literal. *)
Definition tab : string := String "009"%char EmptyString.
Definition nl : string := String "010"%char EmptyString.
Definition dq : string := String "034"%char EmptyString.

Definition is_empty (s : string) : bool :=
  match s with EmptyString => true | String _ _ => false end.

(** [str.isspace] and the class [\s] of [re] on a code point below 256:
    TAB..CR, FS..US, space, NEL and the no-break space. *)
Definition isspace (c : ascii) : bool :=
  let n := N_of_ascii c in
  ((9 <=? n) && (n <=? 13) || (28 <=? n) && (n <=? 32)
   || (n =? 133) || (n =? 160))%N.

(** The class [\d] of [re] on a code point below 256: the digits 0..9. *)
Definition isdigit (c : ascii) : bool :=
  let n := N_of_ascii c in ((48 <=? n) && (n <=? 57))%N.

(** Greedy [\s*] at the head of a string: what is left after it. *)
Fixpoint skip_spaces (s : string) : string :=
  match s with
  | String c s' => if isspace c then skip_spaces s' else s
  | EmptyString => EmptyString
  end.

(** Greedy [\d*] at the head of a string: the digits and what is left. *)
Fixpoint span_digits (s : string) : string * string :=
  match s with
  | String c s' =>
      if isdigit c
      then let '(d, r) := span_digits s' in (String c d, r)
      else (EmptyString, s)
  | EmptyString => (EmptyString, EmptyString)
  end.

(** [re.search(r"^\s*\d+\s+", line)] as a truth value. *)
Definition re_masker (line : string) : bool :=
  let '(d, r) := span_digits (skip_spaces line) in
  negb (is_empty d)
  && match r with String c _ => isspace c | EmptyString => false end.

(** [re.search(r"^\d+", line)] as a truth value. *)
Definition re_trf (line : string) : bool :=
  match line with String c _ => isdigit c | EmptyString => false end.

(** The pattern [(\d+)\ - (\d+)] tried at the head of [s]: both groups. *)
Definition re_dust_at (s : string) : option (string * string) :=
  let '(g1, r) := span_digits s in
  if is_empty g1 then None
  else match r with
       | String " " (String "-" (String " " r')) =>
           let '(g2, _) := span_digits r' in
           if is_empty g2 then None else Some (g1, g2)
       | _ => None
       end.

(** [re.search(r"(\d+)\ - (\d+)", line)]: the leftmost match, its groups. *)
Fixpoint re_dust (s : string) : option (string * string) :=
  match s with
  | EmptyString => None
  | String _ s' =>
      match re_dust_at s with
      | Some g => Some g
      | None => re_dust s'
      end
  end.

(** [str.split()] with no argument: the maximal runs of non-space
    characters.  [cur] is the run being read, in reverse. *)
Fixpoint split_go (cur : string) (s : string) : list string :=
  match s with
  | EmptyString => if is_empty cur then [] else [String.rev cur]
  | String c s' =>
      if isspace c
      then if is_empty cur then split_go EmptyString s'
           else String.rev cur :: split_go EmptyString s'
      else split_go (String c cur) s'
  end.

Definition split (s : string) : list string := split_go EmptyString s.

(** [f.readline()] on the unread text of a file: the line, with its line
    feed when it has one, and the text still unread.  At the end of the
    file the line is empty. *)
Fixpoint readline (s : string) : string * string :=
  match s with
  | EmptyString => (EmptyString, EmptyString)
  | String c s' =>
      if Ascii.eqb c "010"%char then (String c EmptyString, s')
      else let '(l, r) := readline s' in (String c l, r)
  end.

(** [int(s)] on a string of digits (what a group [\d+] holds), and
    [str(n)] for an integer.  Both refuse more than 4300 digits, the
    default of [sys.set_int_max_str_digits], with a [ValueError]; [None]
    stands for it. *)
Definition digit_value (c : ascii) : Z := Z.of_N (N_of_ascii c) - 48.

Fixpoint int_go (acc : Z) (s : string) : Z :=
  match s with
  | EmptyString => acc
  | String c s' => int_go (10 * acc + digit_value c) s'
  end.

Definition int_max_str_digits : Z := 4300.

Definition int (s : string) : option Z :=
  if (Z.of_nat (String.length s) <=? int_max_str_digits)%Z
  then Some (int_go 0 s) else None.

Definition str_int (n : Z) : option string :=
  if (Z.abs n <? 10 ^ int_max_str_digits)%Z then Some (pretty n) else None.

(** [sep.join(l)]. *)
Fixpoint join (sep : string) (l : list string) : string :=
  match l with
  | [] => EmptyString
  | [x] => x
  | x :: l' => x +:+ sep +:+ join sep l'
  end.

(** Truth value of an argument that is [None] or a string. *)
Definition truthy (o : option string) : bool :=
  match o with
  | Some s => negb (is_empty s)
  | None => false
  end.

(** [os.path.join(a, b)] of [posixpath]. *)
Definition ends_with_slash (s : string) : bool :=
  match String.rev s with String "/" _ => true | _ => false end.

Definition os_path_join (a b : string) : string :=
  match b with
  | String "/" _ => b
  | _ => if is_empty a || ends_with_slash a then a +:+ b
         else a +:+ "/" +:+ b
  end.

(** The file a path names for a process whose working directory is [cwd]:
    the path itself when it starts with a slash, and else the path under
    [cwd]. *)
Definition resolve (cwd path : string) : string := os_path_join cwd path.

(** Floats: a finite float is the rational it denotes. *)
Inductive pyfloat :=
| FFinite (q : Q)
| FInf (negative : bool)
| FNan.

Definition Qltb (x y : Q) : bool :=
  (Qnum x * Zpos (Qden y) <? Qnum y * Zpos (Qden x))%Z.

(** [a < b] and [a <= b] on floats; every comparison with a NaN is false. *)
Definition float_lt (a b : pyfloat) : bool :=
  match a, b with
  | FNan, _ | _, FNan => false
  | FFinite x, FFinite y => Qltb x y
  | FInf true, FInf true => false
  | FInf true, _ => true
  | FFinite _, FInf n => negb n
  | FInf false, _ => false
  end.

Definition float_le (a b : pyfloat) : bool :=
  match a, b with
  | FNan, _ | _, FNan => false
  | FFinite x, FFinite y => Qle_bool x y
  | FInf true, _ => true
  | FFinite _, FInf n => negb n
  | FInf false, FInf n => negb n
  | FInf false, FFinite _ => false
  end.

Definition float_gt (a b : pyfloat) : bool := float_lt b a.
Definition float_ge (a b : pyfloat) : bool := float_le b a.

(** An integer literal compared with a float. *)
Definition of_int (z : Z) : pyfloat := FFinite (inject_Z z).

(** The values a canonical record holds. *)
Inductive pyval :=
| PStr (s : string)
| PInt (z : Z)
| PFloat (f : pyfloat).

Inductive exn :=
| FileNotFoundError
| IsADirectoryError
| IndexError
| ValueError
| TypeError
| SystemExit.

End Py.

Import Py.

(** ** Canonical records and their wire format *)

Record feature := Feature {
  seqname : string;
  source : string;
  f_start : pyval;
  f_end : pyval;
  strand : string;
  attributes : list (string * pyval)
}.

(** The state of one parse pass: the text of the raw output not yet read,
    the line last read, the counter [repeat_count], and the records written
    to the canonical file so far, oldest first. *)
Record pass := Pass {
  unread : string;
  line : string;
  repeat_count : Z;
  written : list feature
}.

(** [line = f.readline()]. *)
Definition next_line (st : pass) : pass :=
  let '(l, r) := readline (unread st) in
  Pass r l (repeat_count st) (written st).

(** [out.write(gtf_line); repeat_count += 1]. *)
Definition emit (f : feature) (st : pass) : pass :=
  Pass (unread st) (line st) (repeat_count st + 1) (written st ++ [f]).

(** [line = f.readline(); repeat_count = 1] before the loop. *)
Definition start_pass (text : string) : pass :=
  next_line (Pass text EmptyString 1 []).

Inductive res (A : Type) :=
| Ret (a : A)
| Raise (e : exn)
| OutOfFuel.
Arguments Ret {A} a.
Arguments Raise {A} e.
Arguments OutOfFuel {A}.

(** [while line: body].  The body either raises or gives the next state; a
    [continue] gives the state it was entered with.  The pass is returned
    with the outcome, so that what was written is known however the loop
    ends; with outcome [OutOfFuel] it is the state after [fuel] rounds. *)
Fixpoint while_line (body : pass -> exn + pass) (fuel : nat) (st : pass)
  : res unit * pass :=
  if is_empty (line st) then (Ret tt, st)
  else match fuel with
       | O => (OutOfFuel, st)
       | S fuel' =>
           match body st with
           | inl e => (Raise e, st)
           | inr st' => while_line body fuel' st'
           end
       end.

(** *** RepeatMasker: the body of the loop of [create_repeatmasker_gtf] *)

Definition repeatmasker_feature (region_name : string) (repeat_count : Z)
    (results : list string) : feature :=
  let score := results !!! 0%nat in
  let start := results !!! 5%nat in
  let end_ := results !!! 6%nat in
  let strand := results !!! 8%nat in
  let repeat_name := results !!! 9%nat in
  let repeat_class := results !!! 10%nat in
  let '(repeat_start, repeat_end, strand) :=
    if String.eqb strand "+"
    then (results !!! 11%nat, results !!! 12%nat, strand)
    else (results !!! 13%nat, results !!! 12%nat, "-") in
  Feature region_name "RepeatMasker" (PStr start) (PStr end_) strand
    [("repeat_id", PInt repeat_count);
     ("repeat_name", PStr repeat_name);
     ("repeat_class", PStr repeat_class);
     ("repeat_start", PStr repeat_start);
     ("repeat_end", PStr repeat_end);
     ("score", PStr score)].

(** [results = line.split(); if results[-1] == "*": results.pop()]. *)
Definition repeatmasker_fields (line : string) : exn + list string :=
  let results := split line in
  match last results with
  | None => inl IndexError
  | Some l => inr (if String.eqb l "*" then removelast results else results)
  end.

Definition repeatmasker_body (region_name : string) (st : pass)
  : exn + pass :=
  if re_masker (line st) then
    match repeatmasker_fields (line st) with
    | inl e => inl e
    | inr results =>
        if negb (length results =? 15)%nat then inr st
        else inr (next_line
                    (emit (repeatmasker_feature region_name
                             (repeat_count st) results) st))
    end
  else inr (next_line st).

(** *** Dust: the body of the loop of [create_dust_gtf] *)

Definition dust_feature (region_name : string) (repeat_count : Z)
    (start end_ : Z) : feature :=
  Feature region_name "Dust" (PInt start) (PInt end_) "+"
    [("repeat_id", PInt repeat_count)].

(** [start = int(group(1)) + 1; end = int(group(2)) + 1], and [str(start)],
    [str(end)] as the line is built: each of the four conversions can
    raise. *)
Definition dust_bounds (g1 g2 : string) : option (Z * Z) :=
  match int g1, int g2 with
  | Some a, Some b =>
      match str_int (a + 1), str_int (b + 1) with
      | Some _, Some _ => Some (a + 1, b + 1)
      | _, _ => None
      end
  | _, _ => None
  end.

Definition dust_body (region_name : string) (st : pass) : exn + pass :=
  match re_dust (line st) with
  | Some (g1, g2) =>
      match dust_bounds g1 g2 with
      | Some (start, end_) =>
          inr (next_line
                 (emit (dust_feature region_name (repeat_count st)
                          start end_) st))
      | None => inl ValueError
      end
  | None => inr (next_line st)
  end.

(** ** The world the program runs in *)

Inductive node :=
| File (content : string)
| Dir.

Inductive worker := WRepeatMasker | WDust | WTrf.

(** The arguments of one [pool.apply_async] call, as they are at the call. *)
Record task := Task {
  t_worker : worker;
  t_cmd : list (option string);
  t_slice : string * Z * Z;
  t_genome : string;
  t_dir : string;
  t_ext : option string
}.

Inductive event :=
| EvLog (msg : string)
| EvCheckExe (path : string)
| EvCreateDir (base name : string)
| EvChdir (dir : string)
| EvCheckGtf (file feature_type : string)
| EvSeqRegionLengths (genome : string) (min_length : Z)
| EvCreateSliceIds (slice_size overlap min_length : Z)
| EvPool (processes : Z)
| EvApplyAsync (t : task)
| EvPoolClose
| EvPoolJoin
| EvSliceOutputToGtf (dir suffix : string)
| EvRun (argv : list string) (returncode : Z).

(** Events that compute slices, dispatch workers or merge. *)
Definition is_work (e : event) : bool :=
  match e with
  | EvSeqRegionLengths _ _ | EvCreateSliceIds _ _ _ | EvPool _
  | EvApplyAsync _ | EvPoolClose | EvPoolJoin | EvSliceOutputToGtf _ _
  | EvRun _ _ => true
  | _ => false
  end.

Record world := World {
  w_fs : gmap string node;
  w_cwd : string;
  w_heap : gmap positive (list (option string));
  w_trace : list event
}.

Definition M (A : Type) : Type := world -> res A * world.

Definition ret {A} (a : A) : M A := fun w => (Ret a, w).

Definition raise {A} (e : exn) : M A := fun w => (Raise e, w).

Definition bind {A B} (m : M A) (k : A -> M B) : M B :=
  fun w =>
    match m w with
    | (Ret a, w') => k a w'
    | (Raise e, w') => (Raise e, w')
    | (OutOfFuel, w') => (OutOfFuel, w')
    end.

Declare Scope py_scope.
Delimit Scope py_scope with py.
Bind Scope py_scope with M.
Notation "x ← y ; z" := (bind y (fun x => z))
  (at level 20, y at level 100, z at level 200, only parsing) : py_scope.
Notation "x ;; z" := (bind x (fun _ => z))
  (at level 100, z at level 200, only parsing, right associativity)
  : py_scope.
Local Open Scope py_scope.

Definition trace (e : event) : M unit :=
  fun w => (Ret tt, World (w_fs w) (w_cwd w) (w_heap w) (w_trace w ++ [e])).

(** [logger.info(msg)]. *)
Definition log (msg : string) : M unit := trace (EvLog msg).

Definition get_fs : M (gmap string node) := fun w => (Ret (w_fs w), w).

Definition put_fs (fs : gmap string node) : M unit :=
  fun w => (Ret tt, World fs (w_cwd w) (w_heap w) (w_trace w)).

Definition get_cwd : M string := fun w => (Ret (w_cwd w), w).

(** [os.chdir(dir)]: the directory, taken to be there, becomes the
    working directory, from which the paths that follow are resolved. *)
Definition os_chdir (dir : string) : M unit :=
  fun w =>
    (Ret tt,
     World (w_fs w) (resolve (w_cwd w) dir) (w_heap w)
       (w_trace w ++ [EvChdir dir])).

(** The file a path names where the program stands. *)
Definition locate (path : string) : M string :=
  fun w => (Ret (resolve (w_cwd w) path), w).

(** [open(path, "r")]. *)
Definition open_r (path : string) : M unit :=
  fs ← get_fs;
  file ← locate path;
  match fs !! file with
  | Some (File _) => ret tt
  | Some Dir => raise IsADirectoryError
  | None => raise FileNotFoundError
  end.

(** [open(path, "w+")]: the file is created, or emptied when it exists. *)
Definition open_w (path : string) : M unit :=
  fs ← get_fs;
  file ← locate path;
  match fs !! file with
  | Some Dir => raise IsADirectoryError
  | _ => put_fs (<[file := File EmptyString]> fs)
  end.

(** The text a handle opened for reading sees when it is first read. *)
Definition read_text (path : string) : M string :=
  fs ← get_fs;
  file ← locate path;
  ret (match fs !! file with Some (File c) => c | _ => EmptyString end).

(** What was written through a handle opened by [open_w] reaches the file
    when the handle is closed. *)
Definition close_w (path : string) (text : string) : M unit :=
  fs ← get_fs; file ← locate path; put_fs (<[file := File text]> fs).

(** [os.path.exists(path)] and [Path(path).is_file()]. *)
Definition os_path_exists (path : string) : M bool :=
  fs ← get_fs; file ← locate path; ret (bool_decide (is_Some (fs !! file))).

Definition is_file (path : string) : M bool :=
  fs ← get_fs;
  file ← locate path;
  ret (match fs !! file with Some (File _) => true | _ => false end).

(** [os.remove(path)]. *)
Definition os_remove (path : string) : M unit :=
  fs ← get_fs;
  file ← locate path;
  match fs !! file with
  | Some (File _) => put_fs (delete file fs)
  | Some Dir => raise IsADirectoryError
  | None => raise FileNotFoundError
  end.

(** The node a path names in a world. *)
Definition node_at (w : world) (path : string) : option node :=
  w_fs w !! resolve (w_cwd w) path.

(** List objects live in the heap; an argument that is not a list object
    has no [copy] or [append] method. *)
Definition list_new (l : list (option string)) : M positive :=
  fun w =>
    let r := fresh (dom (w_heap w)) in
    (Ret r, World (w_fs w) (w_cwd w) (<[r := l]> (w_heap w)) (w_trace w)).

Definition list_get (r : positive) : M (list (option string)) :=
  fun w =>
    match w_heap w !! r with
    | Some l => (Ret l, w)
    | None => (Raise TypeError, w)
    end.

(** [l.copy()]. *)
Definition list_copy (r : positive) : M positive :=
  l ← list_get r; list_new l.

Definition list_put (r : positive) (l : list (option string)) : M unit :=
  fun w =>
    (Ret tt, World (w_fs w) (w_cwd w) (<[r := l]> (w_heap w)) (w_trace w)).

(** [l.append(x)]. *)
Definition list_append (r : positive) (x : option string) : M unit :=
  l ← list_get r; list_put r (l ++ [x]).

(** [l[i] = x]. *)
Definition list_setitem (r : positive) (i : nat) (x : option string)
  : M unit :=
  l ← list_get r;
  if (i <? length l)%nat then list_put r (<[i := x]> l)
  else raise IndexError.

(** The strings of a command line; an element [None] is a [TypeError],
    for [" ".join] as for [subprocess.run]. *)
Definition strings (r : positive) : M (list string) :=
  l ← list_get r;
  match mapM id l with
  | Some ss => ret ss
  | None => raise TypeError
  end.

Fixpoint for_each {A} (l : list A) (f : A -> M unit) : M unit :=
  match l with
  | [] => ret tt
  | x :: l' => f x;; for_each l' f
  end.

(** [if os.path.exists(path): os.remove(path)]. *)
Definition remove_if_exists (path : string) : M unit :=
  b ← os_path_exists path;
  if b then os_remove path else ret tt.

(** [multiprocessing.Pool(processes)]. *)
Definition pool_new (processes : Z) : M unit :=
  if (processes <? 1)%Z then raise ValueError else trace (EvPool processes).

(** ** Reading a record, and the words of the specification *)

(** The value of an attribute of a record. *)
Definition attribute (key : string) (f : feature) : option pyval :=
  snd <$> List.find (fun kv => String.eqb (fst kv) key) (attributes f).

Definition repeat_id (f : feature) : option pyval := attribute "repeat_id" f.

(** A non-empty string of digits: what [<int>] stands for in the shape
    [<int> - <int>]. *)
Fixpoint all_digits (s : string) : bool :=
  match s with
  | EmptyString => true
  | String c s' => isdigit c && all_digits s'
  end.

Definition is_number (s : string) : bool :=
  negb (is_empty s) && all_digits s.

Definition starts_with_digit (s : string) : bool :=
  match s with String c _ => isdigit c | EmptyString => false end.

(** Regular expressions, as far as the three patterns of the parsers go,
    and the strings they match. *)
Inductive regex :=
| Chr (c : ascii)
| Cls (p : ascii -> bool)
| Cat (r1 r2 : regex)
| Plus (r : regex)
| Star (r : regex).

Inductive matches : regex -> string -> Prop :=
| matches_chr c : matches (Chr c) (String c EmptyString)
| matches_cls (p : ascii -> bool) c :
    p c = true -> matches (Cls p) (String c EmptyString)
| matches_cat r1 r2 s1 s2 :
    matches r1 s1 -> matches r2 s2 -> matches (Cat r1 r2) (s1 +:+ s2)
| matches_plus_one r s : matches r s -> matches (Plus r) s
| matches_plus_more r s1 s2 :
    matches r s1 -> matches (Plus r) s2 -> matches (Plus r) (s1 +:+ s2)
| matches_star_none r : matches (Star r) EmptyString
| matches_star_more r s1 s2 :
    matches r s1 -> matches (Star r) s2 -> matches (Star r) (s1 +:+ s2).

(** [\s*\d+\s+], [\d+] and [\d+\ - \d+]. *)
Definition masker_pattern : regex :=
  Cat (Star (Cls isspace)) (Cat (Plus (Cls isdigit)) (Plus (Cls isspace))).

Definition trf_pattern : regex := Plus (Cls isdigit).

Definition dust_pattern : regex :=
  Cat (Plus (Cls isdigit))
    (Cat (Chr " ") (Cat (Chr "-") (Cat (Chr " ") (Plus (Cls isdigit))))).

(** A pattern anchored at the start matches a prefix of the string; a
    pattern that is searched for matches a part of it, after [skipped]
    characters. *)
Definition matches_prefix (r : regex) (s : string) : Prop :=
  exists m rest, s = m +:+ rest /\ matches r m.

Definition matches_at (r : regex) (skipped : string) (s : string) : Prop :=
  exists m rest, s = skipped +:+ m +:+ rest /\ matches r m.

Fixpoint all_of (p : ascii -> bool) (s : string) : bool :=
  match s with
  | EmptyString => true
  | String c s' => p c && all_of p s'
  end.

Definition starts_with (p : ascii -> bool) (s : string) : bool :=
  match s with String c _ => p c | EmptyString => false end.

(** The order of floats as a proposition: a finite float is its rational,
    the infinities lie below and above, a NaN is in no relation. *)
Definition Flt (a b : pyfloat) : Prop :=
  match a, b with
  | FFinite x, FFinite y => (x < y)%Q
  | FInf true, FFinite _ | FFinite _, FInf false | FInf true, FInf false =>
      True
  | _, _ => False
  end.

Definition Fle (a b : pyfloat) : Prop :=
  match a, b with
  | FFinite x, FFinite y => (x <= y)%Q
  | FInf true, FFinite _ | FFinite _, FInf false | FInf true, FInf _
  | FInf false, FInf false => True
  | _, _ => False
  end.

(** The acceptance rule of the tandem-repeat parser, as the specification
    words it. *)
Definition trf_accept_spec (score percent_matches copy_number period : pyfloat)
  : Prop :=
  (Flt score (of_int 50) /\ Fle (of_int 80) percent_matches
   /\ Flt (of_int 2) copy_number /\ Flt period (of_int 10))
  \/ (Fle (of_int 2) copy_number /\ Fle (of_int 70) percent_matches
      /\ Fle (of_int 50) score).

(** A parse step that found nothing and said nothing: it returned, and the
    canonical file is there and empty. *)
Definition silent_zero_records (canonical : string) (r : res unit * world)
  : Prop :=
  r.1 = Ret tt /\ node_at r.2 canonical = Some (File EmptyString).

(** The task arguments a trace shows to have been handed to the pool. *)
Definition dispatched (evs : list event) : list task :=
  omap (fun e => match e with EvApplyAsync t => Some t | _ => None end) evs.

(** ** Sample collaborators

    Concrete stand-ins for the runtime parameters, used to run the model on
    examples. *)

Module Sample.

(** [float] on a string of digits; it agrees with Python's on strings of
    at most 15 digits, whose value a float holds exactly. *)
Definition float (s : string) : option pyfloat :=
  if is_number s then Some (of_int (int_go 0 s)) else None.

(** [str] on a float that is an integer below 10^16, an infinity or a
    NaN. *)
Definition float_repr (f : pyfloat) : string :=
  match f with
  | FFinite q => pretty (Qnum q / Zpos (Qden q))%Z +:+ ".0"
  | FInf true => "-inf"
  | FInf false => "inf"
  | FNan => "nan"
  end.

Definition check_exe (path : string) (fs : gmap string node) : bool := true.

Definition create_dir (base name : string) (fs : gmap string node)
  : string * gmap string node :=
  let dir := os_path_join base name in (dir, <[dir := Dir]> fs).

(** The number of lines of a file whose third field is [feature_type]. *)
Fixpoint count_features (feature_type : string) (fuel : nat) (text : string)
  : Z :=
  match fuel with
  | O => 0
  | S fuel' =>
      let '(l, r) := readline text in
      if is_empty l then 0
      else (if bool_decide (split l !! 2%nat = Some feature_type)
            then 1 else 0)
           + count_features feature_type fuel' r
  end.

Definition check_gtf_content (file feature_type : string)
    (fs : gmap string node) : Z :=
  match fs !! file with
  | Some (File text) =>
      count_features feature_type (String.length text) text
  | _ => 0
  end.

Definition get_seq_region_lengths (genome_file : string) (min_length : Z)
    (fs : gmap string node) : list (string * Z) :=
  [("chr1", 1200000)].

(** One window of [slice_size] bases, then the rest of the region. *)
Definition create_slice_ids (lengths : list (string * Z))
    (slice_size overlap min_length : Z) : list (string * Z * Z) :=
  flat_map
    (fun rl : string * Z =>
       let '(region, len) := rl in
       if (len <? min_length)%Z then []
       else if (len <=? slice_size)%Z then [(region, 0, len)]
            else [(region, 0, slice_size); (region, slice_size, len)])
    lengths.

Definition get_sequence (region : string) (start end_ strand : Z)
    (genome_file workdir : string) (fs : gmap string node) : string :=
  "ACGTACGTAC".

Definition slice_output_to_gtf (dir suffix : string) (feature_id : Z)
    (id_label name : string) (fs : gmap string node) : gmap string node :=
  fs.

Definition pool_run (processes : Z) (tasks : list task)
    (fs : gmap string node) : gmap string node := fs.


(** Raw output of the three tools for one slice. *)
Definition rm_header : string :=
  "   SW   perc perc perc  query  position in query" +:+ nl
  +:+ "score   div. del. ins.  sequence  begin end" +:+ nl +:+ nl.

Definition rm_line_plus : string :=
  "  239  2.1 0.0 0.0 chr1 100 200 (500) + AluY SINE/Alu 1 100 (211) 7"
  +:+ nl.

Definition rm_line_other : string :=
  "  515  9.7 1.2 0.0 chr1 300 420 (280) C L1PA3 LINE/L1 (17) 6100 5980 8 *"
  +:+ nl.

(** [rm_line_plus] cut in the middle of the line: 14 fields. *)
Definition rm_line_cut : string :=
  "  239  2.1 0.0 0.0 chr1 100 200 (500) + AluY SINE/Alu 1 100 (211)"
  +:+ nl.

Definition rm_text : string := rm_header +:+ rm_line_plus +:+ rm_line_other.

Definition rm_text_cut : string := rm_header +:+ rm_line_cut +:+ rm_line_plus.

Definition trf_line : string :=
  "100 123 8 3 8 85 0 45 25 25 25 25 2 ACGTACGT ACGTACGTACGTACGTACGTACGT"
  +:+ nl.

Definition trf_line_long_period : string :=
  "100 135 12 3 12 85 0 45 25 25 25 25 2 ACGTACGTACGT ACGTACGTACGTACGT"
  +:+ nl.

(** [trf_line] cut in the middle of the line: 14 fields. *)
Definition trf_line_cut : string :=
  "100 123 8 3 8 85 0 45 25 25 25 25 2 ACGTACGT" +:+ nl.

Definition trf_text_cut : string :=
  "Sequence: chr1" +:+ nl +:+ trf_line_cut +:+ trf_line.

Definition dust_text : string :=
  ">chr1" +:+ nl +:+ "12 - 45" +:+ nl +:+ "100 - 230" +:+ nl.

(** External tools.  RepeatMasker leaves its report, the masked sequence
    and a table next to its input; dustmasker prints intervals; a failing
    tool exits with status 1 and leaves nothing. *)
Definition repeatmasker_tool (report : string) (argv : list string)
    (cwd : string) (fs : gmap string node)
  : Z * gmap string node * string :=
  match last argv with
  | Some fa =>
      (0, <[fa +:+ ".out" := File report]>
            (<[fa +:+ ".masked" := File (">chr1" +:+ nl)]>
               (<[fa +:+ ".tbl" := File "total length: 10 bp"]> fs)),
       EmptyString)
  | None => (1, fs, EmptyString)
  end.

Definition dust_tool (argv : list string) (cwd : string)
    (fs : gmap string node) : Z * gmap string node * string :=
  (0, fs, dust_text).

Definition failing_tool (argv : list string) (cwd : string)
    (fs : gmap string node) : Z * gmap string node * string :=
  (1, fs, EmptyString).

(** Paths of the slice [("chr1", 0, 1000)] under [/out]. *)
Definition slice : string * Z * Z := ("chr1", 0, 1000).
Definition fasta : string := "/out/chr1.rs0.re1000.fa".
Definition rm_raw : string := "/out/chr1.rs0.re1000.fa.out".
Definition rm_canonical : string := "/out/chr1.rs0.re1000.fa.rm.gtf".
Definition trf_raw : string := "/out/chr1.rs0.re1000.fa.2.5.7.80.10.40.500.dat".
Definition trf_canonical : string := "/out/chr1.rs0.re1000.trf.gtf".
Definition dust_raw : string := "/out/chr1.rs0.re1000.fa.dust".
Definition dust_canonical : string := "/out/chr1.rs0.re1000.dust.gtf".

(** A world whose heap holds, at location 1, the command template
    [cmd]. *)
Definition world_with (fs : gmap string node) (cmd : list (option string))
  : world :=
  World fs "/" {[ 1%positive := cmd ]} [].

Definition rm_cmd : list (option string) :=
  [Some "RepeatMasker"; Some "-nolow"; Some "-lib"; Some "homo";
   Some "-engine"; Some "crossmatch"; Some "-dir"; Some "/out"].

Definition dust_cmd : list (option string) := [Some "dustmasker"; Some "-in"].

(** A pass that has just read [l], with the counter at [count]. *)
Definition pass_at (l : string) (count : Z) : pass :=
  Pass EmptyString l count [].

(** The number written with [n] times the digit [c]. *)
Fixpoint digits (c : ascii) (n : nat) : string :=
  match n with
  | O => EmptyString
  | S n' => String c (digits c n')
  end.

(** The world a worker starts in, and the world it has made when a tool
    that wrote nothing returns. *)
Definition start_world (cmd : list (option string)) : world :=
  world_with ∅ cmd.

Definition failed_world (cmd : list (option string)) : world :=
  world_with {[ fasta := File (">chr1" +:+ nl +:+ "ACGTACGTAC" +:+ nl) ]}
    cmd.

(** The sample reports as lists of lines, without their line feeds. *)
Definition rm_bodies : list string :=
  ["   SW   perc perc perc  query  position in query";
   "score   div. del. ins.  sequence  begin end";
   EmptyString;
   "  239  2.1 0.0 0.0 chr1 100 200 (500) + AluY SINE/Alu 1 100 (211) 7";
   "  515  9.7 1.2 0.0 chr1 300 420 (280) C L1PA3 LINE/L1 (17) 6100 5980 8 *"].

Definition trf_bodies : list string :=
  ["Sequence: chr1";
   EmptyString;
   "100 123 8 3 8 85 0 45 25 25 25 25 2 ACGTACGT ACGTACGTACGTACGTACGTACGT";
   "100 135 12 3 12 85 0 45 25 25 25 25 2 ACGTACGTACGT ACGTACGTACGTACGT";
   "300 339 20 2 20 75 5 60 25 25 25 25 2 ACGTACGTACGTACGTACGT ACGTACGT"].

Definition dust_bodies : list string :=
  [">chr1"; "12 - 45"; "masked 7 bases"; "100 - 230"].

(** A world that holds one file, the raw output of a tool. *)
Definition raw_world (raw text : string) : world :=
  World {[ raw := File text ]} "/" ∅ [].

(** A tandem-repeat finder that leaves its report next to its input, and
    the command template and report extension of [run_trf_repeats]. *)
Definition trf_ext : string := ".2.5.7.80.10.40.500.dat".

Definition trf_tool (report : string) (argv : list string) (cwd : string)
    (fs : gmap string node) : Z * gmap string node * string :=
  match argv !! 1%nat with
  | Some fa => (0, <[fa +:+ trf_ext := File report]> fs, EmptyString)
  | None => (1, fs, EmptyString)
  end.

Definition trf_cmd : list (option string) :=
  [Some "trf"; None; Some "2"; Some "5"; Some "7"; Some "80"; Some "10";
   Some "40"; Some "500"; Some "-d"; Some "-h"].

Definition trf_argv : list string :=
  ["trf"; fasta; "2"; "5"; "7"; "80"; "10"; "40"; "500"; "-d"; "-h"].

Definition trf_text : string :=
  "Sequence: chr1" +:+ nl +:+ nl +:+ trf_line +:+ trf_line_long_period.

(** A world in which the output directory [/out] is there, the heap holds
    the command template [cmd] at location 1, and nothing has happened. *)
Definition out_world (cmd : list (option string)) : world :=
  World {[ "/out" := Dir ]} "/" {[ 1%positive := cmd ]} [].

(** A world whose only file is an [annotation.gtf] of the TandemRepeat
    directory without any feature. *)
Definition stale_world : world :=
  World {[ "/work/trf_output/annotation.gtf" := File EmptyString ]}
    "/" ∅ [].

(** The fields of [rm_line_plus]. *)
Definition rm_fields : list string :=
  ["239"; "2.1"; "0.0"; "0.0"; "chr1"; "100"; "200"; "(500)"; "+"; "AluY";
   "SINE/Alu"; "1"; "100"; "(211)"; "7"].

(** A final output with one record, under [/work]. *)
Definition annotation : string :=
  "chr1" +:+ tab +:+ "RepeatMasker" +:+ tab +:+ "repeat" +:+ tab +:+ "100"
  +:+ tab +:+ "200" +:+ tab +:+ "." +:+ tab +:+ "+" +:+ tab +:+ "."
  +:+ tab +:+ "repeat_id " +:+ dq +:+ "1" +:+ dq +:+ ";" +:+ nl.

Definition done_fs : gmap string node :=
  <["/work/repeatmasker_output/annotation.gtf" := File annotation]>
    (<["/work/dust_output/annotation.gtf" := File annotation]>
       (<["/work/trf_output/annotation.gtf" := File annotation]> ∅)).

(** The collaborators of a process that stands in [cwd]: they take a
    path from there. *)
Definition create_dir_in (cwd base name : string) (fs : gmap string node)
  : string * gmap string node :=
  let dir := os_path_join base name in (dir, <[resolve cwd dir := Dir]> fs).

Definition check_gtf_content_in (cwd file feature_type : string)
    (fs : gmap string node) : Z :=
  check_gtf_content (resolve cwd file) feature_type fs.

(** A process in [/home], where [work] holds a final output of RepeatMasker
    and one of Dust, each with one record. *)
Definition home_fs : gmap string node :=
  <["/home/work/repeatmasker_output/annotation.gtf" := File annotation]>
    (<["/home/work/dust_output/annotation.gtf" := File annotation]> ∅).

Definition home_world : world := World home_fs "/home" ∅ [].

End Sample.

(** Unfolding the primitive operations of the monad. *)
Ltac mprim :=
  cbv beta iota zeta delta
    [bind ret raise trace log get_fs put_fs get_cwd locate os_chdir open_r
     open_w
     read_text close_w os_path_exists is_file os_remove remove_if_exists
     pool_new list_new list_get list_copy list_put list_append list_setitem
     strings];
  cbn [w_fs w_cwd w_heap w_trace fst snd].

Section Pipeline.

Set Default Proof Using "Type".

(** [float(s)], where [None] stands for [ValueError], and [str(x)] for a
    float [x]. *)
Variable float : string -> option pyfloat.
Variable float_repr : pyfloat -> string.

(** The collaborators this module calls and does not define. *)
Variable check_exe : string -> gmap string node -> bool.
Variable create_dir :
  string -> string -> gmap string node -> string * gmap string node.
Variable check_gtf_content : string -> string -> gmap string node -> Z.
Variable get_seq_region_lengths :
  string -> Z -> gmap string node -> list (string * Z).
Variable create_slice_ids :
  list (string * Z) -> Z -> Z -> Z -> list (string * Z * Z).
Variable get_sequence :
  string -> Z -> Z -> Z -> string -> string -> gmap string node -> string.
Variable slice_output_to_gtf :
  string -> string -> Z -> string -> string ->
  gmap string node -> gmap string node.

(** The external tool behind [subprocess.run]: from the command line, the
    working directory and the file system, its return code, the file
    system it leaves and what it prints on its standard output. *)
Variable subprocess_run :
  list string -> string -> gmap string node ->
  Z * gmap string node * string.

(** What the tasks handed to a pool of the given size do to the file
    system between [pool.close()] and the return of [pool.join()]. *)
Variable pool_run : Z -> list task -> gmap string node -> gmap string node.

(** [str(v)]. *)
Definition str (v : pyval) : string :=
  match v with
  | PStr s => s
  | PInt z => pretty z
  | PFloat f => float_repr f
  end.

(** The line written for a record. *)
Definition gtf_attribute (kv : string * pyval) : string :=
  fst kv +:+ " " +:+ dq +:+ str (snd kv) +:+ dq +:+ ";".

Definition gtf_line (f : feature) : string :=
  seqname f +:+ tab +:+ source f +:+ tab +:+ "repeat" +:+ tab
  +:+ str (f_start f) +:+ tab +:+ str (f_end f) +:+ tab +:+ "." +:+ tab
  +:+ strand f +:+ tab +:+ "." +:+ tab
  +:+ join " " (map gtf_attribute (attributes f)) +:+ nl.

Definition gtf_text (fs : list feature) : string :=
  String.concat EmptyString (map gtf_line fs).

(** *** TRF: the body of the loop of [create_trf_gtf] *)

Definition trf_accept (score percent_matches copy_number period : pyfloat)
  : bool :=
  (float_lt score (of_int 50) && float_ge percent_matches (of_int 80)
   && float_gt copy_number (of_int 2) && float_lt period (of_int 10))
  || (float_ge copy_number (of_int 2) && float_ge percent_matches (of_int 70)
      && float_ge score (of_int 50)).

Definition trf_feature (region_name : string) (repeat_count : Z)
    (results : list string) (score : pyfloat) : feature :=
  let start := results !!! 0%nat in
  let end_ := results !!! 1%nat in
  let repeat_consensus := results !!! 13%nat in
  Feature region_name "TRF" (PStr start) (PStr end_) "+"
    [("repeat_id", PInt repeat_count);
     ("score", PFloat score);
     ("repeat_consensus", PStr repeat_consensus)].

Definition trf_body (region_name : string) (st : pass) : exn + pass :=
  if re_trf (line st) then
    let results := split (line st) in
    if negb (length results =? 15)%nat then inr st
    else
      match float (results !!! 2%nat) with
      | None => inl ValueError
      | Some period =>
      match float (results !!! 3%nat) with
      | None => inl ValueError
      | Some copy_number =>
      match float (results !!! 5%nat) with
      | None => inl ValueError
      | Some percent_matches =>
      match float (results !!! 7%nat) with
      | None => inl ValueError
      | Some score =>
          if trf_accept score percent_matches copy_number period
          then inr (next_line
                      (emit (trf_feature region_name (repeat_count st)
                               results score) st))
          else inr (next_line st)
      end end end end
  else inr (next_line st).

(** *** The three parse passes *)

(** Open the raw output, open the canonical file, run the loop, close
    both.  When the loop raises, the handles are dropped and what was
    written is flushed; when it does not end, nothing more happens. *)
Definition parse_pass (body : pass -> exn + pass) (fuel : nat)
    (in_path out_path : string) : M unit :=
  open_r in_path;;
  open_w out_path;;
  text ← read_text in_path;
  let '(r, st) := while_line body fuel (start_pass text) in
  match r with
  | Ret _ => close_w out_path (gtf_text (written st))
  | Raise e => close_w out_path (gtf_text (written st));; raise e
  | OutOfFuel => fun w => (OutOfFuel, w)
  end.

Definition create_repeatmasker_gtf (fuel : nat)
    (repeatmasker_output_file_path region_results_file_path
       region_name : string) : M unit :=
  parse_pass (repeatmasker_body region_name) fuel
    repeatmasker_output_file_path region_results_file_path.

Definition create_dust_gtf (fuel : nat)
    (dust_output_file_path region_results_file_path region_name : string)
  : M unit :=
  parse_pass (dust_body region_name) fuel
    dust_output_file_path region_results_file_path.

Definition create_trf_gtf (fuel : nat)
    (trf_output_file_path region_results_file_path region_name : string)
  : M unit :=
  parse_pass (trf_body region_name) fuel
    trf_output_file_path region_results_file_path.

(** *** The three workers *)

(** [subprocess.run(cmd)]: the return code is recorded in the trace and
    dropped; the standard output is returned to the caller. *)
Definition run_tool (cmd : positive) : M string :=
  argv ← strings cmd;
  fs ← get_fs;
  cwd ← get_cwd;
  let '(rc, fs', out) := subprocess_run argv cwd fs in
  put_fs fs';;
  trace (EvRun argv rc);;
  ret out.

Definition slice_log (what : string) (slice_id : string * Z * Z) : M unit :=
  let '(region_name, start, end_) := slice_id in
  log (what +:+ region_name +:+ ":" +:+ pretty start +:+ ":"
       +:+ pretty end_).

Definition slice_file_name (slice_id : string * Z * Z) : string :=
  let '(region_name, start, end_) := slice_id in
  region_name +:+ ".rs" +:+ pretty start +:+ ".re" +:+ pretty end_.

(** The slice's sequence file: its path, after it has been written. *)
Definition write_region_fasta (slice_id : string * Z * Z)
    (genome_file output_dir : string) : M string :=
  let '(region_name, start, end_) := slice_id in
  fs ← get_fs;
  let seq := get_sequence region_name start end_ 1 genome_file output_dir fs in
  let region_fasta_file_name := slice_file_name slice_id +:+ ".fa" in
  let region_fasta_file_path :=
    os_path_join output_dir region_fasta_file_name in
  open_w region_fasta_file_path;;
  close_w region_fasta_file_path
    (">" +:+ region_name +:+ nl +:+ seq +:+ nl);;
  ret region_fasta_file_path.

Definition multiprocess_repeatmasker (fuel : nat)
    (generic_repeatmasker_cmd : positive) (slice_id : string * Z * Z)
    (genome_file repeatmasker_output_dir : string) : M unit :=
  let region_name := slice_id.1.1 in
  slice_log "Processing slice to find repeats with RepeatMasker: " slice_id;;
  region_fasta_file_path ←
    write_region_fasta slice_id genome_file repeatmasker_output_dir;
  let region_results_file_path := region_fasta_file_path +:+ ".rm.gtf" in
  let repeatmasker_output_file_path := region_fasta_file_path +:+ ".out" in
  let repeatmasker_masked_file_path :=
    region_fasta_file_path +:+ ".masked" in
  let repeatmasker_tbl_file_path := region_fasta_file_path +:+ ".tbl" in
  let repeatmasker_log_file_path := region_fasta_file_path +:+ ".log" in
  let repeatmasker_cat_file_path := region_fasta_file_path +:+ ".cat" in
  repeatmasker_cmd ← list_copy generic_repeatmasker_cmd;
  list_append repeatmasker_cmd (Some region_fasta_file_path);;
  argv ← strings repeatmasker_cmd;
  log (join " " argv);;
  run_tool repeatmasker_cmd;;
  create_repeatmasker_gtf fuel repeatmasker_output_file_path
    region_results_file_path region_name;;
  os_remove region_fasta_file_path;;
  remove_if_exists region_results_file_path;;
  remove_if_exists repeatmasker_masked_file_path;;
  remove_if_exists repeatmasker_tbl_file_path;;
  remove_if_exists repeatmasker_log_file_path;;
  remove_if_exists repeatmasker_cat_file_path.

Definition multiprocess_dust (fuel : nat) (generic_dust_cmd : positive)
    (slice_id : string * Z * Z) (genome_file dust_output_dir : string)
  : M unit :=
  let region_name := slice_id.1.1 in
  slice_log "Processing slice to find low complexity regions with Dust: "
    slice_id;;
  region_fasta_file_path ←
    write_region_fasta slice_id genome_file dust_output_dir;
  let region_results_file_name := slice_file_name slice_id +:+ ".dust.gtf" in
  let region_results_file_path :=
    os_path_join dust_output_dir region_results_file_name in
  let dust_output_file_path := region_fasta_file_path +:+ ".dust" in
  open_w dust_output_file_path;;
  dust_cmd ← list_copy generic_dust_cmd;
  list_append dust_cmd (Some region_fasta_file_path);;
  argv ← strings dust_cmd;
  log (join " " argv);;
  out ← run_tool dust_cmd;
  close_w dust_output_file_path out;;
  create_dust_gtf fuel dust_output_file_path region_results_file_path
    region_name;;
  os_remove dust_output_file_path;;
  os_remove region_fasta_file_path.

Definition multiprocess_trf (fuel : nat) (generic_trf_cmd : positive)
    (slice_id : string * Z * Z) (genome_file trf_output_dir : string)
    (trf_output_extension : string) : M unit :=
  let region_name := slice_id.1.1 in
  slice_log "Processing slice to find tandem repeats with TRF: " slice_id;;
  region_fasta_file_path ←
    write_region_fasta slice_id genome_file trf_output_dir;
  let region_results_file_name := slice_file_name slice_id +:+ ".trf.gtf" in
  let region_results_file_path :=
    os_path_join trf_output_dir region_results_file_name in
  os_chdir trf_output_dir;;
  let trf_output_file_path :=
    region_fasta_file_path +:+ trf_output_extension in
  trf_cmd ← list_copy generic_trf_cmd;
  list_setitem trf_cmd 1 (Some region_fasta_file_path);;
  argv ← strings trf_cmd;
  log (join " " argv);;
  run_tool trf_cmd;;
  create_trf_gtf fuel trf_output_file_path region_results_file_path
    region_name;;
  os_remove trf_output_file_path;;
  os_remove region_fasta_file_path.

(** *** The three entry points *)

(** [if not x: x = d] for an argument that is [None] or a string. *)
Definition or_default (x : option string) (d : string) : option string :=
  if negb (truthy x) then Some d else x.

Definition call_check_exe (path : option string) : M unit :=
  match path with
  | None => raise TypeError
  | Some p =>
      trace (EvCheckExe p);;
      fs ← get_fs;
      if check_exe p fs then ret tt else raise SystemExit
  end.

Definition call_create_dir (base name : string) : M string :=
  trace (EvCreateDir base name);;
  fs ← get_fs;
  let '(dir, fs') := create_dir base name fs in
  put_fs fs';;
  ret dir.

Definition call_check_gtf_content (file feature_type : string) : M Z :=
  trace (EvCheckGtf file feature_type);;
  fs ← get_fs;
  ret (check_gtf_content file feature_type fs).

(** [get_seq_region_lengths(genome_file, 5000)] and
    [create_slice_ids(seq_region_lengths, 1000000, 0, 5000)]. *)
Definition genomic_slices (genome_file : string)
  : M (list (string * Z * Z)) :=
  log "Creating list of genomic slices";;
  trace (EvSeqRegionLengths genome_file 5000);;
  fs ← get_fs;
  let seq_region_lengths := get_seq_region_lengths genome_file 5000 fs in
  trace (EvCreateSliceIds 1000000 0 5000);;
  ret (create_slice_ids seq_region_lengths 1000000 0 5000).

(** The pool: one [apply_async] per slice, then [close] and [join]. *)
Definition dispatch (num_threads : Z) (tasks : list task) : M unit :=
  pool_new num_threads;;
  for_each tasks (fun t => trace (EvApplyAsync t));;
  trace EvPoolClose;;
  fs ← get_fs;
  put_fs (pool_run num_threads tasks fs);;
  trace EvPoolJoin.

Definition call_slice_output_to_gtf (dir suffix name : string) : M unit :=
  trace (EvSliceOutputToGtf dir suffix);;
  fs ← get_fs;
  put_fs (slice_output_to_gtf dir suffix 1 "repeat_id" name fs).

(** The command template of [run_repeatmasker_regions], from the values
    the three variables have when the branch is reached. *)
Definition generic_repeatmasker_cmd
    (repeatmasker_path library species : option string)
    (repeatmasker_output_dir : string) : list (option string) :=
  if negb (truthy library) then
    if negb (truthy species) then
      let species := Some "homo" in
      [repeatmasker_path; Some "-nolow"; Some "-species"; species;
       Some "-engine"; Some "crossmatch"; Some "-dir";
       Some repeatmasker_output_dir]
    else
      [repeatmasker_path; Some "-nolow"; Some "-species"; species;
       Some "-engine"; Some "crossmatch"; Some "-dir";
       Some repeatmasker_output_dir]
  else
    [repeatmasker_path; Some "-nolow"; Some "-lib"; library;
     Some "-engine"; Some "crossmatch"; Some "-dir";
     Some repeatmasker_output_dir].

Definition run_repeatmasker_regions (genome_file : string)
    (repeatmasker_path library species : option string)
    (main_output_dir : string) (num_threads : Z) : M (option Z) :=
  let repeatmasker_path := or_default repeatmasker_path "RepeatMasker" in
  let library := or_default library "homo" in
  call_check_exe repeatmasker_path;;
  repeatmasker_output_dir ←
    call_create_dir main_output_dir "repeatmasker_output";
  os_chdir repeatmasker_output_dir;;
  log "Skip analysis if the gtf file already exists";;
  let output_file := os_path_join repeatmasker_output_dir "annotation.gtf" in
  let analysis : M (option Z) :=
    slice_ids ← genomic_slices genome_file;
    let cmd :=
      generic_repeatmasker_cmd repeatmasker_path library species
        repeatmasker_output_dir in
    log "Running RepeatMasker";;
    dispatch num_threads
      (map (fun slice_id =>
              Task WRepeatMasker cmd slice_id genome_file
                repeatmasker_output_dir None) slice_ids);;
    call_slice_output_to_gtf repeatmasker_output_dir ".rm.gtf" "repeatmask";;
    ret None in
  found ← os_path_exists output_file;
  if found then
    transcript_count ← call_check_gtf_content output_file "repeat";
    if (0 <? transcript_count)%Z
    then log "Repeatmasker gtf file exists";; ret None
    else analysis
  else log "No gtf file, go on with the analysis";; analysis.

Definition run_dust_regions (genome_file : string)
    (dust_path : option string) (main_output_dir : string)
    (num_threads : Z) : M (option Z) :=
  let dust_path := or_default dust_path "dustmasker" in
  call_check_exe dust_path;;
  dust_output_dir ← call_create_dir main_output_dir "dust_output";
  log "Skip analysis if the gtf file already exists";;
  let output_file := os_path_join dust_output_dir "annotation.gtf" in
  log output_file;;
  let analysis : M (option Z) :=
    slice_ids ← genomic_slices genome_file;
    let generic_dust_cmd := [dust_path; Some "-in"] in
    log "Running Dust";;
    dispatch num_threads
      (map (fun slice_id =>
              Task WDust generic_dust_cmd slice_id genome_file
                dust_output_dir None) slice_ids);;
    call_slice_output_to_gtf dust_output_dir ".dust.gtf" "dust";;
    ret None in
  found ← is_file output_file;
  if found then
    transcript_count ← call_check_gtf_content output_file "repeat";
    if (0 <? transcript_count)%Z
    then log "Dust gtf file exists";; ret (Some 0%Z)
    else analysis
  else log "No gtf file, go on with the analysis";; analysis.

Definition run_trf_repeats (genome_file : string)
    (trf_path : option string) (main_output_dir : string)
    (num_threads : Z) : M (option Z) :=
  let trf_path := or_default trf_path "trf" in
  call_check_exe trf_path;;
  trf_output_dir ← call_create_dir main_output_dir "trf_output";
  log "Skip analysis if the gtf file already exists";;
  let output_file := os_path_join trf_output_dir "annotation.gtf" in
  let analysis : M (option Z) :=
    slice_ids ← genomic_slices genome_file;
    let match_score := 2%Z in
    let mismatch_score := 5%Z in
    let delta := 7%Z in
    let pm := 80%Z in
    let pi := 10%Z in
    let minscore := 40%Z in
    let maxperiod := 500%Z in
    let trf_output_extension :=
      "." +:+ pretty match_score +:+ "." +:+ pretty mismatch_score
      +:+ "." +:+ pretty delta +:+ "." +:+ pretty pm +:+ "." +:+ pretty pi
      +:+ "." +:+ pretty minscore +:+ "." +:+ pretty maxperiod
      +:+ ".dat" in
    let generic_trf_cmd :=
      [trf_path; None; Some (pretty match_score);
       Some (pretty mismatch_score); Some (pretty delta);
       Some (pretty pm); Some (pretty pi); Some (pretty minscore);
       Some (pretty maxperiod); Some "-d"; Some "-h"] in
    log "Running TRF";;
    dispatch num_threads
      (map (fun slice_id =>
              Task WTrf generic_trf_cmd slice_id genome_file
                trf_output_dir (Some trf_output_extension)) slice_ids);;
    call_slice_output_to_gtf trf_output_dir ".trf.gtf" "trf";;
    ret None in
  found ← os_path_exists output_file;
  if found then
    transcript_count ← call_check_gtf_content output_file "repeat";
    if (0 <? transcript_count)%Z
    then log "Trf gtf file exists";; ret None
    else analysis
  else log "No gtf file, go on with the analysis";; analysis.

(** The variant a worker parses. *)
Definition body_of (v : worker) (region_name : string)
  : pass -> exn + pass :=
  match v with
  | WRepeatMasker => repeatmasker_body region_name
  | WDust => dust_body region_name
  | WTrf => trf_body region_name
  end.

(** The records written so far carry the identifiers 1, 2, ... in order,
    and the counter is one more than their number. *)
Definition numbered (st : pass) : Prop :=
  repeat_id <$> written st
  = (fun i => Some (PInt i)) <$> seqZ 1 (Z.of_nat (length (written st)))
  /\ repeat_count st = 1 + Z.of_nat (length (written st)).

(** A computation leaves the heap cell [r] as it found it, however it
    ends. *)
Definition keeps_loc {A} (r : positive) (m : M A) : Prop :=
  forall w, w_heap (m w).2 !! r = w_heap w !! r.

(** Between two worlds, nothing was done that computes slices,
    dispatches workers or merges. *)
Definition work_free (w w' : world) : Prop :=
  exists evs,
    w_trace w' = (w_trace w ++ evs)%list
    /\ forallb (fun e => negb (is_work e)) evs = true.

(** Where the process stands when an entry point looks for its final
    output: [run_repeatmasker_regions] has changed into its output
    directory by then, the other two are where they were called. *)
Definition checked_from (v : worker) (cwd dir : string) : string :=
  match v with
  | WRepeatMasker => resolve cwd dir
  | WDust | WTrf => cwd
  end.

(** The final output of the tool whose directory is [name] is found, as
    a file, from where the entry point looks for it once the directory
    has been looked up, and [check_gtf_content] counts at least one
    [repeat] feature in it. *)
Definition valid_output (v : worker) (name main_output_dir : string)
    (w : world) : Prop :=
  let '(dir, fs1) := create_dir main_output_dir name (w_fs w) in
  let output_file := os_path_join dir "annotation.gtf" in
  (exists text,
      fs1 !! resolve (checked_from v (w_cwd w) dir) output_file
      = Some (File text))
  /\ 0 < check_gtf_content output_file "repeat" fs1.

(** The call ended at the resume check: it returned [v] (or the process
    ended in [check_exe]) without work, and the file system is the one
    [create_dir] left. *)
Definition skipped (tool : option string) (name main_output_dir : string)
    (v : option Z) (w : world) (r : res (option Z) * world) : Prop :=
  exists path,
    tool = Some path
    /\ r.1 = (if check_exe path (w_fs w) then Ret v else Raise SystemExit)
    /\ work_free w r.2
    /\ w_fs r.2 = (if check_exe path (w_fs w)
                   then (create_dir main_output_dir name (w_fs w)).2
                   else w_fs w).

(** What holds of the world when a computation returns, and what a
    computation that returns keeps. *)
Definition ensures {A} (m : M A) (Q : world -> Prop) : Prop :=
  forall w a w', m w = (Ret a, w') -> Q w'.

Definition preserves {A} (m : M A) (Q : world -> Prop) : Prop :=
  forall w a w', Q w -> m w = (Ret a, w') -> Q w'.

(** The rounds a pass can still make: one for the line in hand, and at most
    one for each character not yet read. *)
Definition pass_measure (st : pass) : nat :=
  (String.length (unread st) + (if is_empty (line st) then 0 else 1))%nat.

(** A candidate line that has not 15 fields, for the Masker parser and for
    the TandemRepeat parser. *)
Definition rm_short (l : string) : bool :=
  re_masker l
  && match repeatmasker_fields l with
     | inr results => negb (length results =? 15)%nat
     | inl _ => false
     end.

Definition trf_short (l : string) : bool :=
  re_trf l && negb (length (split l) =? 15)%nat.

(** [P] holds of the line in hand and of every line still to be read. *)
Inductive all_lines (P : string -> Prop) : string -> string -> Prop :=
| all_lines_end u : all_lines P EmptyString u
| all_lines_next l u :
    is_empty l = false -> P l ->
    all_lines P (readline u).1 (readline u).2 ->
    all_lines P l u.

(** [P] holds of every line of a text, as [readline] hands them out. *)
Definition every_line (P : string -> bool) (text : string) : Prop :=
  all_lines (fun l => P l = true)
    (line (start_pass text)) (unread (start_pass text)).

(** A text as the lines it is made of: [bodies] are the lines that end
    with a line feed, without it, and [tail] is what follows the last line
    feed.  [lines_of] are the lines [readline] hands out on that text. *)
Definition no_newline (s : string) : bool :=
  all_of (fun c => negb (Ascii.eqb c "010")) s.

Definition text_of (bodies : list string) (tail : string) : string :=
  fold_right (fun b t => b +:+ nl +:+ t) tail bodies.

Definition lines_of (bodies : list string) (tail : string) : list string :=
  (map (fun b => b +:+ nl) bodies
   ++ (if is_empty tail then [] else [tail]))%list.

(** What a parser makes of one line when the counter is at [count], and
    the records a list of lines gives, one line after the other. *)
Fixpoint collect (step : Z -> string -> option feature) (count : Z)
    (ls : list string) : list feature :=
  match ls with
  | [] => []
  | l :: ls' =>
      match step count l with
      | Some f => f :: collect step (count + 1) ls'
      | None => collect step count ls'
      end
  end.

Definition dust_step (region_name : string) (count : Z) (l : string)
  : option feature :=
  match re_dust l with
  | Some (g1, g2) =>
      match dust_bounds g1 g2 with
      | Some (start, end_) =>
          Some (dust_feature region_name count start end_)
      | None => None
      end
  | None => None
  end.

(** A line whose interval, if it holds one, is made of numbers of fewer
    than 4300 digits: the conversions of the Dust parser go through on
    it. *)
Definition dust_in_limit (l : string) : bool :=
  match re_dust l with
  | Some (g1, g2) =>
      (Z.of_nat (String.length g1) <? int_max_str_digits)%Z
      && (Z.of_nat (String.length g2) <? int_max_str_digits)%Z
  | None => true
  end.

Definition rm_step (region_name : string) (count : Z) (l : string)
  : option feature :=
  if re_masker l then
    match repeatmasker_fields l with
    | inr results =>
        if (length results =? 15)%nat
        then Some (repeatmasker_feature region_name count results)
        else None
    | inl _ => None
    end
  else None.

(** The four numeric fields of a TandemRepeat candidate line, when all of
    them read as floats: period, copy number, percent matches, score. *)
Definition trf_numbers (l : string)
  : option (pyfloat * pyfloat * pyfloat * pyfloat) :=
  let results := split l in
  match float (results !!! 2%nat), float (results !!! 3%nat),
        float (results !!! 5%nat), float (results !!! 7%nat) with
  | Some period, Some copy_number, Some percent_matches, Some score =>
      Some (period, copy_number, percent_matches, score)
  | _, _, _, _ => None
  end.

Definition trf_step (region_name : string) (count : Z) (l : string)
  : option feature :=
  if re_trf l then
    match trf_numbers l with
    | Some (period, copy_number, percent_matches, score) =>
        if trf_accept score percent_matches copy_number period
        then Some (trf_feature region_name count (split l) score)
        else None
    | None => None
    end
  else None.

(** A line the TandemRepeat parser gets past without raising: not a
    candidate, or a candidate of 15 fields whose numbers read as floats. *)
Definition trf_readable (l : string) : bool :=
  negb (re_trf l)
  || ((length (split l) =? 15)%nat
      && match trf_numbers l with Some _ => true | None => false end).

(** A field of a report line: a non-empty string without white space. *)
Definition word (s : string) : bool :=
  negb (is_empty s) && all_of (fun c => negb (isspace c)) s.

(** A string without a dot, as the decimal numerals are, and a string that
    starts with a slash, which [os.path.join] takes for an absolute
    path. *)
Definition no_dot (s : string) : bool :=
  all_of (fun c => negb (Ascii.eqb c ".")) s.

Definition absolute (s : string) : bool :=
  starts_with (fun c => Ascii.eqb c "/") s.

(** The tool is given and [check_exe] finds it. *)
Definition tool_found (tool : option string) (fs : gmap string node)
  : Prop :=
  exists path, tool = Some path /\ check_exe path fs = true.

(** There is no final output to resume from: once the directory has been
    looked up, [annotation.gtf] is not found from where the entry point
    looks for it, or [check_gtf_content] counts no [repeat] feature in
    it. *)
Definition no_output (v : worker) (name main_output_dir : string)
    (w : world) : Prop :=
  let '(dir, fs1) := create_dir main_output_dir name (w_fs w) in
  let output_file := os_path_join dir "annotation.gtf" in
  fs1 !! resolve (checked_from v (w_cwd w) dir) output_file = None
  \/ check_gtf_content output_file "repeat" fs1 <= 0.

(** The tasks of a run: one for each slice of the genome, in the order of
    the slices, all with the same command template, directory and
    extension. *)
Definition tasks_of (v : worker) (cmd : list (option string))
    (ext : option string) (genome_file dir : string)
    (fs : gmap string node) : list task :=
  map (fun slice_id => Task v cmd slice_id genome_file dir ext)
    (create_slice_ids (get_seq_region_lengths genome_file 5000 fs)
       1000000 0 5000).

(** The call went through the whole pipeline and returned [None]: the
    slices were computed, a pool of [num_threads] processes was given one
    task per slice, closed and joined, and the outputs of the slices were
    merged in the file system the pool left. *)
Definition ran_pipeline (v : worker) (cmd : string -> list (option string))
    (ext : option string) (name suffix merged : string)
    (genome_file main_output_dir : string) (num_threads : Z) (w : world)
    (r : res (option Z) * world) : Prop :=
  let '(dir, fs1) := create_dir main_output_dir name (w_fs w) in
  let tasks := tasks_of v (cmd dir) ext genome_file dir fs1 in
  r.1 = Ret None
  /\ (exists evs,
        w_trace r.2 = (w_trace w ++ evs)%list
        /\ List.filter is_work evs
           = ([EvSeqRegionLengths genome_file 5000;
               EvCreateSliceIds 1000000 0 5000; EvPool num_threads]
              ++ map EvApplyAsync tasks
              ++ [EvPoolClose; EvPoolJoin;
                  EvSliceOutputToGtf dir suffix])%list)
  /\ w_fs r.2
     = slice_output_to_gtf dir suffix 1 "repeat_id" merged
         (pool_run num_threads tasks fs1).

(** The call ended where the pool is created: the slices had been
    computed, nothing was dispatched or merged, and the file system is the
    one [create_dir] left. *)
Definition pool_refused (name genome_file main_output_dir : string)
    (w : world) (r : res (option Z) * world) : Prop :=
  r.1 = Raise ValueError
  /\ (exists evs,
        w_trace r.2 = (w_trace w ++ evs)%list
        /\ List.filter is_work evs
           = [EvSeqRegionLengths genome_file 5000;
              EvCreateSliceIds 1000000 0 5000])
  /\ w_fs r.2 = (create_dir main_output_dir name (w_fs w)).2.

(** Forget the runtime parameters a goal does not mention. *)
Ltac drop_params :=
  try clear pool_run; try clear subprocess_run;
  try clear slice_output_to_gtf; try clear get_sequence;
  try clear create_slice_ids; try clear get_seq_region_lengths;
  try clear check_gtf_content; try clear create_dir; try clear check_exe;
  try clear float_repr; try clear float.

(** ** Properties of the loop *)

Lemma while_line_stuck body st :
  body st = inr st -> is_empty (line st) = false ->
  forall fuel, while_line body fuel st = (OutOfFuel, st).
Proof.
  intros Hbody Hline fuel.
  induction fuel as [|fuel IH]; simpl; rewrite Hline; [reflexivity|].
  rewrite Hbody. exact IH.
Qed.

Lemma written_next_line st : written (next_line st) = written st.
Proof. unfold next_line. destruct (readline (unread st)); reflexivity. Qed.

Lemma repeat_count_next_line st :
  repeat_count (next_line st) = repeat_count st.
Proof. unfold next_line. destruct (readline (unread st)); reflexivity. Qed.

Lemma numbered_start text : numbered (start_pass text).
Proof.
  unfold numbered, start_pass.
  rewrite written_next_line, repeat_count_next_line. simpl. split; reflexivity.
Qed.

Lemma numbered_next_line st : numbered st -> numbered (next_line st).
Proof.
  unfold numbered. rewrite written_next_line, repeat_count_next_line. tauto.
Qed.

Lemma numbered_emit f st :
  repeat_id f = Some (PInt (repeat_count st)) ->
  numbered st -> numbered (emit f st).
Proof.
  intros Hid [Hids Hcount]. unfold numbered, emit; simpl.
  rewrite length_app; simpl. split; [|lia].
  rewrite fmap_app, Hids; simpl.
  replace (Z.of_nat (length (written st) + 1))
    with (Z.of_nat (length (written st)) + 1)%Z by lia.
  rewrite seqZ_app by lia. rewrite fmap_app. f_equal.
  rewrite seqZ_cons by lia. rewrite seqZ_nil by lia. simpl.
  rewrite Hid, Hcount. reflexivity.
Qed.

Lemma dust_body_numbered region_name st st' :
  dust_body region_name st = inr st' -> numbered st -> numbered st'.
Proof.
  unfold dust_body. intros Hbody Hst.
  destruct (re_dust (line st)) as [[g1 g2]|];
    [destruct (dust_bounds g1 g2) as [[start end_]|]; [|discriminate]|];
    injection Hbody as <-; [|by apply numbered_next_line].
  apply numbered_next_line, numbered_emit; [reflexivity|assumption].
Qed.

Lemma numbered_body v region_name st st' :
  body_of v region_name st = inr st' -> numbered st -> numbered st'.
Proof.
  intros Hbody Hst. destruct v; simpl in Hbody.
  - unfold repeatmasker_body in Hbody.
    destruct (re_masker (line st));
      [|injection Hbody as <-; by apply numbered_next_line].
    destruct (repeatmasker_fields (line st)) as [e|results]; [discriminate|].
    destruct (negb (length results =? 15)%nat);
      injection Hbody as <-; [assumption|].
    apply numbered_next_line, numbered_emit; [|assumption].
    unfold repeatmasker_feature.
    destruct (String.eqb (results !!! 8%nat) "+"); reflexivity.
  - by apply (dust_body_numbered region_name st).
  - unfold trf_body in Hbody.
    destruct (re_trf (line st));
      [|injection Hbody as <-; by apply numbered_next_line].
    destruct (negb (length (split (line st)) =? 15)%nat);
      [injection Hbody as <-; assumption|].
    repeat match type of Hbody with
           | context [float ?s] => destruct (float s); [|discriminate]
           end.
    destruct (trf_accept _ _ _ _); injection Hbody as <-;
      [|by apply numbered_next_line].
    apply numbered_next_line, numbered_emit; [reflexivity|assumption].
Qed.

Lemma numbered_loop body fuel st :
  (forall st0 st1, body st0 = inr st1 -> numbered st0 -> numbered st1) ->
  numbered st -> numbered (while_line body fuel st).2.
Proof.
  intros Hbody. revert st. induction fuel as [|fuel IH]; intros st Hst; simpl.
  - destruct (is_empty (line st)); exact Hst.
  - destruct (is_empty (line st)); [exact Hst|].
    destruct (body st) as [e|st'] eqn:Hst'; [exact Hst|].
    apply IH. by apply (Hbody st).
Qed.

Lemma numbered_while v region_name fuel st :
  numbered st -> numbered (while_line (body_of v region_name) fuel st).2.
Proof. apply numbered_loop, numbered_body. Qed.

Lemma seqZ_prefix (n1 n2 : nat) :
  (n1 <= n2)%nat ->
  seqZ 1 (Z.of_nat n1) `prefix_of` seqZ 1 (Z.of_nat n2).
Proof.
  intros Hle. exists (seqZ (1 + Z.of_nat n1) (Z.of_nat (n2 - n1))).
  rewrite <- seqZ_app by lia. f_equal. lia.
Qed.

(** ** Properties of the text primitives *)

Lemma span_digits_app d r :
  all_digits d = true -> starts_with_digit r = false ->
  span_digits (d +:+ r) = (d, r).
Proof.
  intros Hd Hr. induction d as [|c d IH]; simpl in *.
  - destruct r as [|c r]; simpl in *; [reflexivity|]. by rewrite Hr.
  - apply andb_prop in Hd as [Hc Hd]. rewrite Hc, (IH Hd). reflexivity.
Qed.

Lemma re_dust_shape d1 d2 tail :
  is_number d1 = true -> is_number d2 = true ->
  starts_with_digit tail = false ->
  re_dust (d1 +:+ " - " +:+ d2 +:+ tail) = Some (d1, d2).
Proof.
  unfold is_number. intros H1 H2 Htail.
  apply andb_prop in H1 as [Hne1 Hd1], H2 as [Hne2 Hd2].
  assert (Hat : re_dust_at (d1 +:+ " - " +:+ d2 +:+ tail) = Some (d1, d2)).
  { unfold re_dust_at. rewrite span_digits_app by done.
    destruct d1 as [|c1 d1]; [discriminate|]. simpl.
    change (EmptyString +:+ d2 +:+ tail) with (d2 +:+ tail).
    rewrite span_digits_app by done.
    destruct d2 as [|c2 d2]; [discriminate|]. reflexivity. }
  destruct d1 as [|c1 d1]; [discriminate|].
  change (String c1 d1 +:+ " - " +:+ d2 +:+ tail)
    with (String c1 (d1 +:+ " - " +:+ d2 +:+ tail)) in *.
  simpl. by rewrite Hat.
Qed.

Lemma Qltb_spec x y : Qltb x y = true <-> (x < y)%Q.
Proof. unfold Qltb, Qlt. apply Z.ltb_lt. Qed.

Lemma float_lt_spec a b : float_lt a b = true <-> Flt a b.
Proof.
  destruct a as [x|[]|], b as [y|[]|]; simpl;
    try apply Qltb_spec; intuition discriminate.
Qed.

Lemma float_le_spec a b : float_le a b = true <-> Fle a b.
Proof.
  destruct a as [x|[]|], b as [y|[]|]; simpl;
    try apply Qle_bool_iff; intuition discriminate.
Qed.

Lemma trf_accept_iff score percent_matches copy_number period :
  trf_accept score percent_matches copy_number period = true
  <-> trf_accept_spec score percent_matches copy_number period.
Proof.
  unfold trf_accept, trf_accept_spec, float_gt, float_ge.
  rewrite orb_true_iff, !andb_true_iff, !float_lt_spec, !float_le_spec.
  drop_params. tauto.
Qed.

(** ** The parsers *)

(** C5: in the Masker parser, an accepted line (one that starts with a
    numeric score and has 15 fields once a trailing star is dropped)
    yields a record whose strand is [+] and whose [repeat_start] and
    [repeat_end] are fields 11 and 12 when field 8 is [+], and whose
    strand is [-] and whose [repeat_start] and [repeat_end] are fields 13
    and 12 for any other value of field 8 (positions counted from 0). *)
Theorem C5_masker_strand_selects_repeat_bounds
    (region_name : string) (st : pass) (results : list string) :
  re_masker (line st) = true ->
  repeatmasker_fields (line st) = inr results ->
  length results = 15%nat ->
  let plus := String.eqb (results !!! 8%nat) "+" in
  exists f,
    repeatmasker_body region_name st = inr (next_line (emit f st))
    /\ strand f = (if plus then "+" else "-")
    /\ attribute "repeat_start" f
       = Some (PStr (results !!! (if plus then 11 else 13)%nat))
    /\ attribute "repeat_end" f = Some (PStr (results !!! 12%nat)).
Proof.
  intros Hre Hfields Hlen plus.
  exists (repeatmasker_feature region_name (repeat_count st) results).
  unfold repeatmasker_body. rewrite Hre, Hfields, Hlen. simpl.
  split; [reflexivity|].
  unfold repeatmasker_feature. fold plus.
  destruct plus eqn:Hplus; simpl; [|by auto].
  apply String.eqb_eq in Hplus. by rewrite Hplus.
Qed.

(** C6: in the TandemRepeat parser, a candidate line of 15 fields (whose
    period, copy number, percent matches and score read as floats) is
    written as a record if and only if
    (score < 50 and percent_matches >= 80 and copy_number > 2 and
    period < 10) or (copy_number >= 2 and percent_matches >= 70 and
    score >= 50); score 45, percent matches 85, copy number 3 and period 8
    are accepted, and the same with period 12 are rejected. *)
Theorem C6_trf_acceptance_rule
    (region_name : string) (st : pass)
    (period copy_number percent_matches score : pyfloat) :
  let results := split (line st) in
  re_trf (line st) = true ->
  length results = 15%nat ->
  float (results !!! 2%nat) = Some period ->
  float (results !!! 3%nat) = Some copy_number ->
  float (results !!! 5%nat) = Some percent_matches ->
  float (results !!! 7%nat) = Some score ->
  let f := trf_feature region_name (repeat_count st) results score in
  (exists st',
      trf_body region_name st = inr st'
      /\ (written st' = (written st ++ [f])%list
          <-> trf_accept_spec score percent_matches copy_number period)
      /\ (written st' = written st
          <-> ~ trf_accept_spec score percent_matches copy_number period))
  /\ trf_accept_spec (of_int 45) (of_int 85) (of_int 3) (of_int 8)
  /\ ~ trf_accept_spec (of_int 45) (of_int 85) (of_int 3) (of_int 12).
Proof.
  intros results Hre Hlen Hp Hc Hm Hs f. split; [|split].
  - drop_params. unfold trf_body. fold results. rewrite Hre, Hlen, Hp, Hc, Hm, Hs. simpl.
    assert (Hne : (written st ++ [f])%list <> written st).
    { intros Heq. apply (f_equal length) in Heq.
      rewrite length_app in Heq. simpl in Heq. lia. }
    destruct (trf_accept score percent_matches copy_number period) eqn:Hacc.
    + apply trf_accept_iff in Hacc.
      eexists; split; [reflexivity|]. rewrite written_next_line. simpl.
      tauto.
    + assert (Hnot : ~ trf_accept_spec score percent_matches copy_number
                       period).
      { intros Hspec. apply trf_accept_iff in Hspec. congruence. }
      eexists; split; [reflexivity|]. rewrite written_next_line.
      split; split; intros; try tauto. by symmetry in H.
  - apply trf_accept_iff. reflexivity.
  - intros Hspec. apply trf_accept_iff in Hspec. discriminate.
Qed.

(** *** The conversions of the Dust parser *)

Lemma digit_value_nonneg c : isdigit c = true -> (0 <= digit_value c <= 9)%Z.
Proof.
  destruct c as [[] [] [] [] [] [] [] []]; vm_compute; intuition congruence.
Qed.

Lemma int_go_nonneg s acc :
  all_digits s = true -> (0 <= acc)%Z -> (0 <= int_go acc s)%Z.
Proof.
  revert acc. induction s as [|c s IH]; intros acc Hs Hacc; [exact Hacc|].
  simpl in Hs. apply andb_prop in Hs as [Hc Hs]. simpl.
  apply IH; [exact Hs|]. pose proof (digit_value_nonneg c Hc). lia.
Qed.

(** A string of [n] digits reads as a number below [10 ^ n]. *)
Lemma int_go_bound s acc :
  all_digits s = true -> (0 <= acc)%Z ->
  (int_go acc s < (acc + 1) * 10 ^ Z.of_nat (String.length s))%Z.
Proof.
  revert acc. induction s as [|c s IH]; intros acc Hs Hacc.
  - simpl. lia.
  - simpl in Hs. apply andb_prop in Hs as [Hc Hs].
    pose proof (digit_value_nonneg c Hc) as Hd.
    cbn [int_go String.length].
    specialize (IH (10 * acc + digit_value c) Hs ltac:(lia)).
    rewrite Nat2Z.inj_succ, Z.pow_succ_r by lia.
    assert (Hpow : (0 < 10 ^ Z.of_nat (String.length s))%Z)
      by (apply Z.pow_pos_nonneg; lia).
    nia.
Qed.

Lemma int_nonneg s a : is_number s = true -> int s = Some a -> (0 <= a)%Z.
Proof.
  unfold is_number, int. intros Hs. apply andb_prop in Hs as [_ Hs].
  destruct (_ <=? _)%Z; [|discriminate]. intros [= <-].
  by apply int_go_nonneg.
Qed.

Lemma int_in_limit s :
  (Z.of_nat (String.length s) <= int_max_str_digits)%Z ->
  int s = Some (int_go 0 s).
Proof.
  intros Hlen. unfold int. by rewrite (proj2 (Z.leb_le _ _) Hlen).
Qed.

Lemma str_int_in_limit s :
  all_digits s = true ->
  (Z.of_nat (String.length s) < int_max_str_digits)%Z ->
  str_int (int_go 0 s + 1) = Some (pretty (int_go 0 s + 1)%Z).
Proof.
  intros Hs Hlen. unfold str_int.
  pose proof (int_go_nonneg s 0 Hs ltac:(lia)) as Hlo.
  pose proof (int_go_bound s 0 Hs ltac:(lia)) as Hhi.
  assert (Hpow : (10 ^ Z.of_nat (String.length s) * 10
                  <= 10 ^ int_max_str_digits)%Z).
  { rewrite Z.mul_comm, <- Z.pow_succ_r by lia.
    apply Z.pow_le_mono_r; lia. }
  assert (Hpos : (0 < 10 ^ Z.of_nat (String.length s))%Z)
    by (apply Z.pow_pos_nonneg; lia).
  rewrite (proj2 (Z.ltb_lt _ _)); [reflexivity|].
  rewrite Z.abs_eq by lia.
  generalize dependent (10 ^ int_max_str_digits)%Z.
  generalize dependent (10 ^ Z.of_nat (String.length s))%Z. intros. lia.
Qed.

(** The conversions go through on numbers of fewer than 4300 digits. *)
Lemma dust_bounds_in_limit g1 g2 :
  all_digits g1 = true -> all_digits g2 = true ->
  (Z.of_nat (String.length g1) < int_max_str_digits)%Z ->
  (Z.of_nat (String.length g2) < int_max_str_digits)%Z ->
  dust_bounds g1 g2 = Some (int_go 0 g1 + 1, int_go 0 g2 + 1)%Z.
Proof.
  intros H1 H2 Hl1 Hl2. unfold dust_bounds.
  rewrite !int_in_limit by lia.
  by rewrite !str_int_in_limit.
Qed.

(** C7: in the LowComplexity parser, a line of the shape
    [<int> - <int>], each integer of fewer than 4300 digits, yields
    exactly one record, whose start is the first integer plus 1, whose end
    is the second integer plus 1, whose strand is [+] and whose only
    attribute is [repeat_id]; the line [12 - 45] yields start 13, end 46
    and strand [+].  (On more digits [int] or [str] raises
    [ValueError].) *)
Theorem C7_dust_line_yields_one_record
    (region_name : string) (st : pass) (d1 d2 tail : string) :
  is_number d1 = true ->
  is_number d2 = true ->
  Z.of_nat (String.length d1) < int_max_str_digits ->
  Z.of_nat (String.length d2) < int_max_str_digits ->
  starts_with_digit tail = false ->
  line st = d1 +:+ " - " +:+ d2 +:+ tail ->
  exists a b,
    int d1 = Some a /\ int d2 = Some b
    /\ dust_body region_name st
       = inr (next_line
                (emit (Feature region_name "Dust" (PInt (a + 1))
                         (PInt (b + 1)) "+"
                         [("repeat_id", PInt (repeat_count st))]) st))
    /\ written
         (next_line
            (emit (Feature region_name "Dust" (PInt (a + 1))
                     (PInt (b + 1)) "+"
                     [("repeat_id", PInt (repeat_count st))]) st))
       = (written st
          ++ [Feature region_name "Dust" (PInt (a + 1)) (PInt (b + 1)) "+"
                [("repeat_id", PInt (repeat_count st))]])%list
    /\ dust_bounds "12" "45" = Some (13, 46).
Proof.
  intros H1 H2 Hl1 Hl2 Htail Hline.
  exists (int_go 0 d1), (int_go 0 d2).
  pose proof H1 as Hd1. pose proof H2 as Hd2.
  apply andb_prop in Hd1 as [_ Hd1], Hd2 as [_ Hd2].
  split; [apply int_in_limit; lia|]. split; [apply int_in_limit; lia|].
  split; [|split].
  - unfold dust_body.
    rewrite Hline, re_dust_shape, dust_bounds_in_limit by assumption.
    reflexivity.
  - rewrite written_next_line. reflexivity.
  - vm_compute. reflexivity.
Qed.

(** C8: in every variant's parse pass the counter starts at 1 and grows by
    exactly 1 with each record written, so that at every point of a pass
    the records written so far carry the identifiers 1, 2, ..., n in the
    order they were written; the identifiers are local to a pass: of two
    passes, the identifiers of one are an initial part of the identifiers
    of the other. *)
Theorem C8_repeat_ids_count_from_one
    (v1 v2 : worker) (region1 region2 text1 text2 : string)
    (fuel1 fuel2 : nat) :
  let st1 := (while_line (body_of v1 region1) fuel1 (start_pass text1)).2 in
  let st2 := (while_line (body_of v2 region2) fuel2 (start_pass text2)).2 in
  repeat_count (start_pass text1) = 1
  /\ numbered st1
  /\ numbered st2
  /\ ((repeat_id <$> written st1) `prefix_of` (repeat_id <$> written st2)
      \/ (repeat_id <$> written st2) `prefix_of` (repeat_id <$> written st1)).
Proof.
  intros st1 st2.
  assert (H1 : numbered st1) by apply numbered_while, numbered_start.
  assert (H2 : numbered st2) by apply numbered_while, numbered_start.
  split; [|split; [exact H1|split; [exact H2|]]].
  - unfold start_pass. by rewrite repeat_count_next_line.
  - destruct H1 as [-> _], H2 as [-> _].
    destruct (Nat.le_ge_cases (length (written st1)) (length (written st2)))
      as [Hle|Hle]; [left|right];
      destruct (seqZ_prefix _ _ Hle) as [k ->];
      exists ((fun i => Some (PInt i)) <$> k); apply fmap_app.
Qed.

(** ** The parse pass as a whole *)

Lemma parse_pass_missing body fuel raw canonical w :
  node_at w raw = None ->
  parse_pass body fuel raw canonical w = (Raise FileNotFoundError, w).
Proof.
  unfold node_at. intros Hraw. unfold parse_pass. mprim. rewrite Hraw.
  reflexivity.
Qed.

Lemma open_w_fs path w :
  node_at w path <> Some Dir ->
  open_w path w
  = (Ret tt,
     World (<[resolve (w_cwd w) path := File EmptyString]> (w_fs w))
       (w_cwd w) (w_heap w) (w_trace w)).
Proof.
  unfold node_at. intros Hdir. mprim.
  destruct (w_fs w !! _) as [[c|]|]; congruence.
Qed.

Lemma read_after_open_w raw canonical text (fs : gmap string node) :
  fs !! raw = Some (File text) ->
  match <[canonical := File EmptyString]> fs !! raw with
  | Some (File c) => c
  | _ => EmptyString
  end = if decide (canonical = raw) then EmptyString else text.
Proof.
  intros Hraw. destruct (decide (canonical = raw)) as [->|Hne].
  - by rewrite lookup_insert_eq.
  - by rewrite lookup_insert_ne, Hraw.
Qed.

Lemma parse_pass_empty body fuel raw canonical w :
  node_at w raw = Some (File EmptyString) ->
  node_at w canonical <> Some Dir ->
  exists w',
    parse_pass body fuel raw canonical w = (Ret tt, w')
    /\ node_at w' canonical = Some (File EmptyString).
Proof.
  unfold node_at. intros Hraw Hdir. unfold parse_pass. mprim. rewrite Hraw.
  assert (Hloop : forall text,
    text = EmptyString ->
    while_line body fuel (start_pass text)
    = (Ret tt, Pass EmptyString EmptyString 1 [])).
  { intros text ->. destruct fuel; reflexivity. }
  destruct (w_fs w !! resolve (w_cwd w) canonical) as [[c|]|] eqn:Hc;
    [|congruence|];
    cbn [w_fs w_cwd]; rewrite Hloop;
    try (eexists; split; [reflexivity|]; cbn [w_fs w_cwd];
         apply lookup_insert_eq);
    rewrite (read_after_open_w _ _ EmptyString) by assumption;
    by destruct (decide (_ = _)).
Qed.

Lemma parse_pass_outcome body fuel raw canonical text w :
  node_at w raw = Some (File text) ->
  node_at w canonical <> Some Dir ->
  resolve (w_cwd w) canonical <> resolve (w_cwd w) raw ->
  (parse_pass body fuel raw canonical w).1
  = match (while_line body fuel (start_pass text)).1 with
    | Ret _ => Ret tt
    | Raise e => Raise e
    | OutOfFuel => OutOfFuel
    end.
Proof.
  unfold node_at. intros Hraw Hdir Hne. unfold parse_pass. mprim.
  rewrite Hraw.
  destruct (w_fs w !! resolve (w_cwd w) canonical) as [[c|]|] eqn:Hc;
    [|congruence|];
    cbn [w_fs w_cwd];
    rewrite (read_after_open_w _ _ text) by assumption;
    destruct (decide (_ = _)); try congruence;
    destruct (while_line body fuel (start_pass text)) as [[[]|e|] st];
    reflexivity.
Qed.

(** C3, as amended: when the tool has left no raw output file, the parse
    step of every variant raises [FileNotFoundError] as it opens the raw
    output; no record is written, the canonical file is not created and
    nothing else changes.  When the raw output file is there and empty,
    the parse step of every variant returns without error and leaves an
    empty canonical file: zero records. *)
Theorem C3_missing_raw_output_raises
    (fuel : nat) (raw canonical region_name : string)
    (w_missing w_empty : world) :
  node_at w_missing raw = None ->
  node_at w_empty raw = Some (File EmptyString) ->
  node_at w_empty canonical <> Some Dir ->
  (create_repeatmasker_gtf fuel raw canonical region_name w_missing
   = (Raise FileNotFoundError, w_missing)
   /\ create_dust_gtf fuel raw canonical region_name w_missing
      = (Raise FileNotFoundError, w_missing)
   /\ create_trf_gtf fuel raw canonical region_name w_missing
      = (Raise FileNotFoundError, w_missing))
  /\ (exists w',
        create_repeatmasker_gtf fuel raw canonical region_name w_empty
        = (Ret tt, w')
        /\ node_at w' canonical = Some (File EmptyString))
  /\ (exists w',
        create_dust_gtf fuel raw canonical region_name w_empty = (Ret tt, w')
        /\ node_at w' canonical = Some (File EmptyString))
  /\ (exists w',
        create_trf_gtf fuel raw canonical region_name w_empty = (Ret tt, w')
        /\ node_at w' canonical = Some (File EmptyString)).
Proof.
  intros Hmissing Hempty Hdir.
  unfold create_repeatmasker_gtf, create_dust_gtf, create_trf_gtf.
  repeat split; try (by apply parse_pass_missing);
    by apply parse_pass_empty.
Qed.

(** ** The heap: what a worker does to the list it is handed *)

Lemma keeps_loc_bind {A B} r (m : M A) (k : A -> M B) :
  keeps_loc r m -> (forall a, keeps_loc r (k a)) -> keeps_loc r (bind m k).
Proof.
  intros Hm Hk w. specialize (Hm w). unfold bind.
  destruct (m w) as [[a|e|] w1]; simpl in *; [|assumption..].
  by rewrite Hk.
Qed.

Lemma keeps_loc_same_heap {A} r (m : M A) :
  (forall w, w_heap (m w).2 = w_heap w) -> keeps_loc r m.
Proof. intros Hm w. by rewrite Hm. Qed.

Ltac same_heap :=
  apply keeps_loc_same_heap; intros ?; mprim;
  repeat case_match; simplify_eq; reflexivity.

Lemma keeps_loc_ret {A} r (a : A) : keeps_loc r (ret a).
Proof. same_heap. Qed.

Lemma keeps_loc_trace r e : keeps_loc r (trace e).
Proof. same_heap. Qed.

Lemma keeps_loc_log r msg : keeps_loc r (log msg).
Proof. same_heap. Qed.

Lemma keeps_loc_open_w r path : keeps_loc r (open_w path).
Proof. same_heap. Qed.

Lemma keeps_loc_close_w r path text : keeps_loc r (close_w path text).
Proof. same_heap. Qed.

Lemma keeps_loc_os_chdir r dir : keeps_loc r (os_chdir dir).
Proof. same_heap. Qed.

Lemma keeps_loc_os_remove r path : keeps_loc r (os_remove path).
Proof. same_heap. Qed.

Lemma keeps_loc_remove_if_exists r path :
  keeps_loc r (remove_if_exists path).
Proof. same_heap. Qed.

Lemma keeps_loc_strings r cmd : keeps_loc r (strings cmd).
Proof. same_heap. Qed.

Lemma keeps_loc_parse_pass r body fuel raw canonical :
  keeps_loc r (parse_pass body fuel raw canonical).
Proof.
  apply keeps_loc_same_heap; intros w. unfold parse_pass. mprim.
  repeat case_match; simplify_eq; reflexivity.
Qed.

Lemma keeps_loc_run_tool r cmd : keeps_loc r (run_tool cmd).
Proof.
  apply keeps_loc_same_heap; intros w. unfold run_tool. mprim.
  repeat case_match; simplify_eq; reflexivity.
Qed.

Lemma keeps_loc_slice_log r what slice_id :
  keeps_loc r (slice_log what slice_id).
Proof. destruct slice_id as [[? ?] ?]. apply keeps_loc_log. Qed.

Lemma keeps_loc_write_region_fasta r slice_id genome_file output_dir :
  keeps_loc r (write_region_fasta slice_id genome_file output_dir).
Proof.
  destruct slice_id as [[? ?] ?]. apply keeps_loc_same_heap; intros w.
  unfold write_region_fasta. mprim.
  repeat case_match; simplify_eq; reflexivity.
Qed.

Lemma keeps_loc_list_append r cmd x :
  cmd <> r -> keeps_loc r (list_append cmd x).
Proof.
  intros Hne w. mprim. destruct (w_heap w !! cmd); [|reflexivity].
  cbn. by rewrite lookup_insert_ne.
Qed.

Lemma keeps_loc_list_setitem r cmd i x :
  cmd <> r -> keeps_loc r (list_setitem cmd i x).
Proof.
  intros Hne w. mprim. destruct (w_heap w !! cmd) as [l|]; [|reflexivity].
  destruct (i <? length l)%nat; [|reflexivity].
  cbn. by rewrite lookup_insert_ne.
Qed.

(** The copy is a new list object, distinct from the one copied. *)
Lemma keeps_loc_copy_then {B} r (k : positive -> M B) :
  (forall cmd, cmd <> r -> keeps_loc r (k cmd)) ->
  keeps_loc r (bind (list_copy r) k).
Proof.
  intros Hk w. unfold bind at 1, list_copy. mprim.
  destruct (w_heap w !! r) as [l|] eqn:Hr; [|exact Hr].
  cbn.
  assert (Hfresh : fresh (dom (w_heap w)) <> r).
  { intros Heq. apply (is_fresh (dom (w_heap w))). rewrite Heq.
    apply elem_of_dom. by exists l. }
  rewrite (Hk _ Hfresh). cbn. by rewrite lookup_insert_ne.
Qed.

Create HintDb frame.

Hint Resolve keeps_loc_ret keeps_loc_trace keeps_loc_log keeps_loc_open_w
  keeps_loc_close_w keeps_loc_os_chdir keeps_loc_os_remove
  keeps_loc_remove_if_exists keeps_loc_strings keeps_loc_parse_pass
  keeps_loc_run_tool keeps_loc_slice_log keeps_loc_write_region_fasta
  keeps_loc_list_append keeps_loc_list_setitem : frame.

Ltac frame :=
  repeat first
    [ solve [auto with frame]
    | apply keeps_loc_copy_then; intros ? ?
    | apply keeps_loc_bind; [|intros ?] ].

(** C10: each of the three workers copies the command template it is
    handed and appends to, or writes into, the copy; whatever the worker
    does and however it ends, the template is after the call the list it
    was before. *)
Theorem C10_workers_leave_template_unchanged
    (fuel : nat) (template : positive) (slice_id : string * Z * Z)
    (genome_file output_dir trf_output_extension : string) (w : world) :
  w_heap (multiprocess_repeatmasker fuel template slice_id genome_file
            output_dir w).2 !! template
  = w_heap w !! template
  /\ w_heap (multiprocess_dust fuel template slice_id genome_file
               output_dir w).2 !! template
     = w_heap w !! template
  /\ w_heap (multiprocess_trf fuel template slice_id genome_file
               output_dir trf_output_extension w).2 !! template
     = w_heap w !! template.
Proof.
  assert (Hrm : keeps_loc template
            (multiprocess_repeatmasker fuel template slice_id genome_file
               output_dir)).
  { unfold multiprocess_repeatmasker, create_repeatmasker_gtf. frame. }
  assert (Hdust : keeps_loc template
            (multiprocess_dust fuel template slice_id genome_file
               output_dir)).
  { unfold multiprocess_dust, create_dust_gtf. frame. }
  assert (Htrf : keeps_loc template
            (multiprocess_trf fuel template slice_id genome_file
               output_dir trf_output_extension)).
  { unfold multiprocess_trf, create_trf_gtf. frame. }
  split; [apply Hrm|split; [apply Hdust|apply Htrf]].
Qed.

(** ** The entry points *)

Lemma or_default_some x d : exists path, or_default x d = Some path.
Proof.
  unfold or_default, truthy. destruct x as [s|]; [|by eexists].
  destruct (is_empty s); by eexists.
Qed.

Ltac entry :=
  cbv beta iota zeta delta
    [call_check_exe call_create_dir call_check_gtf_content genomic_slices
     dispatch call_slice_output_to_gtf];
  mprim.

Ltac at_check :=
  split; [reflexivity|]; split; [|reflexivity];
  eexists; split; [rewrite <- ?app_assoc; reflexivity|reflexivity].

Ltac no_dispatch :=
  eexists; split; [rewrite <- ?app_assoc; reflexivity|];
  cbn; constructor.

(** X20: for each of the three entry points, when [annotation.gtf] is
    found from where the entry point looks for it, and
    [check_gtf_content] counts at least one [repeat] feature in it, the
    call returns at the resume check ([None] for RepeatMasker and TRF, [0]
    for Dust) before any slice is computed, any worker dispatched or
    anything merged, and the file system is the one [create_dir] left.
    [run_repeatmasker_regions] looks for the file from inside its output
    directory, the other two from where they were called.  (When
    [check_exe] fails the call ends there, also without work.) *)
Theorem X20_found_output_skips_pipeline
    (genome_file : string)
    (repeatmasker_path library species dust_path trf_path : option string)
    (main_output_dir : string) (num_threads : Z) (w : world) :
  valid_output WRepeatMasker "repeatmasker_output" main_output_dir w ->
  valid_output WDust "dust_output" main_output_dir w ->
  valid_output WTrf "trf_output" main_output_dir w ->
  skipped (or_default repeatmasker_path "RepeatMasker")
    "repeatmasker_output" main_output_dir None w
    (run_repeatmasker_regions genome_file repeatmasker_path library species
       main_output_dir num_threads w)
  /\ skipped (or_default dust_path "dustmasker")
       "dust_output" main_output_dir (Some 0) w
       (run_dust_regions genome_file dust_path main_output_dir
          num_threads w)
  /\ skipped (or_default trf_path "trf")
       "trf_output" main_output_dir None w
       (run_trf_repeats genome_file trf_path main_output_dir
          num_threads w).
Proof.
  unfold valid_output, skipped, work_free, checked_from.
  intros Hrm Hdust Htrf. split; [|split].
  - destruct (or_default_some repeatmasker_path "RepeatMasker")
      as [path Hpath].
    exists path. split; [assumption|].
    unfold run_repeatmasker_regions. rewrite Hpath. entry.
    destruct (check_exe path (w_fs w)); entry; [|at_check].
    destruct (create_dir main_output_dir "repeatmasker_output" (w_fs w))
      as [dir fs1].
    destruct Hrm as [[text Hfile] Hcount]. entry.
    rewrite Hfile. rewrite bool_decide_eq_true_2 by eauto. entry.
    apply Z.ltb_lt in Hcount. rewrite Hcount. entry. at_check.
  - destruct (or_default_some dust_path "dustmasker") as [path Hpath].
    exists path. split; [assumption|].
    unfold run_dust_regions. rewrite Hpath. entry.
    destruct (check_exe path (w_fs w)); entry; [|at_check].
    destruct (create_dir main_output_dir "dust_output" (w_fs w))
      as [dir fs1].
    destruct Hdust as [[text Hfile] Hcount]. entry.
    rewrite Hfile. entry.
    apply Z.ltb_lt in Hcount. rewrite Hcount. entry. at_check.
  - destruct (or_default_some trf_path "trf") as [path Hpath].
    exists path. split; [assumption|].
    unfold run_trf_repeats. rewrite Hpath. entry.
    destruct (check_exe path (w_fs w)); entry; [|at_check].
    destruct (create_dir main_output_dir "trf_output" (w_fs w))
      as [dir fs1].
    destruct Htrf as [[text Hfile] Hcount]. entry.
    rewrite Hfile. rewrite bool_decide_eq_true_2 by eauto. entry.
    apply Z.ltb_lt in Hcount. rewrite Hcount. entry. at_check.
Qed.

Lemma for_each_apply_async (f : task -> M unit) tasks w :
  (forall t w0,
      f t w0
      = (Ret tt,
         World (w_fs w0) (w_cwd w0) (w_heap w0)
           (w_trace w0 ++ [EvApplyAsync t]))) ->
  for_each tasks f w
  = (Ret tt,
     World (w_fs w) (w_cwd w) (w_heap w)
       (w_trace w ++ map EvApplyAsync tasks)).
Proof.
  intros Hf. revert w. induction tasks as [|t tasks IH]; intros w; simpl.
  - rewrite app_nil_r. by destruct w.
  - unfold bind. rewrite Hf, IH. cbn. by rewrite <- app_assoc.
Qed.

Lemma dispatched_app evs1 evs2 :
  dispatched (evs1 ++ evs2) = (dispatched evs1 ++ dispatched evs2)%list.
Proof. apply omap_app. Qed.

Lemma dispatched_apply_async tasks :
  dispatched (map EvApplyAsync tasks) = tasks.
Proof. induction tasks as [|t tasks IH]; simpl; congruence. Qed.

Lemma truthy_or_default x d :
  is_empty d = false -> truthy (or_default x d) = true.
Proof.
  intros Hd. unfold or_default. destruct (truthy x) eqn:Hx; simpl.
  - exact Hx.
  - by rewrite Hd.
Qed.

(** C9: in [run_repeatmasker_regions] the library is given its default
    before the command is built, so the branch for a missing library is
    never taken: whatever the library and species arguments, the command
    template handed to every worker is the one with [-lib] and the
    library, and the species argument does not occur in it. *)
Theorem C9_masker_command_always_uses_lib
    (genome_file : string)
    (repeatmasker_path library species : option string)
    (main_output_dir : string) (num_threads : Z) (w : world) :
  let path := or_default repeatmasker_path "RepeatMasker" in
  let lib := or_default library "homo" in
  let dir :=
    (create_dir main_output_dir "repeatmasker_output" (w_fs w)).1 in
  let cmd :=
    [path; Some "-nolow"; Some "-lib"; lib; Some "-engine";
     Some "crossmatch"; Some "-dir"; Some dir] in
  truthy lib = true
  /\ generic_repeatmasker_cmd path lib species dir = cmd
  /\ exists evs,
       w_trace (run_repeatmasker_regions genome_file repeatmasker_path
                  library species main_output_dir num_threads w).2
       = (w_trace w ++ evs)%list
       /\ Forall (fun t => t_cmd t = cmd) (dispatched evs).
Proof.
  intros path lib dir cmd.
  assert (Hlib : truthy lib = true) by by apply truthy_or_default.
  assert (Hcmd : forall d,
    generic_repeatmasker_cmd path lib species d
    = [path; Some "-nolow"; Some "-lib"; lib; Some "-engine";
       Some "crossmatch"; Some "-dir"; Some d]).
  { intros d. unfold generic_repeatmasker_cmd. by rewrite Hlib. }
  split; [exact Hlib|]. split; [apply Hcmd|].
  unfold run_repeatmasker_regions. fold path lib. subst dir cmd.
  destruct (or_default_some repeatmasker_path "RepeatMasker")
    as [p Hpath].
  fold path in Hpath. rewrite Hpath in *. entry.
  destruct (check_exe p (w_fs w)); entry; [|no_dispatch].
  destruct (create_dir main_output_dir "repeatmasker_output" (w_fs w))
    as [dir fs1]; entry.
  destruct (bool_decide _); entry;
    [destruct (0 <? _)%Z; entry; [no_dispatch|]|];
    (destruct (num_threads <? 1)%Z; entry; [no_dispatch|];
     erewrite for_each_apply_async by reflexivity; entry;
     eexists; split; [rewrite <- ?app_assoc; reflexivity|];
     rewrite !dispatched_app, dispatched_apply_async; cbn;
     rewrite ?app_nil_r;
     apply Forall_map, Forall_forall; intros; apply Hcmd).
Qed.

(** ** The passes that end *)

Lemma readline_length s :
  (String.length (readline s).1 + String.length (readline s).2)%nat
  = String.length s.
Proof.
  induction s as [|c s IH]; simpl; [reflexivity|].
  destruct (Ascii.eqb c "010"); simpl; [reflexivity|].
  destruct (readline s) as [l r]. simpl in *. lia.
Qed.

Lemma readline_progress c s : is_empty (readline (String c s)).1 = false.
Proof.
  simpl. destruct (Ascii.eqb c "010"); [reflexivity|].
  destruct (readline s); reflexivity.
Qed.

Lemma next_line_measure st :
  is_empty (line st) = false ->
  (pass_measure (next_line st) < pass_measure st)%nat.
Proof.
  intros Hline. unfold pass_measure, next_line. rewrite Hline.
  pose proof (readline_length (unread st)) as Hlen.
  destruct (unread st) as [|c u] eqn:Hu; [simpl; lia|].
  pose proof (readline_progress c u) as Hne.
  destruct (readline (String c u)) as [l r]. cbn in *. rewrite Hne.
  destruct l; [discriminate|]. cbn in Hlen. lia.
Qed.

Lemma start_pass_measure text :
  (pass_measure (start_pass text) <= String.length text)%nat.
Proof.
  unfold start_pass, pass_measure, next_line. cbn.
  pose proof (readline_length text) as Hlen.
  destruct (readline text) as [l r]. cbn in *.
  destruct l; cbn in *; lia.
Qed.

Lemma while_line_ends body fuel st :
  (forall st0 st1,
      is_empty (line st0) = false -> body st0 = inr st1 ->
      (pass_measure st1 < pass_measure st0)%nat) ->
  (pass_measure st <= fuel)%nat ->
  (while_line body fuel st).1 <> OutOfFuel.
Proof.
  intros Hbody. revert st. induction fuel as [|fuel IH]; intros st Hfuel.
  - cbn. unfold pass_measure in Hfuel.
    destruct (is_empty (line st)); [discriminate|lia].
  - cbn. destruct (is_empty (line st)) eqn:Hline; [discriminate|].
    destruct (body st) as [e|st1] eqn:Hst; [discriminate|].
    apply IH. specialize (Hbody st st1 Hline Hst). lia.
Qed.

Lemma dust_body_advances region_name st0 st1 :
  is_empty (line st0) = false -> dust_body region_name st0 = inr st1 ->
  (pass_measure st1 < pass_measure st0)%nat.
Proof.
  intros Hline. unfold dust_body.
  destruct (re_dust (line st0)) as [[g1 g2]|];
    [destruct (dust_bounds g1 g2) as [[start end_]|]; [|discriminate]|];
    intros [= <-]; [|by apply next_line_measure].
  apply (next_line_measure (emit _ st0)). exact Hline.
Qed.

(** The Dust pass ends on every text, within as many rounds as the text
    has characters: it returns, or a conversion raises. *)
Lemma dust_pass_ends region_name text fuel :
  (String.length text <= fuel)%nat ->
  (while_line (dust_body region_name) fuel (start_pass text)).1
  <> OutOfFuel.
Proof.
  intros Hfuel. apply while_line_ends; [apply dust_body_advances|].
  pose proof (start_pass_measure text). lia.
Qed.

(** ** What a worker that returns has removed *)

Lemma ensures_bind_r {A B} (m : M A) (k : A -> M B) Q :
  (forall a, ensures (k a) Q) -> ensures (bind m k) Q.
Proof.
  intros Hk w b w'. unfold bind.
  destruct (m w) as [[a|e|] w1]; [apply Hk|discriminate..].
Qed.

Lemma ensures_bind_val {A B} (m : M A) (k : A -> M B) (R : A -> Prop) Q :
  (forall w a w', m w = (Ret a, w') -> R a) ->
  (forall a, R a -> ensures (k a) Q) -> ensures (bind m k) Q.
Proof.
  intros Hm Hk w b w'. unfold bind.
  destruct (m w) as [[a|e|] w1] eqn:Hw; [|discriminate..].
  apply Hk. by apply (Hm w a w1).
Qed.

Lemma ensures_bind_l {A B} (m : M A) (k : A -> M B) Q :
  ensures m Q -> (forall a, preserves (k a) Q) -> ensures (bind m k) Q.
Proof.
  intros Hm Hk w b w'. unfold bind.
  destruct (m w) as [[a|e|] w1] eqn:Hw; [|discriminate..].
  apply Hk. by apply (Hm w a w1).
Qed.

Lemma preserves_bind {A B} (m : M A) (k : A -> M B) Q :
  preserves m Q -> (forall a, preserves (k a) Q) -> preserves (bind m k) Q.
Proof.
  intros Hm Hk w b w' HQ. unfold bind.
  destruct (m w) as [[a|e|] w1] eqn:Hw; [|discriminate..].
  apply Hk. by apply (Hm w a w1).
Qed.

Lemma remove_if_exists_removes path :
  ensures (remove_if_exists path) (fun w => node_at w path = None).
Proof.
  intros w a w'. unfold node_at. mprim.
  destruct (w_fs w !! resolve (w_cwd w) path) as [[c|]|] eqn:Hpath; cbn;
    rewrite ?Hpath.
  - intros [= _ <-]. apply lookup_delete_eq.
  - discriminate.
  - by intros [= _ <-].
Qed.

Lemma remove_if_exists_keeps_absent path other :
  preserves (remove_if_exists other) (fun w => node_at w path = None).
Proof.
  intros w a w'. unfold node_at. intros Habsent. mprim.
  destruct (w_fs w !! resolve (w_cwd w) other) as [[c|]|] eqn:Hother; cbn;
    rewrite ?Hother.
  - intros [= _ <-]. cbn. rewrite lookup_delete. by case_decide.
  - discriminate.
  - by intros [= _ <-].
Qed.

Lemma write_region_fasta_path slice_id genome_file output_dir w a w' :
  write_region_fasta slice_id genome_file output_dir w = (Ret a, w') ->
  a = os_path_join output_dir (slice_file_name slice_id +:+ ".fa").
Proof.
  destruct slice_id as [[region start] end_]. unfold write_region_fasta.
  mprim. repeat case_match; simplify_eq; congruence.
Qed.

(** Whenever the Masker worker returns, the canonical file of its slice is
    not there. *)
Lemma masker_worker_removes_canonical
    fuel template slice_id genome_file output_dir :
  ensures
    (multiprocess_repeatmasker fuel template slice_id genome_file output_dir)
    (fun w =>
       node_at w
         (os_path_join output_dir (slice_file_name slice_id +:+ ".fa")
          +:+ ".rm.gtf") = None).
Proof.
  unfold multiprocess_repeatmasker.
  apply ensures_bind_r; intros _.
  apply (ensures_bind_val _ _
           (fun a => a = os_path_join output_dir
                           (slice_file_name slice_id +:+ ".fa")));
    [apply write_region_fasta_path|intros fasta ->].
  do 6 (apply ensures_bind_r; intros ?).
  apply ensures_bind_r; intros _.
  apply ensures_bind_l; [apply remove_if_exists_removes|intros _].
  repeat (apply preserves_bind;
          [apply remove_if_exists_keeps_absent|intros _]).
  apply remove_if_exists_keeps_absent.
Qed.

(** ** The lines a pass cannot get past *)

Lemma re_masker_nonempty l : re_masker l = true -> is_empty l = false.
Proof. by destruct l. Qed.

Lemma re_trf_nonempty l : re_trf l = true -> is_empty l = false.
Proof. by destruct l. Qed.

(** Once the Masker pass holds a candidate line that has not 15 fields, it
    stays on it for ever. *)
Lemma repeatmasker_short_line_stuck region_name st results fuel :
  re_masker (line st) = true ->
  repeatmasker_fields (line st) = inr results ->
  length results <> 15%nat ->
  while_line (repeatmasker_body region_name) fuel st = (OutOfFuel, st).
Proof.
  intros Hre Hfields Hlen. apply while_line_stuck.
  - unfold repeatmasker_body. rewrite Hre, Hfields.
    apply Nat.eqb_neq in Hlen. by rewrite Hlen.
  - by apply re_masker_nonempty.
Qed.

(** And so does the TRF pass. *)
Lemma trf_short_line_stuck region_name st fuel :
  re_trf (line st) = true ->
  length (split (line st)) <> 15%nat ->
  while_line (trf_body region_name) fuel st = (OutOfFuel, st).
Proof.
  intros Hre Hlen. apply while_line_stuck.
  - unfold trf_body. rewrite Hre.
    apply Nat.eqb_neq in Hlen. by rewrite Hlen.
  - by apply re_trf_nonempty.
Qed.

(** ** The line written for a record is the line the source concatenates *)

Lemma app_assoc_line s t u : (s +:+ t) +:+ u = s +:+ t +:+ u.
Proof.
  induction s as [|c s IH]; [reflexivity|].
  change ((String c s +:+ t) +:+ u) with (String c ((s +:+ t) +:+ u)).
  by rewrite IH.
Qed.

Lemma gtf_line_dust region_name repeat_count start end_ :
  gtf_line (dust_feature region_name repeat_count start end_)
  = region_name
    +:+ (tab +:+ "Dust" +:+ tab +:+ "repeat" +:+ tab)
    +:+ str (PInt start)
    +:+ tab
    +:+ str (PInt end_)
    +:+ (tab +:+ "." +:+ tab +:+ "+" +:+ tab +:+ "." +:+ tab)
    +:+ ("repeat_id " +:+ dq)
    +:+ str (PInt repeat_count)
    +:+ (dq +:+ ";" +:+ nl).
Proof.
  unfold gtf_line, dust_feature, gtf_attribute; cbn [seqname source f_start
    f_end strand attributes map join fst snd].
  rewrite !app_assoc_line. reflexivity.
Qed.

Lemma gtf_line_trf region_name repeat_count results score :
  gtf_line (trf_feature region_name repeat_count results score)
  = region_name
    +:+ (tab +:+ "TRF" +:+ tab +:+ "repeat" +:+ tab)
    +:+ str (PStr (results !!! 0%nat))
    +:+ tab
    +:+ str (PStr (results !!! 1%nat))
    +:+ (tab +:+ "." +:+ tab +:+ "+" +:+ tab +:+ "." +:+ tab)
    +:+ ("repeat_id " +:+ dq)
    +:+ str (PInt repeat_count)
    +:+ (dq +:+ "; score " +:+ dq)
    +:+ str (PFloat score)
    +:+ (dq +:+ "; repeat_consensus " +:+ dq)
    +:+ results !!! 13%nat
    +:+ (dq +:+ ";" +:+ nl).
Proof.
  unfold gtf_line, trf_feature, gtf_attribute; cbn [seqname source f_start
    f_end strand attributes map join fst snd].
  rewrite !app_assoc_line. reflexivity.
Qed.

Lemma gtf_line_repeatmasker region_name repeat_count results :
  let plus := String.eqb (results !!! 8%nat) "+" in
  gtf_line (repeatmasker_feature region_name repeat_count results)
  = region_name
    +:+ (tab +:+ "RepeatMasker" +:+ tab +:+ "repeat" +:+ tab)
    +:+ str (PStr (results !!! 5%nat))
    +:+ tab
    +:+ str (PStr (results !!! 6%nat))
    +:+ (tab +:+ "." +:+ tab)
    +:+ (if plus then results !!! 8%nat else "-")
    +:+ (tab +:+ "." +:+ tab)
    +:+ ("repeat_id " +:+ dq)
    +:+ str (PInt repeat_count)
    +:+ (dq +:+ "; repeat_name " +:+ dq)
    +:+ results !!! 9%nat
    +:+ (dq +:+ "; repeat_class " +:+ dq)
    +:+ results !!! 10%nat
    +:+ (dq +:+ "; repeat_start " +:+ dq)
    +:+ str (PStr (results !!! (if plus then 11 else 13)%nat))
    +:+ (dq +:+ "; repeat_end " +:+ dq)
    +:+ str (PStr (results !!! 12%nat))
    +:+ (dq +:+ "; score " +:+ dq)
    +:+ str (PStr (results !!! 0%nat))
    +:+ (dq +:+ ";" +:+ nl).
Proof.
  intros plus. unfold gtf_line, repeatmasker_feature, gtf_attribute.
  fold plus. destruct plus;
    cbn [seqname source f_start f_end strand attributes map join fst snd];
    rewrite !app_assoc_line; reflexivity.
Qed.

(** ** The passes end on the texts that have no short candidate line *)

Lemma line_next_line st : line (next_line st) = (readline (unread st)).1.
Proof. unfold next_line. by destruct (readline (unread st)). Qed.

Lemma unread_next_line st : unread (next_line st) = (readline (unread st)).2.
Proof. unfold next_line. by destruct (readline (unread st)). Qed.

Lemma while_line_ends_on body (P : string -> Prop) fuel st :
  (forall st0 st1,
      P (line st0) -> body st0 = inr st1 ->
      line st1 = (readline (unread st0)).1
      /\ unread st1 = (readline (unread st0)).2) ->
  all_lines P (line st) (unread st) ->
  (pass_measure st <= fuel)%nat ->
  (while_line body fuel st).1 <> OutOfFuel.
Proof.
  intros Hbody. revert st.
  induction fuel as [|fuel IH]; intros st Hall Hfuel.
  - cbn. unfold pass_measure in Hfuel.
    destruct (is_empty (line st)); [discriminate|lia].
  - cbn. destruct (is_empty (line st)) eqn:Hline; [discriminate|].
    destruct (body st) as [e|st1] eqn:Hst; [discriminate|].
    inversion Hall as [u Hl|l u _ HP Hrest Hl Hu].
    { rewrite <- Hl in Hline. discriminate. }
    destruct (Hbody st st1 HP Hst) as [Hl1 Hu1].
    apply IH; [by rewrite Hl1, Hu1|].
    pose proof (next_line_measure st Hline) as Hlt.
    unfold pass_measure in *.
    rewrite line_next_line, unread_next_line in Hlt.
    rewrite Hl1, Hu1. lia.
Qed.

(** On a text where every candidate line has 15 fields, the Masker pass
    and the TandemRepeat pass end (the latter possibly with the
    [ValueError] of a field that is not a number) within as many rounds as
    the text has characters. *)
Lemma repeatmasker_pass_ends region_name text fuel :
  all_lines (fun l => rm_short l = false)
    (line (start_pass text)) (unread (start_pass text)) ->
  (String.length text <= fuel)%nat ->
  (while_line (repeatmasker_body region_name) fuel (start_pass text)).1
  <> OutOfFuel.
Proof.
  intros Hall Hfuel.
  apply (while_line_ends_on _ (fun l => rm_short l = false));
    [|assumption|pose proof (start_pass_measure text); lia].
  intros st0 st1 Hshort. unfold repeatmasker_body, rm_short in *.
  destruct (re_masker (line st0));
    [|intros [= <-]; by rewrite line_next_line, unread_next_line].
  destruct (repeatmasker_fields (line st0)) as [e|results]; [discriminate|].
  simpl in Hshort. rewrite Hshort. intros [= <-].
  by rewrite line_next_line, unread_next_line.
Qed.

Lemma trf_pass_ends region_name text fuel :
  all_lines (fun l => trf_short l = false)
    (line (start_pass text)) (unread (start_pass text)) ->
  (String.length text <= fuel)%nat ->
  (while_line (trf_body region_name) fuel (start_pass text)).1 <> OutOfFuel.
Proof.
  intros Hall Hfuel.
  apply (while_line_ends_on _ (fun l => trf_short l = false));
    [|assumption|pose proof (start_pass_measure text); lia].
  intros st0 st1 Hshort. unfold trf_body, trf_short in *.
  destruct (re_trf (line st0));
    [|intros [= <-]; by rewrite line_next_line, unread_next_line].
  simpl in Hshort. rewrite Hshort.
  repeat match goal with
         | |- context [float ?s] => destruct (float s); [|discriminate]
         end.
  destruct (trf_accept _ _ _ _); intros [= <-];
    by rewrite line_next_line, unread_next_line.
Qed.

(** ** The entry points when there is nothing to resume from *)

Lemma filter_is_work_apply_async tasks :
  List.filter is_work (map EvApplyAsync tasks) = map EvApplyAsync tasks.
Proof. induction tasks as [|t tasks IH]; simpl; congruence. Qed.

Ltac pipeline_end :=
  split; [reflexivity|]; split; [|reflexivity];
  eexists; split; [rewrite <- ?app_assoc; reflexivity|];
  rewrite ?List.filter_app, ?filter_is_work_apply_async; reflexivity.

Ltac analysis n :=
  entry; unfold tasks_of;
  destruct (n <? 1)%Z eqn:Hpool; entry;
  [try (apply Z.ltb_lt in Hpool; lia)
  |try (apply Z.ltb_ge in Hpool; lia);
   try (erewrite for_each_apply_async by reflexivity; entry)];
  pipeline_end.

Ltac to_resume_check Htool Hno dir fs1 :=
  let path := fresh "path" in
  let Hpath := fresh "Hpath" in
  let Hexe := fresh "Hexe" in
  destruct Htool as [path [Hpath Hexe]];
  rewrite Hpath; entry; rewrite Hexe; entry;
  unfold no_output, ran_pipeline, pool_refused, checked_from in Hno |- *;
  destruct (create_dir _ _ (w_fs _)) as [dir fs1]; entry.

Ltac resume_or_run Hno n :=
  destruct Hno as [Hno|Hno];
  [rewrite Hno; rewrite ?bool_decide_eq_false_2 by (by intros [? ?]);
   analysis n
  |match goal with
   | |- context [bool_decide ?P] => destruct (bool_decide P)
   | |- context [match ?fs !! ?f with _ => _ end] =>
       destruct (fs !! f) as [[?|]|]
   end; entry;
   rewrite ?(proj2 (Z.ltb_ge _ _) Hno); analysis n].

(** X10: for each of the three entry points, when the tool is found and
    there is no final output to resume from ([annotation.gtf] is missing,
    or holds no [repeat] feature), a call with at least one process goes
    through the whole pipeline and returns [None] (also for Dust, whose
    resume branch returns 0): the slices are computed on the file system
    [create_dir] left, the pool gets one task per slice in the order of
    the slices, all with the command template of the tool, and the merge
    under the tool's suffix is applied to the file system the pool
    left. *)
Theorem X10_no_output_runs_pipeline
    (genome_file : string)
    (repeatmasker_path library species dust_path trf_path : option string)
    (main_output_dir : string) (num_threads : Z) (w : world) :
  1 <= num_threads ->
  tool_found (or_default repeatmasker_path "RepeatMasker") (w_fs w) ->
  tool_found (or_default dust_path "dustmasker") (w_fs w) ->
  tool_found (or_default trf_path "trf") (w_fs w) ->
  no_output WRepeatMasker "repeatmasker_output" main_output_dir w ->
  no_output WDust "dust_output" main_output_dir w ->
  no_output WTrf "trf_output" main_output_dir w ->
  ran_pipeline WRepeatMasker
    (generic_repeatmasker_cmd (or_default repeatmasker_path "RepeatMasker")
       (or_default library "homo") species)
    None "repeatmasker_output" ".rm.gtf" "repeatmask"
    genome_file main_output_dir num_threads w
    (run_repeatmasker_regions genome_file repeatmasker_path library species
       main_output_dir num_threads w)
  /\ ran_pipeline WDust
       (fun _ => [or_default dust_path "dustmasker"; Some "-in"])
       None "dust_output" ".dust.gtf" "dust"
       genome_file main_output_dir num_threads w
       (run_dust_regions genome_file dust_path main_output_dir
          num_threads w)
  /\ ran_pipeline WTrf
       (fun _ =>
          [or_default trf_path "trf"; None; Some "2"; Some "5"; Some "7";
           Some "80"; Some "10"; Some "40"; Some "500"; Some "-d";
           Some "-h"])
       (Some ".2.5.7.80.10.40.500.dat") "trf_output" ".trf.gtf" "trf"
       genome_file main_output_dir num_threads w
       (run_trf_repeats genome_file trf_path main_output_dir
          num_threads w).
Proof.
  intros Hn Hrm Hdust Htrf Hno_rm Hno_dust Hno_trf. split; [|split].
  - unfold run_repeatmasker_regions.
    to_resume_check Hrm Hno_rm dir fs1. resume_or_run Hno_rm num_threads.
  - unfold run_dust_regions.
    to_resume_check Hdust Hno_dust dir fs1.
    resume_or_run Hno_dust num_threads.
  - unfold run_trf_repeats.
    to_resume_check Htrf Hno_trf dir fs1. resume_or_run Hno_trf num_threads.
Qed.

(** X11: in the same situation a call with fewer than one process raises
    [ValueError] where the pool is created, for each of the three entry
    points: by then the slices have been computed, nothing is dispatched
    or merged, and the file system is the one [create_dir] left. *)
Theorem X11_pool_size_below_one_raises
    (genome_file : string)
    (repeatmasker_path library species dust_path trf_path : option string)
    (main_output_dir : string) (num_threads : Z) (w : world) :
  num_threads < 1 ->
  tool_found (or_default repeatmasker_path "RepeatMasker") (w_fs w) ->
  tool_found (or_default dust_path "dustmasker") (w_fs w) ->
  tool_found (or_default trf_path "trf") (w_fs w) ->
  no_output WRepeatMasker "repeatmasker_output" main_output_dir w ->
  no_output WDust "dust_output" main_output_dir w ->
  no_output WTrf "trf_output" main_output_dir w ->
  pool_refused "repeatmasker_output" genome_file main_output_dir w
    (run_repeatmasker_regions genome_file repeatmasker_path library species
       main_output_dir num_threads w)
  /\ pool_refused "dust_output" genome_file main_output_dir w
       (run_dust_regions genome_file dust_path main_output_dir
          num_threads w)
  /\ pool_refused "trf_output" genome_file main_output_dir w
       (run_trf_repeats genome_file trf_path main_output_dir
          num_threads w).
Proof.
  intros Hn Hrm Hdust Htrf Hno_rm Hno_dust Hno_trf. split; [|split].
  - unfold run_repeatmasker_regions.
    to_resume_check Hrm Hno_rm dir fs1. resume_or_run Hno_rm num_threads.
  - unfold run_dust_regions.
    to_resume_check Hdust Hno_dust dir fs1.
    resume_or_run Hno_dust num_threads.
  - unfold run_trf_repeats.
    to_resume_check Htrf Hno_trf dir fs1. resume_or_run Hno_trf num_threads.
Qed.

End Pipeline.

(** ** The code at concrete inputs *)

Lemma while_line_step body fuel st st' :
  is_empty (line st) = false -> body st = inr st' ->
  while_line body (S fuel) st = while_line body fuel st'.
Proof. intros Hline Hbody. simpl. by rewrite Hline, Hbody. Qed.

(** One round of the loop on a closed state, by evaluation. *)
Ltac round :=
  match goal with
  | |- context [while_line ?body (S ?fuel) ?st] =>
      let r := eval vm_compute in (body st) in
      match r with
      | inr ?st' =>
          rewrite (while_line_step body fuel st st')
            by (vm_compute; reflexivity)
      end
  end.

(** C1: a candidate line that does not split into 15 fields is not
    skipped.  On a RepeatMasker report and on a TRF report whose first
    candidate line was cut after its 14th field, and which go on with a
    well-formed line, the parse pass does not end, whatever the fuel: the
    [continue] taken for the short line leaves the line as it is, so the
    loop meets the same line again; no record is ever written for the line
    that follows. *)
Theorem C1_short_candidate_line_is_never_skipped (fuel : nat) :
  (create_repeatmasker_gtf Sample.float_repr fuel Sample.rm_raw
     Sample.rm_canonical "chr1"
     (Sample.world_with {[ Sample.rm_raw := File Sample.rm_text_cut ]}
        Sample.rm_cmd)).1
  = OutOfFuel
  /\ (create_trf_gtf Sample.float Sample.float_repr fuel Sample.trf_raw
        Sample.trf_canonical "chr1"
        (Sample.world_with {[ Sample.trf_raw := File Sample.trf_text_cut ]}
           Sample.rm_cmd)).1
     = OutOfFuel
  /\ written (while_line (repeatmasker_body "chr1") fuel
                (start_pass Sample.rm_text_cut)).2 = []
  /\ written (while_line (trf_body Sample.float "chr1") fuel
                (start_pass Sample.trf_text_cut)).2 = [].
Proof.
  assert (Hrm : exists st,
    while_line (repeatmasker_body "chr1") fuel (start_pass Sample.rm_text_cut)
    = (OutOfFuel, st) /\ written st = []).
  { destruct fuel as [|[|[|fuel]]];
      try (eexists; split; [vm_compute; reflexivity|reflexivity]).
    set (st0 := start_pass Sample.rm_text_cut).
    vm_compute in st0. subst st0. do 3 round.
    eexists; split; [apply while_line_stuck; vm_compute; reflexivity|].
    reflexivity. }
  assert (Htrf : exists st,
    while_line (trf_body Sample.float "chr1") fuel
      (start_pass Sample.trf_text_cut)
    = (OutOfFuel, st) /\ written st = []).
  { destruct fuel as [|fuel];
      try (eexists; split; [vm_compute; reflexivity|reflexivity]).
    set (st0 := start_pass Sample.trf_text_cut).
    vm_compute in st0. subst st0. round.
    eexists; split; [apply while_line_stuck; vm_compute; reflexivity|].
    reflexivity. }
  destruct Hrm as [st1 [Hrm Hw1]], Htrf as [st2 [Htrf Hw2]].
  repeat split.
  - unfold create_repeatmasker_gtf.
    rewrite (parse_pass_outcome _ _ _ _ _ Sample.rm_text_cut);
      [by rewrite Hrm|vm_compute; reflexivity|vm_compute; discriminate
      |discriminate].
  - unfold create_trf_gtf.
    rewrite (parse_pass_outcome _ _ _ _ _ Sample.trf_text_cut);
      [by rewrite Htrf|vm_compute; reflexivity|vm_compute; discriminate
      |discriminate].
  - by rewrite Hrm.
  - by rewrite Htrf.
Qed.

(** C2: the Masker worker does not leave the canonical file in place.  On
    the slice [("chr1", 0, 1000)], with a tool that writes its report, the
    masked sequence and a table, the worker returns, and after it the
    canonical file [.rm.gtf] it has just written is gone, while the raw
    report [.out] is still there; the sequence file, the masked sequence
    and the table are gone.  The Dust worker on the same slice does what
    is expected of both: its canonical file [.dust.gtf] is there with its
    two records, and its raw output and sequence file are gone. *)
Theorem C2_masker_worker_deletes_canonical_file :
  (exists w',
      multiprocess_repeatmasker Sample.float_repr Sample.get_sequence
        (Sample.repeatmasker_tool Sample.rm_text) 100 1%positive Sample.slice
        "genome.fa" "/out" (Sample.start_world Sample.rm_cmd)
      = (Ret tt, w')
      /\ w_fs w' !! Sample.rm_canonical = None
      /\ w_fs w' !! Sample.rm_raw = Some (File Sample.rm_text)
      /\ w_fs w' !! Sample.fasta = None
      /\ w_fs w' !! (Sample.fasta +:+ ".masked") = None
      /\ w_fs w' !! (Sample.fasta +:+ ".tbl") = None)
  /\ (exists w',
         multiprocess_dust Sample.float_repr Sample.get_sequence
           Sample.dust_tool 100 1%positive Sample.slice "genome.fa" "/out"
           (Sample.start_world Sample.dust_cmd)
         = (Ret tt, w')
         /\ w_fs w' !! Sample.dust_canonical
            = Some (File (gtf_text Sample.float_repr
                            [dust_feature "chr1" 1 13 46;
                             dust_feature "chr1" 2 101 231]))
         /\ w_fs w' !! Sample.dust_raw = None
         /\ w_fs w' !! Sample.fasta = None).
Proof.
  split; eexists; (split; [vm_compute; reflexivity|]);
    vm_compute; repeat split.
Qed.

(** C3, as it is stated, fails: on the slice [("chr1", 0, 1000)] with a
    tool that exits with status 1 and writes nothing, the raw output file
    is missing when the Masker parse step starts; the parse step raises
    [FileNotFoundError] and creates no canonical file, and so does the
    worker around it, which leaves the sequence file behind. *)
Lemma C3_counterexample_missing_raw_output :
  w_fs (Sample.failed_world Sample.rm_cmd) !! Sample.rm_raw = None
  /\ ~ silent_zero_records Sample.rm_canonical
         (create_repeatmasker_gtf Sample.float_repr 100 Sample.rm_raw
            Sample.rm_canonical "chr1" (Sample.failed_world Sample.rm_cmd))
  /\ create_repeatmasker_gtf Sample.float_repr 100 Sample.rm_raw
       Sample.rm_canonical "chr1" (Sample.failed_world Sample.rm_cmd)
     = (Raise FileNotFoundError, Sample.failed_world Sample.rm_cmd)
  /\ exists w',
       multiprocess_repeatmasker Sample.float_repr Sample.get_sequence
         Sample.failing_tool 100 1%positive Sample.slice "genome.fa" "/out"
         (Sample.start_world Sample.rm_cmd)
       = (Raise FileNotFoundError, w')
       /\ w_fs w' = w_fs (Sample.failed_world Sample.rm_cmd)
       /\ w_fs w' !! Sample.rm_canonical = None.
Proof.
  split; [vm_compute; reflexivity|]. split; [|split].
  - unfold silent_zero_records. intros [Hret _]. vm_compute in Hret.
    discriminate.
  - apply parse_pass_missing. vm_compute. reflexivity.
  - eexists. split; [unfold multiprocess_repeatmasker; vm_compute;
                     reflexivity|].
    split; vm_compute; reflexivity.
Qed.

(** C4: [run_repeatmasker_regions] changes into its output directory
    before it looks for [annotation.gtf], and looks for it under the path
    it built before the change.  Called from [/home] with the output root
    [work], where [work/repeatmasker_output/annotation.gtf] is there with
    one [repeat] feature, it does not find the file and goes through the
    whole pipeline again: slices, pool, one task per slice, merge.  With
    the same root written [/home/work] it returns at the resume check, and
    so does [run_dust_regions], which does not change directory, with the
    root [work]. *)
Theorem C4_relative_output_root_is_recomputed :
  node_at Sample.home_world "work/repeatmasker_output/annotation.gtf"
  = Some (File Sample.annotation)
  /\ Sample.check_gtf_content_in "/home"
       "work/repeatmasker_output/annotation.gtf" "repeat" Sample.home_fs
     = 1
  /\ List.filter is_work
       (w_trace
          (run_repeatmasker_regions Sample.check_exe
             (Sample.create_dir_in "/home")
             (Sample.check_gtf_content_in "/home/work/repeatmasker_output")
             Sample.get_seq_region_lengths Sample.create_slice_ids
             Sample.slice_output_to_gtf Sample.pool_run
             "genome.fa" None None None "work" 4 Sample.home_world).2)
     = [EvSeqRegionLengths "genome.fa" 5000;
        EvCreateSliceIds 1000000 0 5000;
        EvPool 4;
        EvApplyAsync
          (Task WRepeatMasker
             [Some "RepeatMasker"; Some "-nolow"; Some "-lib"; Some "homo";
              Some "-engine"; Some "crossmatch"; Some "-dir";
              Some "work/repeatmasker_output"]
             ("chr1", 0, 1000000) "genome.fa" "work/repeatmasker_output"
             None);
        EvApplyAsync
          (Task WRepeatMasker
             [Some "RepeatMasker"; Some "-nolow"; Some "-lib"; Some "homo";
              Some "-engine"; Some "crossmatch"; Some "-dir";
              Some "work/repeatmasker_output"]
             ("chr1", 1000000, 1200000) "genome.fa"
             "work/repeatmasker_output" None);
        EvPoolClose;
        EvPoolJoin;
        EvSliceOutputToGtf "work/repeatmasker_output" ".rm.gtf"]
  /\ List.filter is_work
       (w_trace
          (run_repeatmasker_regions Sample.check_exe
             (Sample.create_dir_in "/home")
             (Sample.check_gtf_content_in "/home/work/repeatmasker_output")
             Sample.get_seq_region_lengths Sample.create_slice_ids
             Sample.slice_output_to_gtf Sample.pool_run
             "genome.fa" None None None "/home/work" 4
             Sample.home_world).2)
     = []
  /\ (run_dust_regions Sample.check_exe (Sample.create_dir_in "/home")
        (Sample.check_gtf_content_in "/home")
        Sample.get_seq_region_lengths Sample.create_slice_ids
        Sample.slice_output_to_gtf Sample.pool_run
        "genome.fa" None "work" 4 Sample.home_world).1
     = Ret (Some 0)
  /\ List.filter is_work
       (w_trace
          (run_dust_regions Sample.check_exe (Sample.create_dir_in "/home")
             (Sample.check_gtf_content_in "/home")
             Sample.get_seq_region_lengths Sample.create_slice_ids
             Sample.slice_output_to_gtf Sample.pool_run
             "genome.fa" None "work" 4 Sample.home_world).2)
     = [].
Proof. vm_compute. repeat split; reflexivity. Qed.

(** ** Witnesses: the hypotheses of the theorems above hold somewhere *)

Lemma C3_missing_raw_output_raises_witness :
  w_fs (Sample.start_world Sample.rm_cmd) !! Sample.rm_raw = None
  /\ (create_repeatmasker_gtf Sample.float_repr 100 Sample.rm_raw
        Sample.rm_canonical "chr1" (Sample.start_world Sample.rm_cmd)
      = (Raise FileNotFoundError, Sample.start_world Sample.rm_cmd))
  /\ exists w',
       create_trf_gtf Sample.float Sample.float_repr 100 Sample.rm_raw
         Sample.rm_canonical "chr1"
         (Sample.world_with {[ Sample.rm_raw := File EmptyString ]}
            Sample.rm_cmd)
       = (Ret tt, w')
       /\ w_fs w' !! Sample.rm_canonical = Some (File EmptyString).
Proof.
  assert (H1 : w_fs (Sample.start_world Sample.rm_cmd) !! Sample.rm_raw
               = None) by (vm_compute; reflexivity).
  assert (H2 : w_fs (Sample.world_with
                       {[ Sample.rm_raw := File EmptyString ]} Sample.rm_cmd)
               !! Sample.rm_raw = Some (File EmptyString))
    by (vm_compute; reflexivity).
  assert (H3 : w_fs (Sample.world_with
                       {[ Sample.rm_raw := File EmptyString ]} Sample.rm_cmd)
               !! Sample.rm_canonical <> Some Dir)
    by (vm_compute; discriminate).
  destruct (C3_missing_raw_output_raises Sample.float Sample.float_repr 100
              Sample.rm_raw Sample.rm_canonical "chr1" _ _ H1 H2 H3)
    as [[Hrm _] [_ [_ Htrf]]].
  split; [exact H1|]. split; [exact Hrm|exact Htrf].
Defined.

Lemma X20_found_output_skips_pipeline_witness :
  valid_output Sample.create_dir Sample.check_gtf_content WRepeatMasker
    "repeatmasker_output" "/work" (World Sample.done_fs "/" ∅ [])
  /\ (run_repeatmasker_regions Sample.check_exe Sample.create_dir
        Sample.check_gtf_content Sample.get_seq_region_lengths
        Sample.create_slice_ids Sample.slice_output_to_gtf Sample.pool_run
        "genome.fa" None None None "/work" 4
        (World Sample.done_fs "/" ∅ [])).1
     = Ret None
  /\ (run_dust_regions Sample.check_exe Sample.create_dir
        Sample.check_gtf_content Sample.get_seq_region_lengths
        Sample.create_slice_ids Sample.slice_output_to_gtf Sample.pool_run
        "genome.fa" None "/work" 4 (World Sample.done_fs "/" ∅ [])).1
     = Ret (Some 0).
Proof.
  assert (Hv : forall v name,
    (name = "repeatmasker_output" \/ name = "dust_output"
     \/ name = "trf_output") ->
    valid_output Sample.create_dir Sample.check_gtf_content v name "/work"
      (World Sample.done_fs "/" ∅ [])).
  { intros v name [-> | [-> | ->]]; destruct v;
      (split; [eexists; vm_compute; reflexivity|vm_compute; reflexivity]). }
  destruct (X20_found_output_skips_pipeline Sample.check_exe
              Sample.create_dir
              Sample.check_gtf_content Sample.get_seq_region_lengths
              Sample.create_slice_ids Sample.slice_output_to_gtf
              Sample.pool_run "genome.fa" None None None None None "/work" 4
              (World Sample.done_fs "/" ∅ [])
              (Hv _ _ (or_introl eq_refl))
              (Hv _ _ (or_intror (or_introl eq_refl)))
              (Hv _ _ (or_intror (or_intror eq_refl))))
    as [[p1 [_ [Hrm _]]] [[p2 [_ [Hdust _]]] _]].
  split; [apply Hv; by left|]. split; [exact Hrm|exact Hdust].
Defined.

Lemma C5_masker_strand_selects_repeat_bounds_witness :
  re_masker Sample.rm_line_other = true
  /\ length (split Sample.rm_line_other) = 16%nat
  /\ exists f,
       repeatmasker_body "chr1" (Sample.pass_at Sample.rm_line_other 7)
       = inr (next_line (emit f (Sample.pass_at Sample.rm_line_other 7)))
       /\ strand f = "-"
       /\ attribute "repeat_start" f = Some (PStr "5980")
       /\ attribute "repeat_end" f = Some (PStr "6100").
Proof.
  set (st := Sample.pass_at Sample.rm_line_other 7).
  split; [vm_compute; reflexivity|]. split; [vm_compute; reflexivity|].
  apply (C5_masker_strand_selects_repeat_bounds "chr1" st
           (removelast (split (line st))));
    vm_compute; reflexivity.
Defined.

Lemma C6_trf_acceptance_rule_witness :
  (exists st',
      trf_body Sample.float "chr1" (Sample.pass_at Sample.trf_line 1)
      = inr st'
      /\ length (written st') = 1%nat)
  /\ (exists st',
         trf_body Sample.float "chr1"
           (Sample.pass_at Sample.trf_line_long_period 1)
         = inr st'
         /\ written st' = []).
Proof.
  set (st := Sample.pass_at Sample.trf_line 1).
  set (st_long := Sample.pass_at Sample.trf_line_long_period 1). split.
  - destruct (C6_trf_acceptance_rule Sample.float "chr1" st
                (of_int 8) (of_int 3) (of_int 85) (of_int 45))
      as [[st' [Hbody [Hyes _]]] [Hspec _]];
      try (vm_compute; reflexivity).
    exists st'. split; [exact Hbody|].
    rewrite (proj2 Hyes Hspec). reflexivity.
  - destruct (C6_trf_acceptance_rule Sample.float "chr1" st_long
                (of_int 12) (of_int 3) (of_int 85) (of_int 45))
      as [[st' [Hbody [_ Hno]]] [_ Hspec]];
      try (vm_compute; reflexivity).
    exists st'. split; [exact Hbody|].
    rewrite (proj2 Hno Hspec). reflexivity.
Defined.

Lemma C7_dust_line_yields_one_record_witness :
  dust_body "chr1" (Sample.pass_at ("12 - 45" +:+ nl) 1)
  = inr (next_line
           (emit (Feature "chr1" "Dust" (PInt 13) (PInt 46) "+"
                    [("repeat_id", PInt 1)])
              (Sample.pass_at ("12 - 45" +:+ nl) 1))).
Proof.
  destruct (C7_dust_line_yields_one_record "chr1"
              (Sample.pass_at ("12 - 45" +:+ nl) 1) "12" "45" nl)
    as [a [b [Ha [Hb [Hbody _]]]]];
    [reflexivity|reflexivity|reflexivity|reflexivity|reflexivity
    |reflexivity|].
  vm_compute in Ha, Hb. injection Ha as <-. injection Hb as <-.
  exact Hbody.
Defined.

(** ** The models on sample input *)

Example split_fields :
  split ("  12 ab" +:+ tab +:+ "c  " +:+ nl) = ["12"; "ab"; "c"].
Proof. reflexivity. Qed.

Example readline_first_line :
  readline ("a b" +:+ nl +:+ "c") = ("a b" +:+ nl, "c").
Proof. reflexivity. Qed.

Example re_dust_leftmost : re_dust "x-5 - 07 - 3" = Some ("5", "07").
Proof. reflexivity. Qed.

Example re_masker_candidates :
  re_masker "   239  2.1 0.0" = true
  /\ re_masker "SW perc" = false
  /\ re_masker "12" = false.
Proof. repeat split. Qed.

Example os_path_join_cases :
  os_path_join "/out" "a.fa" = "/out/a.fa"
  /\ os_path_join "/out/" "a.fa" = "/out/a.fa"
  /\ os_path_join "x" "/a" = "/a".
Proof. repeat split. Qed.

Example int_leading_zeros : int "0045" = Some 45.
Proof. reflexivity. Qed.

(** Where the limit of 4300 digits is met: [int] refuses a number of 4301
    digits, [str] refuses the successor of the largest number of 4300
    digits, and either way the body of the Dust loop raises
    [ValueError]. *)
Example dust_number_over_limit :
  int (Sample.digits "7" 4301) = None
  /\ dust_body "chr1"
       (Sample.pass_at (Sample.digits "7" 4301 +:+ " - 45" +:+ nl) 1)
     = inl ValueError
  /\ dust_bounds (Sample.digits "9" 4300) "45" = None
  /\ dust_body "chr1"
       (Sample.pass_at ("12 - " +:+ Sample.digits "9" 4300 +:+ nl) 1)
     = inl ValueError.
Proof. vm_compute. repeat split; reflexivity. Qed.

(** The line written for a Dust record is the one the source concatenates. *)
Example dust_gtf_line :
  gtf_line Sample.float_repr (dust_feature "chr1" 1 13 46)
  = "chr1" +:+ tab +:+ "Dust" +:+ tab +:+ "repeat" +:+ tab +:+ "13" +:+ tab
    +:+ "46" +:+ tab +:+ "." +:+ tab +:+ "+" +:+ tab +:+ "." +:+ tab
    +:+ "repeat_id " +:+ dq +:+ "1" +:+ dq +:+ ";" +:+ nl.
Proof. reflexivity. Qed.

(** A well-formed report is parsed to the end: two records. *)
Example masker_report_parsed :
  exists st,
    while_line (repeatmasker_body "chr1") 10 (start_pass Sample.rm_text)
    = (Ret tt, st)
    /\ (strand <$> written st) = ["+"; "-"]
    /\ (repeat_id <$> written st) = [Some (PInt 1); Some (PInt 2)].
Proof. eexists. vm_compute. repeat split. Qed.

(** A run with no valid output dispatches one task per slice, each with
    the [-lib] command. *)
Example masker_run_dispatches :
  t_cmd <$> dispatched
    (w_trace
       (run_repeatmasker_regions Sample.check_exe Sample.create_dir
          Sample.check_gtf_content Sample.get_seq_region_lengths
          Sample.create_slice_ids Sample.slice_output_to_gtf Sample.pool_run
          "genome.fa" None None (Some "mouse") "/work" 4
          (World ∅ "/" ∅ [])).2)
  = [[Some "RepeatMasker"; Some "-nolow"; Some "-lib"; Some "homo";
      Some "-engine"; Some "crossmatch"; Some "-dir";
      Some "/work/repeatmasker_output"];
     [Some "RepeatMasker"; Some "-nolow"; Some "-lib"; Some "homo";
      Some "-engine"; Some "crossmatch"; Some "-dir";
      Some "/work/repeatmasker_output"]].
Proof. vm_compute. reflexivity. Qed.

(** ** The matchers against the patterns they stand for *)

Lemma app_cons c s t : String c s +:+ t = String c (s +:+ t).
Proof. reflexivity. Qed.

Lemma app_empty_l s : EmptyString +:+ s = s.
Proof. reflexivity. Qed.

Lemma app_empty_r s : s +:+ EmptyString = s.
Proof. induction s as [|c s IH]; [reflexivity|]. by rewrite app_cons, IH. Qed.

Lemma all_of_app p s t :
  all_of p (s +:+ t) = all_of p s && all_of p t.
Proof.
  induction s as [|c s IH]; [reflexivity|].
  rewrite app_cons. simpl. rewrite IH. by rewrite andb_assoc.
Qed.

Lemma all_digits_all_of s : all_digits s = all_of isdigit s.
Proof. induction s as [|c s IH]; simpl; congruence. Qed.

Lemma digit_not_space c : isdigit c = true -> isspace c = false.
Proof.
  destruct c as [[] [] [] [] [] [] [] []]; vm_compute; congruence.
Qed.

Lemma space_not_digit c : isspace c = true -> isdigit c = false.
Proof.
  intros Hs. destruct (isdigit c) eqn:Hd; [|reflexivity].
  apply digit_not_space in Hd. congruence.
Qed.

Lemma matches_cls_inv p s :
  matches (Cls p) s -> exists c, s = String c EmptyString /\ p c = true.
Proof. inversion 1; subst. eauto. Qed.

Lemma matches_plus_cls p s :
  matches (Plus (Cls p)) s <-> is_empty s = false /\ all_of p s = true.
Proof.
  split.
  - intros Hm. remember (Plus (Cls p)) as r eqn:Hr.
    induction Hm as [| | |r s Hs _|r s1 s2 Hs1 _ Hs2 IH| |];
      try discriminate; injection Hr as ->.
    + apply matches_cls_inv in Hs as [c [-> Hc]]. simpl. by rewrite Hc.
    + apply matches_cls_inv in Hs1 as [c [-> Hc]].
      destruct (IH eq_refl) as [_ Hall]. rewrite app_cons. simpl.
      by rewrite Hc.
  - intros [Hne Hall]. induction s as [|c s IH]; [discriminate|].
    simpl in Hall. apply andb_prop in Hall as [Hc Hall].
    destruct s as [|d s].
    + apply matches_plus_one. by constructor.
    + change (String c (String d s))
        with (String c EmptyString +:+ String d s).
      apply matches_plus_more; [by constructor|]. by apply IH.
Qed.

Lemma matches_star_cls p s :
  matches (Star (Cls p)) s <-> all_of p s = true.
Proof.
  split.
  - intros Hm. remember (Star (Cls p)) as r eqn:Hr.
    induction Hm as [| | | | | |r s1 s2 Hs1 _ Hs2 IH];
      try discriminate; [reflexivity|]. injection Hr as ->.
    apply matches_cls_inv in Hs1 as [c [-> Hc]].
    rewrite app_cons, app_empty_l. simpl. by rewrite Hc, (IH eq_refl).
  - intros Hall. induction s as [|c s IH]; [constructor|].
    simpl in Hall. apply andb_prop in Hall as [Hc Hall].
    change (String c s) with (String c EmptyString +:+ s).
    apply matches_star_more; [by constructor|by apply IH].
Qed.

Lemma matches_cat_inv r1 r2 s :
  matches (Cat r1 r2) s <->
  exists s1 s2, s = s1 +:+ s2 /\ matches r1 s1 /\ matches r2 s2.
Proof.
  split.
  - inversion 1; subst. eauto.
  - intros [s1 [s2 [-> [H1 H2]]]]. by constructor.
Qed.

Lemma matches_chr_inv c s : matches (Chr c) s <-> s = String c EmptyString.
Proof. split; [by inversion 1|intros ->; constructor]. Qed.

Lemma skip_spaces_spec s :
  exists ws,
    s = ws +:+ skip_spaces s /\ all_of isspace ws = true
    /\ starts_with isspace (skip_spaces s) = false.
Proof.
  induction s as [|c s [ws [Heq [Hall Hstart]]]].
  - by exists EmptyString.
  - simpl. destruct (isspace c) eqn:Hc.
    + exists (String c ws). rewrite app_cons, <- Heq. simpl.
      by rewrite Hc, Hall.
    + exists EmptyString. simpl. by rewrite Hc.
Qed.

Lemma skip_spaces_app ws s :
  all_of isspace ws = true -> starts_with isspace s = false ->
  skip_spaces (ws +:+ s) = s.
Proof.
  intros Hall Hs. induction ws as [|c ws IH].
  - rewrite app_empty_l. destruct s as [|d s]; [reflexivity|].
    simpl in *. by rewrite Hs.
  - simpl in Hall. apply andb_prop in Hall as [Hc Hall].
    rewrite app_cons. simpl. rewrite Hc. by apply IH.
Qed.

Lemma span_digits_spec s :
  s = (span_digits s).1 +:+ (span_digits s).2
  /\ all_digits (span_digits s).1 = true
  /\ starts_with_digit (span_digits s).2 = false.
Proof.
  induction s as [|c s [Heq [Hall Hstart]]]; [done|].
  simpl. destruct (isdigit c) eqn:Hc.
  - destruct (span_digits s) as [d r]. simpl in *.
    rewrite app_cons, <- Heq, Hc. done.
  - simpl. by rewrite Hc.
Qed.

(** A run of digits read from the head of a string is the digits given
    and the digits that follow them. *)
Lemma span_digits_more d s :
  all_digits d = true ->
  span_digits (d +:+ s) = (d +:+ (span_digits s).1, (span_digits s).2).
Proof.
  intros Hd. induction d as [|c d IH].
  - rewrite !app_empty_l. by destruct (span_digits s).
  - simpl in Hd. apply andb_prop in Hd as [Hc Hd].
    rewrite !app_cons. simpl. rewrite Hc, (IH Hd). reflexivity.
Qed.

Lemma is_number_spec p s :
  is_empty s = false /\ all_of p s = true
  <-> exists c s', s = String c s' /\ p c = true /\ all_of p s' = true.
Proof.
  split.
  - intros [Hne Hall]. destruct s as [|c s]; [discriminate|].
    simpl in Hall. apply andb_prop in Hall as [Hc Hall]. eauto.
  - intros [c [s' [-> [Hc Hall]]]]. simpl. by rewrite Hc, Hall.
Qed.

(** [re.search(r"^\d+", line)] finds a match exactly when [re_trf] says
    so. *)
Lemma re_trf_spec line :
  re_trf line = true <-> matches_prefix trf_pattern line.
Proof.
  unfold matches_prefix, trf_pattern. split.
  - destruct line as [|c s]; [discriminate|]. simpl. intros Hc.
    exists (String c EmptyString), s. split; [reflexivity|].
    apply matches_plus_one. by constructor.
  - intros [m [rest [-> Hm]]].
    apply matches_plus_cls, is_number_spec in Hm as [c [s' [-> [Hc _]]]].
    exact Hc.
Qed.

Lemma matches_masker_pattern m :
  matches masker_pattern m <->
  exists ws ds ws',
    m = ws +:+ ds +:+ ws'
    /\ all_of isspace ws = true
    /\ (is_empty ds = false /\ all_of isdigit ds = true)
    /\ (is_empty ws' = false /\ all_of isspace ws' = true).
Proof.
  unfold masker_pattern. rewrite matches_cat_inv. split.
  - intros [ws [m' [-> [Hws Hm']]]].
    apply matches_cat_inv in Hm' as [ds [ws' [-> [Hds Hws']]]].
    exists ws, ds, ws'. split; [reflexivity|].
    by rewrite <- matches_star_cls, <- !matches_plus_cls.
  - intros [ws [ds [ws' [-> [Hws [Hds Hws']]]]]].
    exists ws, (ds +:+ ws'). split; [reflexivity|].
    rewrite matches_star_cls, matches_cat_inv. split; [assumption|].
    exists ds, ws'. by rewrite !matches_plus_cls.
Qed.

(** [re.search(r"^\s*\d+\s+", line)] finds a match exactly when
    [re_masker] says so. *)
Lemma re_masker_spec line :
  re_masker line = true <-> matches_prefix masker_pattern line.
Proof.
  unfold matches_prefix, re_masker. split.
  - destruct (skip_spaces_spec line) as [ws [Hline [Hws _]]].
    destruct (span_digits_spec (skip_spaces line)) as [Hskip [Hd _]].
    destruct (span_digits (skip_spaces line)) as [d r]. simpl in *.
    intros Hre. apply andb_prop in Hre as [Hne Hr].
    destruct r as [|c r]; [discriminate|].
    exists (ws +:+ d +:+ String c EmptyString), r. split.
    + rewrite Hline at 1. rewrite Hskip.
      by rewrite !app_assoc_line, app_cons, app_empty_l.
    + apply matches_masker_pattern. exists ws, d, (String c EmptyString).
      rewrite <- all_digits_all_of. simpl. rewrite Hr.
      by destruct (is_empty d).
  - intros [m [rest [-> Hm]]].
    apply matches_masker_pattern in Hm
      as [ws [ds [ws' [-> [Hws [Hds Hws']]]]]].
    apply is_number_spec in Hds as [c [ds' [-> [Hc Hds']]]].
    apply is_number_spec in Hws' as [c' [ws'' [-> [Hc' _]]]].
    rewrite !app_assoc_line.
    rewrite skip_spaces_app;
      [|assumption|by rewrite app_cons; simpl; apply digit_not_space].
    rewrite span_digits_more
      by (rewrite all_digits_all_of; simpl; by rewrite Hc, Hds').
    rewrite app_cons. simpl. rewrite (space_not_digit c' Hc'). simpl.
    exact Hc'.
Qed.

Lemma matches_dust_pattern m :
  matches dust_pattern m <->
  exists d1 d2,
    m = d1 +:+ " - " +:+ d2 /\ is_number d1 = true /\ is_number d2 = true.
Proof.
  unfold dust_pattern, is_number. split.
  - intros Hm.
    apply matches_cat_inv in Hm as [d1 [m1 [-> [Hd1 Hm]]]].
    apply matches_cat_inv in Hm as [c1 [m2 [-> [Hc1 Hm]]]].
    apply matches_cat_inv in Hm as [c2 [m3 [-> [Hc2 Hm]]]].
    apply matches_cat_inv in Hm as [c3 [d2 [-> [Hc3 Hd2]]]].
    apply matches_chr_inv in Hc1 as ->, Hc2 as ->, Hc3 as ->.
    apply matches_plus_cls in Hd1 as [Hn1 Ha1], Hd2 as [Hn2 Ha2].
    exists d1, d2. rewrite !all_digits_all_of, Hn1, Hn2, Ha1, Ha2.
    by split.
  - intros [d1 [d2 [-> [H1 H2]]]].
    apply andb_prop in H1 as [Hn1 Ha1], H2 as [Hn2 Ha2].
    rewrite all_digits_all_of in Ha1, Ha2.
    apply negb_true_iff in Hn1, Hn2.
    apply matches_cat; [by apply matches_plus_cls|].
    apply (matches_cat (Chr " ") _ (String " " EmptyString)); [constructor|].
    apply (matches_cat (Chr "-") _ (String "-" EmptyString)); [constructor|].
    apply (matches_cat (Chr " ") _ (String " " EmptyString)); [constructor|].
    by apply matches_plus_cls.
Qed.

Lemma re_dust_at_some s g1 g2 :
  re_dust_at s = Some (g1, g2) ->
  exists rest,
    s = g1 +:+ " - " +:+ g2 +:+ rest
    /\ is_number g1 = true /\ is_number g2 = true
    /\ starts_with_digit rest = false.
Proof.
  unfold re_dust_at, is_number.
  destruct (span_digits_spec s) as [Hs [Hd1 _]].
  destruct (span_digits s) as [d1 r]. simpl in *.
  destruct (is_empty d1) eqn:Hn1; [discriminate|].
  destruct r as [|[[] [] [] [] [] [] [] []] r]; try discriminate.
  destruct r as [|[[] [] [] [] [] [] [] []] r]; try discriminate.
  destruct r as [|[[] [] [] [] [] [] [] []] r]; try discriminate.
  destruct (span_digits_spec r) as [Hr [Hd2 Hrest]].
  destruct (span_digits r) as [d2 rest]. simpl in *.
  destruct (is_empty d2) eqn:Hn2; [discriminate|].
  intros [= <- <-]. exists rest. rewrite Hn1, Hn2, Hd1, Hd2.
  repeat split; [|assumption]. rewrite Hs at 1. rewrite Hr at 1.
  reflexivity.
Qed.

Lemma re_dust_at_none s :
  re_dust_at s = None -> ~ matches_prefix dust_pattern s.
Proof.
  intros Hnone [m [rest [-> Hm]]].
  apply matches_dust_pattern in Hm as [d1 [d2 [-> [H1 H2]]]].
  unfold is_number in *.
  apply andb_prop in H1 as [Hn1 Ha1], H2 as [Hn2 Ha2].
  unfold re_dust_at in Hnone. rewrite !app_assoc_line in Hnone.
  rewrite (span_digits_more d1) in Hnone by assumption.
  change (span_digits (" - " +:+ d2 +:+ rest))
    with (EmptyString, " - " +:+ d2 +:+ rest) in Hnone.
  simpl in Hnone. rewrite app_empty_r in Hnone.
  apply negb_true_iff in Hn1, Hn2. rewrite Hn1 in Hnone.
  rewrite ?app_empty_l in Hnone.
  rewrite (span_digits_more d2) in Hnone by assumption.
  destruct d2 as [|c d2]; [discriminate|].
  rewrite app_cons in Hnone. discriminate.
Qed.

Lemma app_empty_inv s t :
  s +:+ t = EmptyString -> s = EmptyString /\ t = EmptyString.
Proof. destruct s; [by rewrite app_empty_l|discriminate]. Qed.

Lemma matches_dust_nonempty m : matches dust_pattern m -> m <> EmptyString.
Proof.
  intros Hm ->. apply matches_dust_pattern in Hm as [d1 [d2 [Heq [H1 _]]]].
  symmetry in Heq. apply app_empty_inv in Heq as [-> _]. discriminate.
Qed.

Lemma matches_at_cons r c skipped s :
  matches_at r (String c skipped) (String c s) <-> matches_at r skipped s.
Proof.
  unfold matches_at. split; intros [m [rest [Heq Hm]]]; exists m, rest.
  - rewrite app_cons in Heq. by injection Heq as ->.
  - rewrite app_cons, <- Heq. done.
Qed.

Lemma matches_at_head r c c' skipped s :
  matches_at r (String c' skipped) (String c s) -> c' = c.
Proof.
  intros [m [rest [Heq _]]]. rewrite app_cons in Heq. by injection Heq.
Qed.

(** [re.search(r"(\d+)\ - (\d+)", line)]: when [re_dust] gives two groups,
    the line holds, after some characters, the first group, [ - ], the
    second group and a rest; both groups are non-empty runs of digits, the
    second as long as can be; and no match of the pattern starts further to
    the left. *)
Lemma re_dust_found line g1 g2 :
  re_dust line = Some (g1, g2) ->
  exists skipped rest,
    line = skipped +:+ g1 +:+ " - " +:+ g2 +:+ rest
    /\ is_number g1 = true /\ is_number g2 = true
    /\ starts_with_digit rest = false
    /\ forall skipped',
         matches_at dust_pattern skipped' line ->
         (String.length skipped <= String.length skipped')%nat.
Proof.
  induction line as [|c s IH]; [discriminate|]. simpl.
  destruct (re_dust_at (String c s)) as [[h1 h2]|] eqn:Hat.
  - intros [= -> ->].
    apply re_dust_at_some in Hat as [rest [Hs [H1 [H2 Hrest]]]].
    exists EmptyString, rest. rewrite app_empty_l.
    repeat split; try assumption. simpl. lia.
  - intros Hs. destruct (IH Hs) as [skipped [rest [-> [H1 [H2 [Hr Hleft]]]]]].
    exists (String c skipped), rest. rewrite app_cons.
    repeat split; try assumption.
    intros [|c' skipped'] Hm.
    + destruct Hm as [m [rest' [Heq Hm]]]. rewrite app_empty_l in Heq.
      destruct (re_dust_at_none _ Hat). by exists m, rest'.
    + pose proof (matches_at_head _ _ _ _ _ Hm) as ->.
      apply matches_at_cons, Hleft in Hm. simpl. lia.
Qed.

(** [re_dust] finds nothing exactly when the pattern matches nowhere in the
    line. *)
Lemma re_dust_none line :
  re_dust line = None <-> forall skipped, ~ matches_at dust_pattern skipped line.
Proof.
  split.
  - induction line as [|c s IH]; intros Hnone skipped Hm.
    + destruct Hm as [m [rest [Heq Hm]]]. symmetry in Heq.
      apply app_empty_inv in Heq as [_ Heq].
      apply app_empty_inv in Heq as [-> _].
      by apply matches_dust_nonempty in Hm.
    + simpl in Hnone.
      destruct (re_dust_at (String c s)) as [g|] eqn:Hat; [discriminate|].
      destruct skipped as [|c' skipped].
      * destruct Hm as [m [rest [Heq Hm]]]. rewrite app_empty_l in Heq.
        destruct (re_dust_at_none _ Hat). by exists m, rest.
      * pose proof (matches_at_head _ _ _ _ _ Hm) as ->.
        apply matches_at_cons in Hm. by apply (IH Hnone skipped).
  - intros Hno. destruct (re_dust line) as [[g1 g2]|] eqn:Hre; [|reflexivity].
    apply re_dust_found in Hre as [skipped [rest [Hline [H1 [H2 _]]]]].
    destruct (Hno skipped). exists (g1 +:+ " - " +:+ g2), rest.
    split; [by rewrite !app_assoc_line|].
    apply matches_dust_pattern. by exists g1, g2.
Qed.

(** [str.split()]: nothing in an empty string, leading white space is
    dropped, and a run of characters that are not white space, followed by
    white space or by the end, is the next field. *)
Lemma split_empty : split EmptyString = [].
Proof. reflexivity. Qed.

Lemma split_space c s : isspace c = true -> split (String c s) = split s.
Proof. intros Hc. unfold split. simpl. by rewrite Hc. Qed.

Lemma rev_app_rev_app s t u :
  String.rev_app (String.rev_app s t) u = String.rev_app t (s +:+ u).
Proof.
  revert t u. induction s as [|c s IH]; intros t u; [reflexivity|].
  simpl. rewrite IH. reflexivity.
Qed.

Lemma rev_rev s : String.rev (String.rev s) = s.
Proof.
  unfold String.rev. rewrite rev_app_rev_app. simpl. apply app_empty_r.
Qed.

Lemma rev_app_nonempty s t :
  is_empty t = false -> is_empty (String.rev_app s t) = false.
Proof.
  revert t. induction s as [|c s IH]; intros t Ht; [exact Ht|].
  simpl. by apply IH.
Qed.

Lemma split_go_word cur w s :
  all_of (fun c => negb (isspace c)) w = true ->
  split_go cur (w +:+ s) = split_go (String.rev_app w cur) s.
Proof.
  revert cur. induction w as [|c w IH]; intros cur Hw; [reflexivity|].
  simpl in Hw. apply andb_prop in Hw as [Hc Hw].
  apply negb_true_iff in Hc. rewrite app_cons. simpl. rewrite Hc.
  by apply IH.
Qed.

Lemma split_word w s :
  is_empty w = false ->
  all_of (fun c => negb (isspace c)) w = true ->
  starts_with (fun c => negb (isspace c)) s = false ->
  split (w +:+ s) = w :: split s.
Proof.
  intros Hne Hw Hs. unfold split. rewrite split_go_word by assumption.
  assert (Hrev : is_empty (String.rev_app w EmptyString) = false).
  { destruct w as [|c w]; [discriminate|]. simpl.
    by apply rev_app_nonempty. }
  fold (String.rev w) in *.
  destruct s as [|c s]; simpl.
  - by rewrite Hrev, rev_rev.
  - simpl in Hs. apply negb_false_iff in Hs. by rewrite Hs, Hrev, rev_rev.
Qed.

(** [readline]: a line ends with its line feed, or with the text. *)
Lemma readline_line l rest :
  all_of (fun c => negb (Ascii.eqb c "010")) l = true ->
  readline (l +:+ nl +:+ rest) = (l +:+ nl, rest).
Proof.
  intros Hl. induction l as [|c l IH]; [reflexivity|].
  simpl in Hl. apply andb_prop in Hl as [Hc Hl].
  apply negb_true_iff in Hc. rewrite !app_cons. simpl.
  by rewrite Hc, (IH Hl).
Qed.

Lemma readline_last l :
  all_of (fun c => negb (Ascii.eqb c "010")) l = true ->
  readline l = (l, EmptyString).
Proof.
  intros Hl. induction l as [|c l IH]; [reflexivity|].
  simpl in Hl. apply andb_prop in Hl as [Hc Hl].
  apply negb_true_iff in Hc. simpl. by rewrite Hc, (IH Hl).
Qed.

(** A line that starts with a numeric score has a first field, the score:
    [results[-1]] never raises in the Masker parser. *)
Lemma split_spaces ws s :
  all_of isspace ws = true -> split (ws +:+ s) = split s.
Proof.
  intros Hws. induction ws as [|c ws IH]; [reflexivity|].
  simpl in Hws. apply andb_prop in Hws as [Hc Hws].
  rewrite app_cons, split_space by assumption. by apply IH.
Qed.

Lemma all_digits_no_space ds :
  all_of isdigit ds = true -> all_of (fun c => negb (isspace c)) ds = true.
Proof.
  induction ds as [|c ds IH]; [reflexivity|]. simpl. intros Hds.
  apply andb_prop in Hds as [Hc Hds].
  by rewrite (digit_not_space c Hc), IH.
Qed.

Lemma re_masker_first_field l :
  re_masker l = true ->
  exists score fields,
    split l = score :: fields /\ is_number score = true.
Proof.
  intros Hre. apply re_masker_spec in Hre as [m [rest [-> Hm]]].
  apply matches_masker_pattern in Hm
    as [ws [ds [ws' [-> [Hws [[Hne Hds] [Hne' Hws']]]]]]].
  exists ds, (split (ws' +:+ rest)). split.
  - rewrite !app_assoc_line, split_spaces by assumption.
    apply split_word; [assumption|by apply all_digits_no_space|].
    destruct ws' as [|c ws']; [discriminate|].
    simpl in Hws'. apply andb_prop in Hws' as [Hc _].
    rewrite app_cons. simpl. by rewrite Hc.
  - unfold is_number. by rewrite Hne, all_digits_all_of, Hds.
Qed.

Lemma repeatmasker_fields_defined l :
  re_masker l = true -> exists results, repeatmasker_fields l = inr results.
Proof.
  intros Hre. destruct (re_masker_first_field l Hre) as [s [fs [Hsplit _]]].
  unfold repeatmasker_fields. rewrite Hsplit.
  destruct (last (s :: fs)) as [x|] eqn:Hlast; [by eexists|].
  by apply last_None in Hlast.
Qed.

(** The well-formed sample report has no short candidate line. *)
Example rm_text_well_formed :
  all_lines (fun l => rm_short l = false)
    (line (start_pass Sample.rm_text)) (unread (start_pass Sample.rm_text)).
Proof.
  repeat first
    [ apply all_lines_end
    | apply all_lines_next; [reflexivity|vm_compute; reflexivity|] ].
Qed.

(** ** A pass, line by line *)

Lemma length_app_str s t :
  String.length (s +:+ t) = (String.length s + String.length t)%nat.
Proof.
  induction s as [|c s IH]; [reflexivity|]. rewrite app_cons. simpl.
  by rewrite IH.
Qed.

Lemma is_empty_app_nl b : is_empty (b +:+ nl) = false.
Proof. by destruct b. Qed.

(** A loop body that makes of each line what [step] says, on the lines
    that satisfy [P], writes on a text whose lines all satisfy [P] the
    records [collect] gives, and ends. *)
Lemma pass_collects_from body (step : Z -> string -> option feature)
    (P : string -> Prop) tail :
  (forall st,
      P (line st) -> is_empty (line st) = false ->
      body st
      = inr (next_line
               (match step (repeat_count st) (line st) with
                | Some f => emit f st
                | None => st
                end))) ->
  no_newline tail = true ->
  forall bodies st fuel,
    forallb no_newline bodies = true ->
    Forall P (lines_of bodies tail) ->
    unread st = text_of bodies tail ->
    (String.length (unread st) <= fuel)%nat ->
    exists st',
      while_line body fuel (next_line st) = (Ret tt, st')
      /\ written st'
         = (written st
            ++ collect step (repeat_count st) (lines_of bodies tail))%list.
Proof.
  intros Hbody Htail.
  assert (Hround : forall st l rest fuel,
    readline (unread st) = (l, rest) -> is_empty l = false -> P l ->
    exists st1,
      unread st1 = rest
      /\ while_line body (S fuel) (next_line st)
         = while_line body fuel (next_line st1)
      /\ repeat_count st1
         = (match step (repeat_count st) l with
            | Some _ => repeat_count st + 1
            | None => repeat_count st
            end)
      /\ written st1
         = (written st
            ++ match step (repeat_count st) l with
               | Some f => [f]
               | None => []
               end)%list).
  { intros st l rest fuel Hread Hne HP.
    assert (Hl : line (next_line st) = l)
      by (unfold next_line; by rewrite Hread).
    assert (Hu : unread (next_line st) = rest)
      by (unfold next_line; by rewrite Hread).
    assert (Hc : repeat_count (next_line st) = repeat_count st)
      by (unfold next_line; by rewrite Hread).
    assert (Hw : written (next_line st) = written st)
      by (unfold next_line; by rewrite Hread).
    exists (match step (repeat_count st) l with
            | Some f => emit f (next_line st)
            | None => next_line st
            end).
    split; [by destruct (step _ _)|]. split.
    - apply while_line_step; [by rewrite Hl|].
      rewrite Hbody by (by rewrite Hl). by rewrite Hl, Hc.
    - destruct (step (repeat_count st) l); simpl; rewrite ?Hc, ?Hw;
        [by split|]. split; [reflexivity|by rewrite app_nil_r]. }
  induction bodies as [|b bodies IH]; intros st fuel Hbodies HP Hu Hfuel.
  - simpl in Hu. unfold lines_of in *. simpl in HP |- *.
    destruct (is_empty tail) eqn:Hne.
    + destruct tail; [|discriminate]. exists (next_line st).
      split; [|by rewrite written_next_line, app_nil_r].
      unfold next_line. rewrite Hu. by destruct fuel.
    + apply Forall_inv in HP.
      assert (Hread : readline (unread st) = (tail, EmptyString))
        by (rewrite Hu; by apply readline_last).
      destruct fuel as [|fuel];
        [rewrite Hu in Hfuel; destruct tail; [discriminate|simpl in Hfuel; lia]|].
      destruct (Hround st tail EmptyString fuel Hread Hne HP)
        as [st1 [Hu1 [Hloop [_ Hw1]]]].
      exists (next_line st1). rewrite Hloop. split.
      * unfold next_line. rewrite Hu1. by destruct fuel.
      * rewrite written_next_line, Hw1. simpl. by destruct (step _ _).
  - simpl in Hu, Hbodies. apply andb_prop in Hbodies as [Hb Hbodies].
    unfold lines_of in HP. simpl in HP.
    apply Forall_cons in HP as [HPb HP].
    assert (Hread : readline (unread st)
                    = (b +:+ nl, text_of bodies tail))
      by (rewrite Hu; by apply readline_line).
    destruct fuel as [|fuel].
    { rewrite Hu, length_app_str in Hfuel. simpl in Hfuel. lia. }
    destruct (Hround st (b +:+ nl) (text_of bodies tail) fuel Hread
                (is_empty_app_nl b) HPb)
      as [st1 [Hu1 [Hloop [Hc1 Hw1]]]].
    destruct (IH st1 fuel Hbodies HP Hu1) as [st' [Hst' Hw']].
    { rewrite Hu1. rewrite Hu, !length_app_str in Hfuel. simpl in Hfuel.
      lia. }
    exists st'. rewrite Hloop. split; [exact Hst'|].
    rewrite Hw', Hw1, Hc1. unfold lines_of. simpl.
    destruct (step (repeat_count st) (b +:+ nl)); simpl;
      by rewrite <- ?app_assoc, ?app_nil_r.
Qed.

Lemma pass_collects body step (P : string -> Prop) bodies tail fuel :
  (forall st,
      P (line st) -> is_empty (line st) = false ->
      body st
      = inr (next_line
               (match step (repeat_count st) (line st) with
                | Some f => emit f st
                | None => st
                end))) ->
  forallb no_newline bodies = true ->
  no_newline tail = true ->
  Forall P (lines_of bodies tail) ->
  (String.length (text_of bodies tail) <= fuel)%nat ->
  exists st,
    while_line body fuel (start_pass (text_of bodies tail)) = (Ret tt, st)
    /\ written st = collect step 1 (lines_of bodies tail).
Proof.
  intros Hbody Hbodies Htail HP Hfuel.
  apply (pass_collects_from body step P tail Hbody Htail bodies
           (Pass (text_of bodies tail) EmptyString 1 []) fuel);
    done.
Qed.

(** ** The parse step on a file *)

(** The parse step touches the canonical file and nothing else, however it
    ends. *)
Lemma parse_pass_frame float_repr body fuel raw canonical w file :
  file <> resolve (w_cwd w) canonical ->
  w_fs (parse_pass float_repr body fuel raw canonical w).2 !! file
  = w_fs w !! file.
Proof.
  intros Hne. unfold parse_pass. mprim.
  repeat case_match; simplify_eq; cbn;
    rewrite ?lookup_insert_ne by done; reflexivity.
Qed.

Lemma parse_pass_returns float_repr body fuel raw canonical text st w :
  node_at w raw = Some (File text) ->
  node_at w canonical <> Some Dir ->
  while_line body fuel
    (start_pass
       (if decide (resolve (w_cwd w) canonical = resolve (w_cwd w) raw)
        then EmptyString else text))
  = (Ret tt, st) ->
  exists w',
    parse_pass float_repr body fuel raw canonical w = (Ret tt, w')
    /\ node_at w' canonical
       = Some (File (gtf_text float_repr (written st))).
Proof.
  unfold node_at. intros Hraw Hdir Hloop. unfold parse_pass. mprim.
  rewrite Hraw.
  destruct (w_fs w !! resolve (w_cwd w) canonical) as [[c|]|] eqn:Hc;
    [|congruence|];
    cbn [w_fs w_cwd];
    rewrite (read_after_open_w _ _ text) by assumption;
    rewrite Hloop; (eexists; split; [reflexivity|]); cbn;
    apply lookup_insert_eq.
Qed.

(** *** The Dust pass *)

Lemma dust_in_limit_bounds l g1 g2 :
  re_dust l = Some (g1, g2) -> dust_in_limit l = true ->
  dust_bounds g1 g2 = Some (int_go 0 g1 + 1, int_go 0 g2 + 1)%Z.
Proof.
  intros Hre. unfold dust_in_limit. rewrite Hre. intros Hlim.
  apply andb_prop in Hlim as [Hl1 Hl2].
  apply Z.ltb_lt in Hl1, Hl2.
  destruct (re_dust_found l g1 g2 Hre)
    as [skipped [rest [_ [H1 [H2 _]]]]].
  apply andb_prop in H1 as [_ H1], H2 as [_ H2].
  by apply dust_bounds_in_limit.
Qed.

Lemma dust_body_step region_name st :
  dust_in_limit (line st) = true ->
  dust_body region_name st
  = inr (next_line
           (match dust_step region_name (repeat_count st) (line st) with
            | Some f => emit f st
            | None => st
            end)).
Proof.
  intros Hlim. unfold dust_body, dust_step.
  destruct (re_dust (line st)) as [[g1 g2]|] eqn:Hre; [|reflexivity].
  by rewrite (dust_in_limit_bounds _ _ _ Hre Hlim).
Qed.

(** X2: on a raw file made of lines whose intervals are made of numbers
    of fewer than 4300 digits, [create_dust_gtf] returns and writes one
    record for each line that holds an interval, and none for the others,
    in the order of the lines, each numbered by its rank among the
    records.  (On a longer number [int] or [str] raises [ValueError].) *)
Theorem X2_dust_records_line_by_line
    (float_repr : pyfloat -> string) (fuel : nat)
    (raw canonical region_name : string) (bodies : list string)
    (tail : string) (w : world) :
  node_at w raw = Some (File (text_of bodies tail)) ->
  node_at w canonical <> Some Dir ->
  resolve (w_cwd w) canonical <> resolve (w_cwd w) raw ->
  forallb no_newline bodies = true ->
  no_newline tail = true ->
  Forall (fun l => dust_in_limit l = true) (lines_of bodies tail) ->
  (String.length (text_of bodies tail) <= fuel)%nat ->
  exists w',
    create_dust_gtf float_repr fuel raw canonical region_name w = (Ret tt, w')
    /\ node_at w' canonical
       = Some (File (gtf_text float_repr
                       (collect (dust_step region_name) 1
                          (lines_of bodies tail)))).
Proof.
  intros Hraw Hdir Hne Hbodies Htail Hlim Hfuel.
  destruct (pass_collects (dust_body region_name) (dust_step region_name)
              (fun l => dust_in_limit l = true) bodies tail fuel)
    as [st [Hloop Hw]]; try assumption.
  { intros st Hst _. by apply dust_body_step. }
  destruct (parse_pass_returns float_repr (dust_body region_name) fuel raw
              canonical (text_of bodies tail) st w Hraw Hdir)
    as [w' [Hret Hfile]].
  { by destruct (decide (_ = _)). }
  exists w'. by rewrite <- Hw.
Qed.

Lemma repeatmasker_body_step region_name st :
  rm_short (line st) = false ->
  repeatmasker_body region_name st
  = inr (next_line
           (match rm_step region_name (repeat_count st) (line st) with
            | Some f => emit f st
            | None => st
            end)).
Proof.
  unfold rm_short, repeatmasker_body, rm_step.
  destruct (re_masker (line st)) eqn:Hre; [|reflexivity].
  destruct (repeatmasker_fields_defined _ Hre) as [results ->]. simpl.
  intros Hlen. apply negb_false_iff in Hlen. by rewrite Hlen.
Qed.

(** X3: on a raw report made of lines none of which is a candidate line
    with other than 15 fields, [create_repeatmasker_gtf] returns and writes
    one record for each line that starts with a numeric score, and none
    for the others, in the order of the lines, each numbered by its rank
    among the records. *)
Theorem X3_masker_records_line_by_line
    (float_repr : pyfloat -> string) (fuel : nat)
    (raw canonical region_name : string) (bodies : list string)
    (tail : string) (w : world) :
  node_at w raw = Some (File (text_of bodies tail)) ->
  node_at w canonical <> Some Dir ->
  resolve (w_cwd w) canonical <> resolve (w_cwd w) raw ->
  forallb no_newline bodies = true ->
  no_newline tail = true ->
  Forall (fun l => rm_short l = false) (lines_of bodies tail) ->
  (String.length (text_of bodies tail) <= fuel)%nat ->
  exists w',
    create_repeatmasker_gtf float_repr fuel raw canonical region_name w
    = (Ret tt, w')
    /\ node_at w' canonical
       = Some (File (gtf_text float_repr
                       (collect (rm_step region_name) 1
                          (lines_of bodies tail)))).
Proof.
  intros Hraw Hdir Hne Hbodies Htail Hshort Hfuel.
  destruct (pass_collects (repeatmasker_body region_name)
              (rm_step region_name) (fun l => rm_short l = false)
              bodies tail fuel)
    as [st [Hloop Hw]]; try assumption.
  { intros st Hst _. by apply repeatmasker_body_step. }
  destruct (parse_pass_returns float_repr (repeatmasker_body region_name)
              fuel raw canonical (text_of bodies tail) st w Hraw Hdir)
    as [w' [Hret Hfile]].
  { by destruct (decide (_ = _)). }
  exists w'. by rewrite <- Hw.
Qed.

Lemma trf_body_step float region_name st :
  trf_readable float (line st) = true ->
  trf_body float region_name st
  = inr (next_line
           (match trf_step float region_name (repeat_count st) (line st) with
            | Some f => emit f st
            | None => st
            end)).
Proof.
  unfold trf_readable, trf_body, trf_step, trf_numbers.
  destruct (re_trf (line st)); [|reflexivity]. simpl.
  intros Hok. apply andb_prop in Hok as [Hlen Hnum]. rewrite Hlen. simpl.
  destruct (float (split (line st) !!! 2%nat)); [|discriminate].
  destruct (float (split (line st) !!! 3%nat)); [|discriminate].
  destruct (float (split (line st) !!! 5%nat)); [|discriminate].
  destruct (float (split (line st) !!! 7%nat)); [|discriminate].
  by destruct (trf_accept _ _ _ _).
Qed.

(** X4: on a raw TRF output made of lines each of which is either no
    candidate line or a candidate line of 15 fields whose period, copy
    number, percent matches and score read as floats,
    [create_trf_gtf] returns and writes one record for each candidate line
    the acceptance rule lets through, and none for the others, in the
    order of the lines, each numbered by its rank among the records. *)
Theorem X4_trf_records_line_by_line
    (float : string -> option pyfloat) (float_repr : pyfloat -> string)
    (fuel : nat) (raw canonical region_name : string)
    (bodies : list string) (tail : string) (w : world) :
  node_at w raw = Some (File (text_of bodies tail)) ->
  node_at w canonical <> Some Dir ->
  resolve (w_cwd w) canonical <> resolve (w_cwd w) raw ->
  forallb no_newline bodies = true ->
  no_newline tail = true ->
  Forall (fun l => trf_readable float l = true) (lines_of bodies tail) ->
  (String.length (text_of bodies tail) <= fuel)%nat ->
  exists w',
    create_trf_gtf float float_repr fuel raw canonical region_name w
    = (Ret tt, w')
    /\ node_at w' canonical
       = Some (File (gtf_text float_repr
                       (collect (trf_step float region_name) 1
                          (lines_of bodies tail)))).
Proof.
  intros Hraw Hdir Hne Hbodies Htail Hok Hfuel.
  destruct (pass_collects (trf_body float region_name)
              (trf_step float region_name)
              (fun l => trf_readable float l = true) bodies tail fuel)
    as [st [Hloop Hw]]; try assumption.
  { intros st Hst _. by apply trf_body_step. }
  destruct (parse_pass_returns float_repr (trf_body float region_name)
              fuel raw canonical (text_of bodies tail) st w Hraw Hdir)
    as [w' [Hret Hfile]].
  { by destruct (decide (_ = _)). }
  exists w'. by rewrite <- Hw.
Qed.

Lemma X2_dust_records_line_by_line_witness :
  exists w',
    create_dust_gtf Sample.float_repr 50 Sample.dust_raw
      Sample.dust_canonical "chr1"
      (Sample.raw_world Sample.dust_raw
         (text_of Sample.dust_bodies EmptyString))
    = (Ret tt, w')
    /\ w_fs w' !! Sample.dust_canonical
       = Some (File (gtf_text Sample.float_repr
                       (collect (dust_step "chr1") 1
                          (lines_of Sample.dust_bodies EmptyString)))).
Proof.
  apply (X2_dust_records_line_by_line Sample.float_repr 50 Sample.dust_raw
           Sample.dust_canonical "chr1" Sample.dust_bodies EmptyString);
    [vm_compute; reflexivity|vm_compute; discriminate
    |vm_compute; discriminate|reflexivity|reflexivity| |vm_compute; lia].
  unfold lines_of, Sample.dust_bodies. simpl.
  repeat (constructor; [vm_compute; reflexivity|]). constructor.
Defined.

Example dust_sample_records :
  collect (dust_step "chr1") 1 (lines_of Sample.dust_bodies EmptyString)
  = [dust_feature "chr1" 1 13 46; dust_feature "chr1" 2 101 231].
Proof. vm_compute. reflexivity. Qed.

Lemma X3_masker_records_line_by_line_witness :
  exists w',
    create_repeatmasker_gtf Sample.float_repr 300 Sample.rm_raw
      Sample.rm_canonical "chr1"
      (Sample.raw_world Sample.rm_raw
         (text_of Sample.rm_bodies EmptyString))
    = (Ret tt, w')
    /\ w_fs w' !! Sample.rm_canonical
       = Some (File (gtf_text Sample.float_repr
                       (collect (rm_step "chr1") 1
                          (lines_of Sample.rm_bodies EmptyString)))).
Proof.
  apply (X3_masker_records_line_by_line Sample.float_repr 300 Sample.rm_raw
           Sample.rm_canonical "chr1" Sample.rm_bodies EmptyString);
    [vm_compute; reflexivity|vm_compute; discriminate
    |vm_compute; discriminate|reflexivity|reflexivity| |vm_compute; lia].
  unfold lines_of, Sample.rm_bodies. simpl.
  repeat (constructor; [vm_compute; reflexivity|]). constructor.
Defined.

Example masker_sample_records :
  text_of Sample.rm_bodies EmptyString = Sample.rm_text
  /\ collect (rm_step "chr1") 1 (lines_of Sample.rm_bodies EmptyString)
     = [repeatmasker_feature "chr1" 1 (split Sample.rm_line_plus);
        repeatmasker_feature "chr1" 2
          (removelast (split Sample.rm_line_other))].
Proof. split; vm_compute; reflexivity. Qed.

Lemma X4_trf_records_line_by_line_witness :
  exists w',
    create_trf_gtf Sample.float Sample.float_repr 300 Sample.trf_raw
      Sample.trf_canonical "chr1"
      (Sample.raw_world Sample.trf_raw
         (text_of Sample.trf_bodies EmptyString))
    = (Ret tt, w')
    /\ w_fs w' !! Sample.trf_canonical
       = Some (File (gtf_text Sample.float_repr
                       (collect (trf_step Sample.float "chr1") 1
                          (lines_of Sample.trf_bodies EmptyString)))).
Proof.
  apply (X4_trf_records_line_by_line Sample.float Sample.float_repr 300
           Sample.trf_raw Sample.trf_canonical "chr1" Sample.trf_bodies
           EmptyString);
    [vm_compute; reflexivity|vm_compute; discriminate
    |vm_compute; discriminate|reflexivity|reflexivity| |vm_compute; lia].
  unfold lines_of, Sample.trf_bodies. simpl.
  repeat (constructor; [vm_compute; reflexivity|]). constructor.
Defined.

Example trf_sample_records :
  collect (trf_step Sample.float "chr1") 1
    (lines_of Sample.trf_bodies EmptyString)
  = [trf_feature "chr1" 1 (split Sample.trf_line) (of_int 45);
     trf_feature "chr1" 2 (split (nth 4 Sample.trf_bodies EmptyString))
       (of_int 60)].
Proof. vm_compute. reflexivity. Qed.

(** ** What the three passes write *)

Lemma loop_invariant body (I : pass -> Prop) fuel st :
  (forall st0 st1, body st0 = inr st1 -> I st0 -> I st1) ->
  I st -> I (while_line body fuel st).2.
Proof.
  intros Hbody. revert st. induction fuel as [|fuel IH]; intros st Hst; simpl.
  - by destruct (is_empty (line st)).
  - destruct (is_empty (line st)); [exact Hst|].
    destruct (body st) as [e|st1] eqn:Hst1; [exact Hst|].
    apply IH. by apply (Hbody st).
Qed.

Lemma removelast_head (x : string) l :
  l <> [] -> removelast (x :: l) = x :: removelast l.
Proof. by destruct l. Qed.

Lemma repeatmasker_score_field l results :
  re_masker l = true ->
  repeatmasker_fields l = inr results ->
  length results = 15%nat ->
  is_number (results !!! 0%nat) = true.
Proof.
  intros Hre Hfields Hlen.
  destruct (re_masker_first_field l Hre) as [score [fs [Hsplit Hscore]]].
  unfold repeatmasker_fields in Hfields. rewrite Hsplit in Hfields.
  destruct (last (score :: fs)) as [x|]; [|discriminate].
  injection Hfields as <-.
  destruct (String.eqb x "*"); [|exact Hscore].
  destruct fs as [|f fs]; [discriminate|]. exact Hscore.
Qed.

(** X6: every record the Masker pass has written, at any point of any
    pass, carries the region name it was given and the source
    [RepeatMasker], has strand [+] or [-], and has for score a non-empty
    string of digits. *)
Theorem X6_masker_records_well_formed
    (region_name text : string) (fuel : nat) :
  Forall
    (fun f =>
       seqname f = region_name /\ source f = "RepeatMasker"
       /\ (strand f = "+" \/ strand f = "-")
       /\ exists score,
            attribute "score" f = Some (PStr score)
            /\ is_number score = true)
    (written (while_line (repeatmasker_body region_name) fuel
                (start_pass text)).2).
Proof.
  apply (loop_invariant _ (fun st => Forall _ (written st)));
    [|unfold start_pass; rewrite written_next_line; constructor].
  intros st0 st1. unfold repeatmasker_body.
  destruct (re_masker (line st0)) eqn:Hre;
    [|intros [= <-]; by rewrite written_next_line].
  destruct (repeatmasker_fields (line st0)) as [e|results] eqn:Hfields;
    [discriminate|].
  destruct (length results =? 15)%nat eqn:Hlen; simpl;
    intros [= <-]; [|done].
  rewrite written_next_line. simpl. intros Hall.
  apply Forall_app. split; [exact Hall|]. constructor; [|constructor].
  apply Nat.eqb_eq in Hlen.
  pose proof (repeatmasker_score_field _ _ Hre Hfields Hlen) as Hscore.
  unfold repeatmasker_feature.
  destruct (String.eqb (results !!! 8%nat) "+") eqn:Hplus; simpl.
  - apply String.eqb_eq in Hplus. repeat split; eauto.
  - repeat split; eauto.
Qed.

(** X7: every record the Dust pass has written, at any point of any pass,
    carries the region name it was given and the source [Dust], has strand
    [+], has [repeat_id] for only attribute, and has for start and end
    integers that are at least 1. *)
Theorem X7_dust_records_well_formed
    (region_name text : string) (fuel : nat) :
  Forall
    (fun f =>
       seqname f = region_name /\ source f = "Dust" /\ strand f = "+"
       /\ (exists id, attributes f = [("repeat_id", PInt id)])
       /\ exists a b,
            f_start f = PInt a /\ f_end f = PInt b
            /\ (1 <= a)%Z /\ (1 <= b)%Z)
    (written (while_line (dust_body region_name) fuel
                (start_pass text)).2).
Proof.
  apply (loop_invariant _ (fun st => Forall _ (written st)));
    [|unfold start_pass; rewrite written_next_line; constructor].
  intros st0 st1. unfold dust_body.
  destruct (re_dust (line st0)) as [[g1 g2]|] eqn:Hre;
    [destruct (dust_bounds g1 g2) as [[start end_]|] eqn:Hbounds;
     [|discriminate]|];
    intros [= <-]; rewrite written_next_line; [|done].
  simpl. intros Hall. apply Forall_app. split; [exact Hall|].
  constructor; [|constructor].
  apply re_dust_found in Hre as [skipped [rest [_ [H1 [H2 _]]]]].
  unfold dust_bounds in Hbounds.
  destruct (int g1) as [a|] eqn:Ha; [|discriminate].
  destruct (int g2) as [b|] eqn:Hb; [|discriminate].
  destruct (str_int (a + 1)); [|discriminate].
  destruct (str_int (b + 1)); [|discriminate].
  injection Hbounds as <- <-.
  apply (int_nonneg _ _ H1) in Ha. apply (int_nonneg _ _ H2) in Hb.
  repeat split; [by eexists|]. exists (a + 1)%Z, (b + 1)%Z.
  repeat split; lia.
Qed.

Lemma trf_accept_score score percent_matches copy_number period :
  trf_accept score percent_matches copy_number period = true ->
  Flt score (of_int 50) \/ Fle (of_int 50) score.
Proof.
  unfold trf_accept, float_gt, float_ge.
  rewrite orb_true_iff, !andb_true_iff, !float_lt_spec, !float_le_spec.
  tauto.
Qed.

(** X8: every record the TandemRepeat pass has written, at any point of
    any pass, carries the region name it was given and the source [TRF],
    has strand [+], keeps start and end as the strings of the report (no
    shift by one, unlike Dust), has the attributes [repeat_id], [score]
    and [repeat_consensus] in that order, and has a score that compares
    with 50, so never a NaN. *)
Theorem X8_trf_records_well_formed
    (float : string -> option pyfloat) (region_name text : string)
    (fuel : nat) :
  Forall
    (fun f =>
       seqname f = region_name /\ source f = "TRF" /\ strand f = "+"
       /\ exists start end_ id score consensus,
            f_start f = PStr start /\ f_end f = PStr end_
            /\ attributes f
               = [("repeat_id", PInt id); ("score", PFloat score);
                  ("repeat_consensus", PStr consensus)]
            /\ (Flt score (of_int 50) \/ Fle (of_int 50) score))
    (written (while_line (trf_body float region_name) fuel
                (start_pass text)).2).
Proof.
  apply (loop_invariant _ (fun st => Forall _ (written st)));
    [|unfold start_pass; rewrite written_next_line; constructor].
  intros st0 st1. unfold trf_body.
  destruct (re_trf (line st0));
    [|intros [= <-]; by rewrite written_next_line].
  destruct (negb _); [by intros [= <-]|].
  repeat (destruct (float _) as [?|]; [|discriminate]).
  destruct (trf_accept _ _ _ _) eqn:Haccept;
    intros [= <-]; rewrite written_next_line; [|done].
  simpl. intros Hall. apply Forall_app. split; [exact Hall|].
  constructor; [|constructor].
  apply trf_accept_score in Haccept.
  repeat split. by repeat eexists.
Qed.

(** ** The files of a slice *)

Lemma app_inv_head_str s x y : s +:+ x = s +:+ y -> x = y.
Proof.
  induction s as [|c s IH]; [done|].
  rewrite !app_cons. intros [= H]. by apply IH.
Qed.

Lemma no_dot_app s t : no_dot (s +:+ t) = no_dot s && no_dot t.
Proof. apply all_of_app. Qed.

Lemma dot_segment a b x y :
  no_dot x = true -> no_dot y = true ->
  a +:+ "." +:+ x = b +:+ "." +:+ y -> a = b /\ x = y.
Proof.
  intros Hx Hy. revert b.
  induction a as [|c a IH]; intros [|d b]; rewrite ?app_cons, ?app_empty_l.
  - by intros [= ->].
  - intros [= <- ->]. rewrite no_dot_app in Hx.
    change ("." +:+ y) with (String "." y) in Hx. simpl in Hx.
    by rewrite andb_false_r in Hx.
  - intros [= -> <-]. rewrite no_dot_app in Hy.
    change ("." +:+ x) with (String "." x) in Hy. simpl in Hy.
    by rewrite andb_false_r in Hy.
  - intros [= -> H]. destruct (IH b H) as [-> ->]. done.
Qed.

Lemma pretty_N_go_no_dot x s :
  no_dot s = true -> no_dot (pretty_N_go x s) = true.
Proof.
  revert s. induction (N.lt_wf_0 x) as [x _ IH]; intros s Hs.
  assert (x = 0 \/ 0 < x)%N as [->|Hpos] by lia.
  - by rewrite pretty_N_go_0.
  - rewrite pretty_N_go_step by done. apply IH.
    + by apply N.div_lt.
    + unfold no_dot. simpl. fold (no_dot s). rewrite Hs.
      unfold pretty_N_char. by repeat case_match.
Qed.

Lemma pretty_Z_no_dot (z : Z) : no_dot (pretty z) = true.
Proof.
  assert (HN : forall n : N, no_dot (pretty n) = true).
  { intros n. unfold pretty, pretty_N. case_decide; [done|].
    by apply pretty_N_go_no_dot. }
  destruct z as [|p|p]; [done|apply HN|].
  change (no_dot ("-" +:+ pretty (Npos p)) = true).
  rewrite no_dot_app. by rewrite HN.
Qed.

Lemma slice_file_name_inj a b :
  slice_file_name a = slice_file_name b -> a = b.
Proof.
  destruct a as [[n1 s1] e1], b as [[n2 s2] e2]. unfold slice_file_name.
  intros H.
  assert (H1 : (n1 +:+ ".rs" +:+ pretty s1) +:+ "." +:+ ("re" +:+ pretty e1)
               = (n2 +:+ ".rs" +:+ pretty s2) +:+ "."
                 +:+ ("re" +:+ pretty e2)).
  { rewrite !app_assoc_line. exact H. }
  apply dot_segment in H1 as [H1 H2];
    [|rewrite no_dot_app; by rewrite pretty_Z_no_dot..].
  apply (app_inv_head_str "re") in H2. apply (inj pretty) in H2.
  change (n1 +:+ "." +:+ ("rs" +:+ pretty s1)
          = n2 +:+ "." +:+ ("rs" +:+ pretty s2)) in H1.
  apply dot_segment in H1 as [H1 H3];
    [|rewrite no_dot_app; by rewrite pretty_Z_no_dot..].
  apply (app_inv_head_str "rs") in H3. apply (inj pretty) in H3.
  congruence.
Qed.

Lemma length_app_inv_tail x y s : x +:+ s = y +:+ s -> x = y.
Proof.
  revert y. induction x as [|c x IH]; intros [|d y];
    rewrite ?app_cons, ?app_empty_l.
  - done.
  - intros H. apply (f_equal String.length) in H.
    simpl in H. rewrite length_app_str in H. lia.
  - intros H. apply (f_equal String.length) in H.
    simpl in H. rewrite length_app_str in H. lia.
  - intros [= -> H]. by rewrite (IH y H).
Qed.

(** [os.path.join(a, b)] is [b] itself when [b] is absolute, and else [b]
    after a prefix that depends on [a] alone. *)
Lemma os_path_join_absolute a b : absolute b = true -> os_path_join a b = b.
Proof.
  destruct b as [|c b]; [discriminate|]. simpl.
  destruct (Ascii.eqb_spec c "/") as [->|]; [reflexivity|discriminate].
Qed.

Lemma os_path_join_relative a b :
  absolute b = false ->
  os_path_join a b
  = (if is_empty a || ends_with_slash a then a else a +:+ "/") +:+ b.
Proof.
  assert (Hjoin : (if is_empty a || ends_with_slash a
                   then a +:+ b else a +:+ "/" +:+ b)
                  = (if is_empty a || ends_with_slash a
                     then a else a +:+ "/") +:+ b).
  { destruct (_ || _); [reflexivity|by rewrite app_assoc_line]. }
  destruct b as [|c b]; [intros _; exact Hjoin|]. simpl.
  destruct (Ascii.eqb_spec c "/") as [->|Hc]; [discriminate|]. intros _.
  rewrite <- Hjoin. unfold os_path_join.
  destruct c as [[] [] [] [] [] [] [] []]; try reflexivity. by destruct Hc.
Qed.

Lemma os_path_join_inj a b1 b2 :
  absolute b1 = absolute b2 ->
  os_path_join a b1 = os_path_join a b2 -> b1 = b2.
Proof.
  destruct (absolute b2) eqn:H2; intros H1.
  - by rewrite !os_path_join_absolute.
  - rewrite !os_path_join_relative by done. apply app_inv_head_str.
Qed.

Lemma os_path_join_app a b s :
  is_empty b = false -> os_path_join a (b +:+ s) = os_path_join a b +:+ s.
Proof.
  intros Hb. destruct (absolute b) eqn:Habs.
  - rewrite !os_path_join_absolute; [done..|]. by destruct b.
  - rewrite !os_path_join_relative; [by rewrite app_assoc_line|done|].
    by destruct b.
Qed.

Lemma absolute_slice_file slice_id suffix :
  absolute (slice_file_name slice_id +:+ suffix) = absolute slice_id.1.1.
Proof.
  destruct slice_id as [[n s] e]. unfold slice_file_name. simpl.
  by destruct n.
Qed.

(** X9: two different slices never share a file: under one output
    directory, and with one suffix, the paths the workers build from the
    names of two different slices are different, as long as no region
    name starts with a slash (which [os.path.join] would take for an
    absolute path, dropping the directory). *)
Theorem X9_slices_get_distinct_files
    (dir suffix : string) (a b : string * Z * Z) :
  a <> b ->
  absolute a.1.1 = false -> absolute b.1.1 = false ->
  os_path_join dir (slice_file_name a +:+ suffix)
  <> os_path_join dir (slice_file_name b +:+ suffix).
Proof.
  intros Hab Ha Hb H. apply Hab.
  apply os_path_join_inj in H;
    [|by rewrite !absolute_slice_file, Ha, Hb].
  apply length_app_inv_tail in H. by apply slice_file_name_inj.
Qed.

(** Without the condition the paths can meet: a region whose name is an
    absolute path leaves the directory. *)
Example absolute_region_name_leaves_directory :
  os_path_join "/out" (slice_file_name ("/out/chr1", 0, 1000) +:+ ".fa")
  = os_path_join "/out" (slice_file_name ("chr1", 0, 1000) +:+ ".fa").
Proof. vm_compute. reflexivity. Qed.

(** ** The workers from start to end *)

Lemma slice_paths_differ dir slice_id (x y : string) :
  x <> y ->
  os_path_join dir (slice_file_name slice_id +:+ x)
  <> os_path_join dir (slice_file_name slice_id +:+ y).
Proof.
  intros Hxy H. apply os_path_join_inj in H.
  - by apply app_inv_head_str in H.
  - by rewrite !absolute_slice_file.
Qed.

Lemma slice_path_app dir slice_id (x y : string) :
  os_path_join dir (slice_file_name slice_id +:+ x) +:+ y
  = os_path_join dir (slice_file_name slice_id +:+ x +:+ y).
Proof.
  rewrite <- app_assoc_line. symmetry. apply os_path_join_app.
  destruct slice_id as [[n s] e]. unfold slice_file_name. by destruct n.
Qed.

Lemma absolute_os_path_join a b :
  absolute (os_path_join a b) = absolute b || absolute a.
Proof.
  destruct (absolute b) eqn:Hb.
  - by rewrite os_path_join_absolute.
  - rewrite os_path_join_relative by done.
    destruct a as [|c a]; [by rewrite app_empty_l|].
    by destruct (is_empty _ || ends_with_slash _).
Qed.

(** Two files of one slice are two files from wherever they are looked
    up. *)
Lemma slice_files_differ cwd dir slice_id (x y : string) :
  x <> y ->
  resolve cwd (os_path_join dir (slice_file_name slice_id +:+ x))
  <> resolve cwd (os_path_join dir (slice_file_name slice_id +:+ y)).
Proof.
  intros Hxy H. unfold resolve in H. apply os_path_join_inj in H.
  - by apply (slice_paths_differ dir slice_id x y).
  - by rewrite !absolute_os_path_join, !absolute_slice_file.
Qed.

Lemma not_dir_match {T} (o : option node) (A B : T) :
  o <> Some Dir ->
  match o with Some (File _) => B | Some Dir => A | None => B end = B.
Proof. by destruct o as [[c|]|]. Qed.

Lemma strings_append (l : list (option string)) ss x :
  mapM id l = Some ss -> mapM id (l ++ [Some x]) = Some (ss ++ [x])%list.
Proof.
  rewrite !mapM_Some. intros H. apply Forall2_app; [exact H|].
  by constructor.
Qed.

Ltac lookups :=
  rewrite ?lookup_insert_eq, ?lookup_delete_eq;
  repeat first
    [rewrite lookup_insert_ne by congruence
    |rewrite lookup_delete_ne by congruence];
  rewrite ?lookup_insert_eq, ?lookup_delete_eq.

(** Name again what the context names. *)
Ltac refold :=
  repeat match goal with x := _ |- _ => progress fold x end.

(** On a text all of whose lines the body gets past, reading on, the loop
    returns. *)
Lemma while_line_returns_on body (P : string -> Prop) fuel st :
  (forall st0,
      P (line st0) ->
      exists st1,
        body st0 = inr st1
        /\ line st1 = (readline (unread st0)).1
        /\ unread st1 = (readline (unread st0)).2) ->
  all_lines P (line st) (unread st) ->
  (pass_measure st <= fuel)%nat ->
  exists st', while_line body fuel st = (Ret tt, st').
Proof.
  intros Hbody. revert st.
  induction fuel as [|fuel IH]; intros st Hall Hfuel.
  - cbn. unfold pass_measure in Hfuel.
    destruct (is_empty (line st)); [by eexists|lia].
  - cbn. destruct (is_empty (line st)) eqn:Hline; [by eexists|].
    inversion Hall as [u Hl|l u _ HP Hrest Hl Hu].
    { rewrite <- Hl in Hline. discriminate. }
    destruct (Hbody st HP) as [st1 [-> [Hl1 Hu1]]].
    apply IH; [by rewrite Hl1, Hu1|].
    pose proof (next_line_measure st Hline) as Hlt.
    unfold pass_measure in *.
    rewrite line_next_line, unread_next_line in Hlt.
    rewrite Hl1, Hu1. lia.
Qed.

(** The Dust pass returns on a text whose numbers are within the limit. *)
Lemma dust_pass_returns region_name text fuel :
  every_line dust_in_limit text ->
  (String.length text <= fuel)%nat ->
  exists st,
    while_line (dust_body region_name) fuel (start_pass text) = (Ret tt, st).
Proof.
  intros Hall Hfuel.
  apply (while_line_returns_on _ (fun l => dust_in_limit l = true));
    [|exact Hall|pose proof (start_pass_measure text); lia].
  intros st0 Hlim. rewrite dust_body_step by done.
  eexists. split; [reflexivity|].
  rewrite line_next_line, unread_next_line.
  by destruct (dust_step _ _ _).
Qed.

(** X12: the Dust worker from start to end.  When the output directory
    is there, the template is a list of strings, none of the three paths
    of the slice is a directory, and the tool, once started, prints
    intervals of numbers of fewer than 4300 digits without touching a
    file, [multiprocess_dust] returns: the tool was run once, on the words
    of the template followed by the path of the sequence file, which then
    held the header and the sequence of the slice; the canonical file
    holds the records of a complete pass over what the tool printed; the
    sequence file and the capture file are gone; no other file has
    changed. *)
Theorem X12_dust_worker_end_to_end
    (float_repr : pyfloat -> string)
    (get_sequence :
       string -> Z -> Z -> Z -> string -> string -> gmap string node ->
       string)
    (subprocess_run :
       list string -> string -> gmap string node ->
       Z * gmap string node * string)
    (fuel : nat) (template : positive) (slice_id : string * Z * Z)
    (genome_file dust_output_dir : string) (l : list (option string))
    (ss : list string) (w : world) :
  let fasta :=
    os_path_join dust_output_dir (slice_file_name slice_id +:+ ".fa") in
  let raw := fasta +:+ ".dust" in
  let canonical :=
    os_path_join dust_output_dir
      (slice_file_name slice_id +:+ ".dust.gtf") in
  node_at w dust_output_dir = Some Dir ->
  w_heap w !! template = Some l ->
  mapM id l = Some ss ->
  node_at w fasta <> Some Dir ->
  node_at w raw <> Some Dir ->
  node_at w canonical <> Some Dir ->
  (forall argv cwd fs, (subprocess_run argv cwd fs).1.2 = fs) ->
  (forall argv cwd fs,
      every_line dust_in_limit (subprocess_run argv cwd fs).2) ->
  (forall argv cwd fs,
      (String.length (subprocess_run argv cwd fs).2 <= fuel)%nat) ->
  exists rc out st fs w',
    multiprocess_dust float_repr get_sequence subprocess_run fuel template
      slice_id genome_file dust_output_dir w
    = (Ret tt, w')
    /\ fs !! resolve (w_cwd w) fasta
       = Some (File (">" +:+ slice_id.1.1 +:+ nl
                     +:+ get_sequence slice_id.1.1 slice_id.1.2 slice_id.2 1
                           genome_file dust_output_dir (w_fs w)
                     +:+ nl))
    /\ subprocess_run (ss ++ [fasta])%list (w_cwd w) fs = (rc, fs, out)
    /\ while_line (dust_body slice_id.1.1) fuel (start_pass out)
       = (Ret tt, st)
    /\ node_at w' canonical
       = Some (File (gtf_text float_repr (written st)))
    /\ node_at w' raw = None
    /\ node_at w' fasta = None
    /\ (forall file,
          file <> resolve (w_cwd w) canonical ->
          file <> resolve (w_cwd w) raw ->
          file <> resolve (w_cwd w) fasta ->
          w_fs w' !! file = w_fs w !! file)
    /\ w_trace w'
       = (w_trace w
          ++ [EvLog ("Processing slice to find low complexity regions "
                     +:+ "with Dust: " +:+ slice_id.1.1 +:+ ":"
                     +:+ pretty slice_id.1.2 +:+ ":" +:+ pretty slice_id.2);
              EvLog (join " " (ss ++ [fasta])%list);
              EvRun (ss ++ [fasta])%list rc])%list.
Proof.
  intros fasta raw canonical _ Hheap Hss Hfasta Hraw Hcanonical Hquiet
    Hlimit Hfuel.
  unfold node_at in *.
  set (kf := resolve (w_cwd w) fasta) in *.
  set (kr := resolve (w_cwd w) raw) in *.
  set (kc := resolve (w_cwd w) canonical) in *.
  assert (Hfr : kf <> kr).
  { unfold kf, kr, raw, fasta. rewrite slice_path_app.
    apply slice_files_differ. discriminate. }
  assert (Hfc : kf <> kc) by (apply slice_files_differ; discriminate).
  assert (Hrc : kr <> kc).
  { unfold kr, kc, raw, fasta. rewrite slice_path_app.
    apply slice_files_differ. discriminate. }
  unfold multiprocess_dust, write_region_fasta, slice_log, run_tool,
    create_dust_gtf, parse_pass.
  destruct slice_id as [[region_name start] end_].
  mprim. refold.
  rewrite (not_dir_match _ _ _ Hfasta). mprim. refold. lookups.
  rewrite (not_dir_match _ _ _ Hraw). mprim. refold. rewrite Hheap. mprim.
  refold. lookups. mprim. refold. lookups. mprim. refold.
  rewrite (strings_append _ _ _ Hss). mprim. refold.
  lookups. mprim. refold. rewrite (strings_append _ _ _ Hss). mprim. refold.
  match goal with
  | |- context [subprocess_run ?argv ?cwd ?fs] =>
      pose proof (Hquiet argv cwd fs) as Hsame;
      pose proof (Hfuel argv cwd fs) as Hlen;
      pose proof (Hlimit argv cwd fs) as Hlim;
      destruct (subprocess_run argv cwd fs) as [[rc fs'] out] eqn:Hrun
  end.
  simpl in Hsame, Hlen, Hlim. subst fs'. mprim. refold. lookups. mprim.
  refold. lookups.
  rewrite (not_dir_match _ _ _ Hcanonical). mprim. refold. lookups.
  destruct (dust_pass_returns region_name out fuel Hlim Hlen)
    as [st Hloop].
  rewrite Hloop. mprim. refold. lookups. mprim. refold. lookups. mprim.
  refold.
  eexists rc, out, st, _, _. split; [reflexivity|].
  cbn [w_fs w_cwd w_trace]. refold.
  split; [|split; [exact Hrun|]]; [by lookups|].
  split; [exact Hloop|]. repeat split.
  - by lookups.
  - by lookups.
  - by lookups.
  - intros file Hc Hr Hf. by lookups.
  - by rewrite <- !app_assoc.
Qed.

(** The parse step logs nothing and stays in its directory. *)
Lemma parse_pass_quiet float_repr body fuel raw canonical w :
  w_trace (parse_pass float_repr body fuel raw canonical w).2 = w_trace w
  /\ w_cwd (parse_pass float_repr body fuel raw canonical w).2 = w_cwd w.
Proof.
  unfold parse_pass. mprim.
  destruct (w_fs w !! resolve (w_cwd w) raw) as [[c|]|]; cbn; [|done..].
  destruct (w_fs w !! resolve (w_cwd w) canonical) as [[c'|]|]; cbn;
    [|done|];
    by destruct (while_line _ _ _) as [[[]|e|] st].
Qed.

(** X13: the TandemRepeat worker puts the path of the sequence file at
    position 1 of a copy of the template, whatever was there, and leaves
    the other items where they are (the Masker and Dust workers append
    it): with a template of at least two items it moves to the output
    directory, logs the command and runs the tool once on it, and stays
    in that directory however the parse step and the removals end. *)
Theorem X13_trf_worker_command
    (float : string -> option pyfloat) (float_repr : pyfloat -> string)
    (get_sequence :
       string -> Z -> Z -> Z -> string -> string -> gmap string node ->
       string)
    (subprocess_run :
       list string -> string -> gmap string node ->
       Z * gmap string node * string)
    (fuel : nat) (template : positive) (slice_id : string * Z * Z)
    (genome_file trf_output_dir trf_output_extension : string)
    (l : list (option string)) (ss : list string) (w : world) :
  let fasta :=
    os_path_join trf_output_dir (slice_file_name slice_id +:+ ".fa") in
  let w' :=
    (multiprocess_trf float float_repr get_sequence subprocess_run fuel
       template slice_id genome_file trf_output_dir trf_output_extension
       w).2 in
  node_at w trf_output_dir = Some Dir ->
  w_heap w !! template = Some l ->
  (2 <= length l)%nat ->
  mapM id (<[1%nat := Some fasta]> l) = Some ss ->
  node_at w fasta <> Some Dir ->
  exists rc,
    w_trace w'
    = (w_trace w
       ++ [EvLog ("Processing slice to find tandem repeats with TRF: "
                  +:+ slice_id.1.1 +:+ ":" +:+ pretty slice_id.1.2
                  +:+ ":" +:+ pretty slice_id.2);
           EvChdir trf_output_dir;
           EvLog (join " " ss);
           EvRun ss rc])%list
    /\ w_cwd w' = resolve (w_cwd w) trf_output_dir.
Proof.
  intros fasta w' _ Hheap Hlen Hss Hfasta. subst w'. unfold node_at in *.
  unfold multiprocess_trf, write_region_fasta, slice_log, run_tool,
    create_trf_gtf.
  destruct slice_id as [[region_name start] end_].
  fold fasta. mprim. refold.
  rewrite (not_dir_match _ _ _ Hfasta). mprim. refold. rewrite Hheap. mprim.
  lookups. mprim.
  rewrite (proj2 (Nat.ltb_lt 1 (length l))) by lia. mprim.
  lookups. mprim. rewrite Hss. mprim. lookups. mprim. rewrite Hss. mprim.
  destruct (subprocess_run _ _ _) as [[rc fs'] out]. exists rc. mprim.
  match goal with
  | |- context [parse_pass ?r ?b ?f ?i ?o ?w0] =>
      destruct (parse_pass_quiet r b f i o w0) as [Htrace Hcwd];
      destruct (parse_pass r b f i o w0) as [[[]|e|] w1]
  end; cbn in Htrace, Hcwd |- *;
    [|by rewrite Htrace, Hcwd, <- !app_assoc..].
  rewrite Hcwd.
  destruct (w_fs w1 !! _) as [[c|]|]; cbn;
    [|by rewrite Htrace, ?Hcwd, <- !app_assoc..].
  destruct (delete _ _ !! _) as [[c'|]|]; cbn;
    by rewrite Htrace, ?Hcwd, <- !app_assoc.
Qed.

(** X14: with a template of fewer than two items the assignment
    [trf_cmd[1] = ...] of the TandemRepeat worker raises [IndexError]: the
    tool is not run, and the sequence file, written before, is left
    behind. *)
Theorem X14_trf_worker_short_template
    (float : string -> option pyfloat) (float_repr : pyfloat -> string)
    (get_sequence :
       string -> Z -> Z -> Z -> string -> string -> gmap string node ->
       string)
    (subprocess_run :
       list string -> string -> gmap string node ->
       Z * gmap string node * string)
    (fuel : nat) (template : positive) (slice_id : string * Z * Z)
    (genome_file trf_output_dir trf_output_extension : string)
    (l : list (option string)) (w : world) :
  let fasta :=
    os_path_join trf_output_dir (slice_file_name slice_id +:+ ".fa") in
  let r :=
    multiprocess_trf float float_repr get_sequence subprocess_run fuel
      template slice_id genome_file trf_output_dir trf_output_extension w in
  node_at w trf_output_dir = Some Dir ->
  w_heap w !! template = Some l ->
  (length l < 2)%nat ->
  node_at w fasta <> Some Dir ->
  r.1 = Raise IndexError
  /\ w_trace r.2
     = (w_trace w
        ++ [EvLog ("Processing slice to find tandem repeats with TRF: "
                   +:+ slice_id.1.1 +:+ ":" +:+ pretty slice_id.1.2
                   +:+ ":" +:+ pretty slice_id.2);
            EvChdir trf_output_dir])%list
  /\ w_fs r.2 !! resolve (w_cwd w) fasta
     = Some (File (">" +:+ slice_id.1.1 +:+ nl
                   +:+ get_sequence slice_id.1.1 slice_id.1.2 slice_id.2 1
                         genome_file trf_output_dir (w_fs w)
                   +:+ nl)).
Proof.
  intros fasta r _ Hheap Hlen Hfasta. subst r. unfold node_at in *.
  unfold multiprocess_trf, write_region_fasta, slice_log.
  destruct slice_id as [[region_name start] end_].
  fold fasta. mprim. refold.
  rewrite (not_dir_match _ _ _ Hfasta). mprim. refold. rewrite Hheap. mprim.
  lookups. mprim.
  rewrite (proj2 (Nat.ltb_ge 1 (length l))) by lia. mprim.
  repeat split; [by rewrite <- !app_assoc|by lookups].
Qed.

(** What the parse step has done when it returns. *)
Lemma parse_pass_on_return float_repr body fuel raw canonical w w1 :
  resolve (w_cwd w) raw <> resolve (w_cwd w) canonical ->
  parse_pass float_repr body fuel raw canonical w = (Ret tt, w1) ->
  exists text st,
    node_at w raw = Some (File text)
    /\ while_line body fuel (start_pass text) = (Ret tt, st)
    /\ w_fs w1
       = <[resolve (w_cwd w) canonical
           := File (gtf_text float_repr (written st))]>
           (<[resolve (w_cwd w) canonical := File EmptyString]> (w_fs w)).
Proof.
  unfold node_at, parse_pass. intros Hne. mprim.
  destruct (w_fs w !! resolve (w_cwd w) raw) as [[c|]|] eqn:Hraw; cbn;
    [|discriminate..].
  destruct (w_fs w !! resolve (w_cwd w) canonical) as [[c'|]|]; cbn;
    [|discriminate|];
    rewrite lookup_insert_ne, Hraw by congruence;
    (destruct (while_line body fuel (start_pass c))
       as [[[]|e|] st] eqn:Hloop; cbn; [|discriminate..]);
    intros [= <-]; by exists c, st.
Qed.

(** X15: whenever the TandemRepeat worker returns, the tool has been run,
    in the output directory, on the template with the path of the
    sequence file at position 1, and has left a report at the path of the
    sequence file followed by the extension; the canonical file of the
    slice then holds the records of a complete pass over that report, and
    the report and the sequence file are gone (unlike the Masker worker,
    which removes the canonical file). *)
Theorem X15_trf_worker_on_return
    (float : string -> option pyfloat) (float_repr : pyfloat -> string)
    (get_sequence :
       string -> Z -> Z -> Z -> string -> string -> gmap string node ->
       string)
    (subprocess_run :
       list string -> string -> gmap string node ->
       Z * gmap string node * string)
    (fuel : nat) (template : positive) (slice_id : string * Z * Z)
    (genome_file trf_output_dir trf_output_extension : string)
    (w : world) :
  let fasta :=
    os_path_join trf_output_dir (slice_file_name slice_id +:+ ".fa") in
  let raw := fasta +:+ trf_output_extension in
  let canonical :=
    os_path_join trf_output_dir (slice_file_name slice_id +:+ ".trf.gtf") in
  let cwd' := resolve (w_cwd w) trf_output_dir in
  let fs1 :=
    <[resolve (w_cwd w) fasta
      := File (">" +:+ slice_id.1.1 +:+ nl
               +:+ get_sequence slice_id.1.1 slice_id.1.2 slice_id.2 1
                     genome_file trf_output_dir (w_fs w)
               +:+ nl)]> (w_fs w) in
  let r :=
    multiprocess_trf float float_repr get_sequence subprocess_run fuel
      template slice_id genome_file trf_output_dir trf_output_extension w in
  node_at w trf_output_dir = Some Dir ->
  r.1 = Ret tt ->
  exists l ss rc fs2 out text st,
    w_heap w !! template = Some l
    /\ mapM id (<[1%nat := Some fasta]> l) = Some ss
    /\ subprocess_run ss cwd' fs1 = (rc, fs2, out)
    /\ fs2 !! resolve cwd' raw = Some (File text)
    /\ while_line (trf_body float slice_id.1.1) fuel (start_pass text)
       = (Ret tt, st)
    /\ node_at r.2 canonical
       = Some (File (gtf_text float_repr (written st)))
    /\ node_at r.2 raw = None
    /\ node_at r.2 fasta = None.
Proof.
  intros fasta raw canonical cwd' fs1 r _. subst r. unfold node_at.
  assert (Hrc : resolve cwd' raw <> resolve cwd' canonical).
  { unfold raw, fasta. rewrite slice_path_app.
    apply slice_files_differ.
    change (".fa" +:+ trf_output_extension)
      with (String "." (String "f" (String "a" trf_output_extension))).
    discriminate. }
  assert (Hfc : resolve cwd' fasta <> resolve cwd' canonical)
    by (apply slice_files_differ; discriminate).
  unfold multiprocess_trf, write_region_fasta, slice_log, run_tool,
    create_trf_gtf.
  destruct slice_id as [[region_name start] end_].
  mprim. refold.
  destruct (w_fs w !! resolve (w_cwd w) fasta) as [[c|]|]; mprim;
    [|discriminate|].
  all: refold; rewrite insert_insert_eq; fold fs1.
  all: destruct (w_heap w !! template) as [l|]; mprim; [|discriminate].
  all: lookups; mprim.
  all: destruct (1 <? length l)%nat; mprim; [|discriminate].
  all: lookups; mprim; refold.
  all: destruct (mapM id _) as [ss|] eqn:Hss; mprim; [|discriminate].
  all: lookups; mprim; refold; rewrite Hss; mprim; refold.
  all: destruct (subprocess_run _ _ _) as [[rc fs2] out] eqn:Hrun; mprim.
  all: refold.
  all: match goal with
       | |- context [parse_pass ?r ?b ?f ?i ?o ?w0] =>
           destruct (parse_pass_quiet r b f i o w0) as [_ Hcwd];
           destruct (parse_pass r b f i o w0) as [[[]|e|] w1] eqn:Hparse
       end; mprim; [|discriminate..].
  all: apply parse_pass_on_return in Hparse
         as [text [st [Hraw [Hloop Hfs]]]]; [|exact Hrc].
  all: unfold node_at in Hraw; cbn [w_fs w_cwd snd] in Hraw, Hfs, Hcwd.
  all: fold cwd' in Hraw, Hfs, Hcwd.
  all: rewrite Hcwd, Hfs; lookups; rewrite Hraw; mprim.
  all: rewrite Hcwd.
  all: destruct (decide (resolve cwd' raw = resolve cwd' fasta))
         as [Heq|Hne]; [rewrite <- Heq; lookups; discriminate|].
  all: lookups; destruct (fs2 !! resolve cwd' fasta) as [[c2|]|]; mprim;
         [|discriminate..].
  all: intros _; exists l, ss, rc, fs2, out, text, st.
  all: cbn [w_fs w_cwd snd fst].
  all: repeat split; try done; by lookups.
Qed.

(** ** The parse step and the other files *)

(** X16: however it ends, the parse step of each of the three tools
    changes no file but the canonical one: the raw output, in particular,
    is left as it is, and it is the worker that removes it. *)
Theorem X16_parse_changes_only_canonical
    (float : string -> option pyfloat) (float_repr : pyfloat -> string)
    (fuel : nat) (raw canonical region_name file : string) (w : world) :
  file <> resolve (w_cwd w) canonical ->
  w_fs (create_repeatmasker_gtf float_repr fuel raw canonical region_name
          w).2 !! file
  = w_fs w !! file
  /\ w_fs (create_dust_gtf float_repr fuel raw canonical region_name w).2
     !! file
     = w_fs w !! file
  /\ w_fs (create_trf_gtf float float_repr fuel raw canonical region_name
             w).2 !! file
     = w_fs w !! file.
Proof.
  intros Hne. repeat split; by apply parse_pass_frame.
Qed.

(** X17: a parse step whose canonical path is the path of the raw output
    loses the report: opening the file for writing empties it before the
    first line is read, so the loop is not entered, the call returns at
    once, whatever the fuel, and the file is left empty. *)
Theorem X17_parse_in_place_loses_report
    (float : string -> option pyfloat) (float_repr : pyfloat -> string)
    (fuel : nat) (file region_name text : string) (w : world) :
  node_at w file = Some (File text) ->
  (create_repeatmasker_gtf float_repr fuel file file region_name w).1
  = Ret tt
  /\ node_at (create_repeatmasker_gtf float_repr fuel file file region_name
               w).2 file
     = Some (File EmptyString)
  /\ (create_dust_gtf float_repr fuel file file region_name w).1 = Ret tt
  /\ node_at (create_dust_gtf float_repr fuel file file region_name w).2
       file
     = Some (File EmptyString)
  /\ (create_trf_gtf float float_repr fuel file file region_name w).1
     = Ret tt
  /\ node_at (create_trf_gtf float float_repr fuel file file region_name
               w).2 file
     = Some (File EmptyString).
Proof.
  unfold node_at. intros Hfile.
  assert (Hpass : forall body,
    parse_pass float_repr body fuel file file w
    = (Ret tt,
       World (<[resolve (w_cwd w) file := File EmptyString]>
                (<[resolve (w_cwd w) file := File EmptyString]> (w_fs w)))
         (w_cwd w) (w_heap w) (w_trace w))).
  { intros body. unfold parse_pass. mprim. rewrite Hfile. mprim.
    rewrite Hfile. mprim. lookups. by destruct fuel. }
  unfold create_repeatmasker_gtf, create_dust_gtf, create_trf_gtf.
  rewrite !Hpass. cbn. by lookups.
Qed.

(** ** A report line and its fields *)

Lemma join_cons sep x y l :
  join sep (x :: y :: l) = x +:+ sep +:+ join sep (y :: l).
Proof. reflexivity. Qed.

(** [split] gives back the words that [" ".join] has put on a line. *)
Lemma split_join_line ws :
  forallb word ws = true -> split (join " " ws +:+ nl) = ws.
Proof.
  induction ws as [|w ws IH]; [reflexivity|]. simpl forallb.
  intros Hws. apply andb_prop in Hws as [Hw Hws].
  apply andb_prop in Hw as [Hne Hw]. apply negb_true_iff in Hne.
  destruct ws as [|y l].
  - simpl join. by rewrite split_word.
  - rewrite join_cons, !app_assoc_line, split_word by done.
    rewrite app_cons, app_empty_l, split_space by done.
    by rewrite (IH Hws).
Qed.

Lemma re_masker_fields score field fields tail :
  is_number score = true ->
  re_masker (join " " (score :: field :: fields) +:+ tail) = true.
Proof.
  intros Hscore. apply andb_prop in Hscore as [Hne Hds].
  rewrite join_cons, !app_assoc_line. unfold re_masker.
  assert (Hskip : forall s, skip_spaces (score +:+ s) = score +:+ s).
  { intros s. destruct score as [|c ds]; [discriminate|].
    simpl in Hds. apply andb_prop in Hds as [Hc _].
    rewrite app_cons. simpl. by rewrite (digit_not_space c Hc). }
  rewrite Hskip, span_digits_app by done. by rewrite Hne.
Qed.

(** X18: a Masker line is read field by field, and a star at its end is
    dropped: for 15 fields without white space, the first of them a
    number, the body of the loop of [create_repeatmasker_gtf], at the line
    made of the fields and a last field [*], writes the record of the 15
    fields under the current count and reads on, and so it does at the
    line made of the 15 fields alone unless its last field is itself a
    star. *)
Theorem X18_masker_record_from_fields
    (region_name : string) (st : pass) (fields : list string) :
  length fields = 15%nat ->
  forallb word fields = true ->
  is_number (fields !!! 0%nat) = true ->
  (line st = join " " (fields ++ ["*"]) +:+ nl ->
   repeatmasker_body region_name st
   = inr (next_line
            (emit (repeatmasker_feature region_name (repeat_count st) fields)
               st)))
  /\ (last fields <> Some "*" ->
      line st = join " " fields +:+ nl ->
      repeatmasker_body region_name st
      = inr (next_line
               (emit (repeatmasker_feature region_name (repeat_count st)
                        fields) st))).
Proof.
  intros Hlen Hwords Hscore.
  destruct fields as [|score [|field fields]]; [discriminate..|].
  simpl in Hscore. unfold repeatmasker_body, repeatmasker_fields. split.
  - intros ->.
    change ((score :: field :: fields) ++ ["*"])%list
      with (score :: field :: (fields ++ ["*"]))%list.
    rewrite re_masker_fields by done.
    change (score :: field :: (fields ++ ["*"]))%list
      with ((score :: field :: fields) ++ ["*"])%list.
    rewrite split_join_line by (by rewrite forallb_app, Hwords).
    rewrite last_snoc. simpl String.eqb. cbv iota.
    rewrite removelast_last, Hlen. reflexivity.
  - intros Hlast ->. rewrite re_masker_fields, split_join_line by done.
    destruct (last _) as [x|] eqn:Hx; [|by apply last_None in Hx].
    destruct (String.eqb_spec x "*") as [->|_]; [done|].
    by rewrite Hlen.
Qed.

(** A line whose period is not a number ends the TandemRepeat pass with
    [ValueError]. *)
Example trf_unreadable_period_raises :
  (create_trf_gtf Sample.float Sample.float_repr 100 Sample.trf_raw
     Sample.trf_canonical "chr1"
     (Sample.raw_world Sample.trf_raw
        ("100 123 x 3 8 85 0 45 25 25 25 25 2 ACGTACGT ACGTACGT" +:+ nl))).1
  = Raise ValueError.
Proof. vm_compute. reflexivity. Qed.

(** ** The workers, the entry points and the parsers on the sample inputs *)

Lemma X9_slices_get_distinct_files_witness :
  os_path_join "/out" (slice_file_name ("chr1", 0, 1000000) +:+ ".fa")
  <> os_path_join "/out"
       (slice_file_name ("chr1", 1000000, 1200000) +:+ ".fa").
Proof.
  apply (X9_slices_get_distinct_files "/out" ".fa"
           ("chr1", 0, 1000000) ("chr1", 1000000, 1200000));
    [discriminate|reflexivity|reflexivity].
Defined.

Lemma X10_no_output_runs_pipeline_witness :
  ran_pipeline Sample.create_dir Sample.get_seq_region_lengths
    Sample.create_slice_ids Sample.slice_output_to_gtf Sample.pool_run
    WRepeatMasker
    (generic_repeatmasker_cmd (Some "RepeatMasker") (Some "homo") None)
    None "repeatmasker_output" ".rm.gtf" "repeatmask" "genome.fa" "/work"
    2 Sample.stale_world
    (run_repeatmasker_regions Sample.check_exe Sample.create_dir
       Sample.check_gtf_content Sample.get_seq_region_lengths
       Sample.create_slice_ids Sample.slice_output_to_gtf Sample.pool_run
       "genome.fa" None None None "/work" 2 Sample.stale_world)
  /\ ran_pipeline Sample.create_dir Sample.get_seq_region_lengths
       Sample.create_slice_ids Sample.slice_output_to_gtf Sample.pool_run
       WDust (fun _ => [Some "dustmasker"; Some "-in"])
       None "dust_output" ".dust.gtf" "dust" "genome.fa" "/work"
       2 Sample.stale_world
       (run_dust_regions Sample.check_exe Sample.create_dir
          Sample.check_gtf_content Sample.get_seq_region_lengths
          Sample.create_slice_ids Sample.slice_output_to_gtf
          Sample.pool_run "genome.fa" None "/work" 2 Sample.stale_world)
  /\ ran_pipeline Sample.create_dir Sample.get_seq_region_lengths
       Sample.create_slice_ids Sample.slice_output_to_gtf Sample.pool_run
       WTrf (fun _ => Sample.trf_cmd)
       (Some Sample.trf_ext) "trf_output" ".trf.gtf" "trf" "genome.fa"
       "/work" 2 Sample.stale_world
       (run_trf_repeats Sample.check_exe Sample.create_dir
          Sample.check_gtf_content Sample.get_seq_region_lengths
          Sample.create_slice_ids Sample.slice_output_to_gtf
          Sample.pool_run "genome.fa" None "/work" 2 Sample.stale_world).
Proof.
  apply (X10_no_output_runs_pipeline Sample.check_exe Sample.create_dir
           Sample.check_gtf_content Sample.get_seq_region_lengths
           Sample.create_slice_ids Sample.slice_output_to_gtf
           Sample.pool_run "genome.fa" None None None None None "/work" 2
           Sample.stale_world);
    [lia|by eexists|by eexists|by eexists
    |vm_compute; left; reflexivity|vm_compute; left; reflexivity
    |vm_compute; right; discriminate].
Defined.

Lemma X11_pool_size_below_one_raises_witness :
  pool_refused Sample.create_dir "repeatmasker_output" "genome.fa" "/work"
    Sample.stale_world
    (run_repeatmasker_regions Sample.check_exe Sample.create_dir
       Sample.check_gtf_content Sample.get_seq_region_lengths
       Sample.create_slice_ids Sample.slice_output_to_gtf Sample.pool_run
       "genome.fa" None None None "/work" 0 Sample.stale_world)
  /\ pool_refused Sample.create_dir "dust_output" "genome.fa" "/work"
       Sample.stale_world
       (run_dust_regions Sample.check_exe Sample.create_dir
          Sample.check_gtf_content Sample.get_seq_region_lengths
          Sample.create_slice_ids Sample.slice_output_to_gtf
          Sample.pool_run "genome.fa" None "/work" 0 Sample.stale_world)
  /\ pool_refused Sample.create_dir "trf_output" "genome.fa" "/work"
       Sample.stale_world
       (run_trf_repeats Sample.check_exe Sample.create_dir
          Sample.check_gtf_content Sample.get_seq_region_lengths
          Sample.create_slice_ids Sample.slice_output_to_gtf
          Sample.pool_run "genome.fa" None "/work" 0 Sample.stale_world).
Proof.
  apply (X11_pool_size_below_one_raises Sample.check_exe Sample.create_dir
           Sample.check_gtf_content Sample.get_seq_region_lengths
           Sample.create_slice_ids Sample.slice_output_to_gtf
           Sample.pool_run "genome.fa" None None None None None "/work" 0
           Sample.stale_world);
    [lia|by eexists|by eexists|by eexists
    |vm_compute; left; reflexivity|vm_compute; left; reflexivity
    |vm_compute; right; discriminate].
Defined.

Lemma X12_dust_worker_end_to_end_witness :
  exists st w',
    multiprocess_dust Sample.float_repr Sample.get_sequence Sample.dust_tool
      100 1 Sample.slice "genome.fa" "/out"
      (Sample.out_world Sample.dust_cmd)
    = (Ret tt, w')
    /\ node_at w'
         (os_path_join "/out" (slice_file_name Sample.slice +:+ ".dust.gtf"))
       = Some (File (gtf_text Sample.float_repr (written st)))
    /\ node_at w'
         (os_path_join "/out" (slice_file_name Sample.slice +:+ ".fa"))
       = None.
Proof.
  destruct (X12_dust_worker_end_to_end Sample.float_repr Sample.get_sequence
              Sample.dust_tool 100 1 Sample.slice "genome.fa" "/out"
              Sample.dust_cmd ["dustmasker"; "-in"]
              (Sample.out_world Sample.dust_cmd))
    as [rc [out [st [fs [w' [Hret [_ [_ [_ [Hc [_ [Hf _]]]]]]]]]]]];
    [reflexivity|reflexivity|reflexivity|vm_compute; discriminate
    |vm_compute; discriminate|vm_compute; discriminate
    |intros; reflexivity
    |intros; unfold every_line;
     repeat first
       [ apply all_lines_end
       | apply all_lines_next; [reflexivity|vm_compute; reflexivity|] ]
    |intros; vm_compute; lia|].
  exists st, w'. split; [exact Hret|]. split; [exact Hc|exact Hf].
Defined.

Lemma X13_trf_worker_command_witness :
  exists rc,
    w_trace
      (multiprocess_trf Sample.float Sample.float_repr Sample.get_sequence
         (Sample.trf_tool Sample.trf_text) 500 1 Sample.slice "genome.fa"
         "/out" Sample.trf_ext (Sample.out_world Sample.trf_cmd)).2
    = [EvLog "Processing slice to find tandem repeats with TRF: chr1:0:1000";
       EvChdir "/out";
       EvLog (join " " Sample.trf_argv);
       EvRun Sample.trf_argv rc].
Proof.
  destruct (X13_trf_worker_command Sample.float Sample.float_repr
              Sample.get_sequence (Sample.trf_tool Sample.trf_text) 500 1
              Sample.slice "genome.fa" "/out" Sample.trf_ext Sample.trf_cmd
              Sample.trf_argv (Sample.out_world Sample.trf_cmd))
    as [rc [Htrace _]];
    [reflexivity|reflexivity|vm_compute; lia|vm_compute; reflexivity
    |vm_compute; discriminate|].
  exists rc. rewrite Htrace. vm_compute. reflexivity.
Defined.

Lemma X14_trf_worker_short_template_witness :
  (multiprocess_trf Sample.float Sample.float_repr Sample.get_sequence
     (Sample.trf_tool Sample.trf_text) 500 1 Sample.slice "genome.fa"
     "/out" Sample.trf_ext (Sample.out_world [Some "trf"])).1
  = Raise IndexError.
Proof.
  apply (X14_trf_worker_short_template Sample.float Sample.float_repr
           Sample.get_sequence (Sample.trf_tool Sample.trf_text) 500 1
           Sample.slice "genome.fa" "/out" Sample.trf_ext [Some "trf"]
           (Sample.out_world [Some "trf"]));
    [reflexivity|reflexivity|vm_compute; lia|vm_compute; discriminate].
Defined.

Lemma X15_trf_worker_on_return_witness :
  exists (fs2 : gmap string node) text st,
    fs2 !! resolve (resolve "/" "/out")
             (os_path_join "/out" (slice_file_name Sample.slice +:+ ".fa")
              +:+ Sample.trf_ext)
    = Some (File text)
    /\ while_line (trf_body Sample.float "chr1") 500 (start_pass text)
       = (Ret tt, st)
    /\ node_at
         (multiprocess_trf Sample.float Sample.float_repr
            Sample.get_sequence (Sample.trf_tool Sample.trf_text) 500 1
            Sample.slice "genome.fa" "/out" Sample.trf_ext
            (Sample.out_world Sample.trf_cmd)).2
         (os_path_join "/out" (slice_file_name Sample.slice +:+ ".trf.gtf"))
       = Some (File (gtf_text Sample.float_repr (written st))).
Proof.
  destruct (X15_trf_worker_on_return Sample.float Sample.float_repr
              Sample.get_sequence (Sample.trf_tool Sample.trf_text) 500 1
              Sample.slice "genome.fa" "/out" Sample.trf_ext
              (Sample.out_world Sample.trf_cmd))
    as [l [ss [rc [fs2 [out [text [st [_ [_ [_ [Hraw [Hloop [Hc _]]]]]]]]]]]]];
    [reflexivity|vm_compute; reflexivity|].
  exists fs2, text, st. split; [exact Hraw|]. split; [exact Hloop|exact Hc].
Defined.

(** The files of the sample slice after the two workers. *)
Example workers_sample_files :
  os_path_join "/out" (slice_file_name Sample.slice +:+ ".dust.gtf")
  = Sample.dust_canonical
  /\ os_path_join "/out" (slice_file_name Sample.slice +:+ ".trf.gtf")
     = Sample.trf_canonical
  /\ os_path_join "/out" (slice_file_name Sample.slice +:+ ".fa")
     = Sample.fasta
  /\ node_at
       (multiprocess_trf Sample.float Sample.float_repr
          Sample.get_sequence (Sample.trf_tool Sample.trf_text) 500 1
          Sample.slice "genome.fa" "/out" Sample.trf_ext
          (Sample.out_world Sample.trf_cmd)).2
       Sample.trf_canonical
     = Some (File (gtf_text Sample.float_repr
                     [trf_feature "chr1" 1
                        (split Sample.trf_line) (of_int 45)])).
Proof. vm_compute. repeat split; reflexivity. Qed.

Lemma X16_parse_changes_only_canonical_witness :
  w_fs (create_repeatmasker_gtf Sample.float_repr 400 Sample.rm_raw
          Sample.rm_canonical "chr1"
          (Sample.raw_world Sample.rm_raw Sample.rm_text_cut)).2
  !! Sample.rm_raw
  = Some (File Sample.rm_text_cut).
Proof.
  apply (X16_parse_changes_only_canonical Sample.float Sample.float_repr
           400 Sample.rm_raw Sample.rm_canonical "chr1" Sample.rm_raw
           (Sample.raw_world Sample.rm_raw Sample.rm_text_cut)).
  vm_compute. discriminate.
Defined.

Lemma X17_parse_in_place_loses_report_witness :
  node_at
    (create_dust_gtf Sample.float_repr 40 Sample.dust_raw Sample.dust_raw
       "chr1" (Sample.raw_world Sample.dust_raw Sample.dust_text)).2
    Sample.dust_raw
  = Some (File EmptyString).
Proof.
  apply (X17_parse_in_place_loses_report Sample.float Sample.float_repr 40
           Sample.dust_raw "chr1" Sample.dust_text
           (Sample.raw_world Sample.dust_raw Sample.dust_text)).
  reflexivity.
Defined.

Lemma X18_masker_record_from_fields_witness :
  repeatmasker_body "chr1"
    (Sample.pass_at (join " " (Sample.rm_fields ++ ["*"]) +:+ nl) 1)
  = inr (next_line
           (emit (repeatmasker_feature "chr1" 1 Sample.rm_fields)
              (Sample.pass_at (join " " (Sample.rm_fields ++ ["*"]) +:+ nl)
                 1)))
  /\ repeatmasker_body "chr1"
       (Sample.pass_at (join " " Sample.rm_fields +:+ nl) 1)
     = inr (next_line
              (emit (repeatmasker_feature "chr1" 1 Sample.rm_fields)
                 (Sample.pass_at (join " " Sample.rm_fields +:+ nl) 1))).
Proof.
  split.
  - destruct (X18_masker_record_from_fields "chr1"
                (Sample.pass_at
                   (join " " (Sample.rm_fields ++ ["*"]) +:+ nl) 1)
                Sample.rm_fields) as [Hstar _]; [reflexivity..|].
    apply Hstar. reflexivity.
  - destruct (X18_masker_record_from_fields "chr1"
                (Sample.pass_at (join " " Sample.rm_fields +:+ nl) 1)
                Sample.rm_fields) as [_ Hplain]; [reflexivity..|].
    apply Hplain; [discriminate|reflexivity].
Defined.
